(** * ToolSorter (JukTool.py): catalog identity, import/export merge,
      loaders, enrichment and search

    A shallow embedding of the parts of [JukTool.py] that carry the
    catalog semantics, and the properties of those parts.

    Conventions of the embedding.

    - A Python [str] is a Rocq [string] holding its UTF-8 encoding.  The
      operations that Python defines on characters ([lower], [strip],
      [int], [len], iteration) read it as code points and follow CPython
      3.11, with the character tables of Unicode 14.0.0.  Text that has no
      UTF-8 encoding (a lone surrogate) is outside the model.
    - A decoded JSON document is a [json] value.  Numbers are the integers
      (JSON numbers with a fraction are outside the model).  A [dict] is an
      association list in insertion order, looked up by first match and
      updated in place, as Python's dict is; a dict built by Python binds
      no key twice, and the one property that needs it says so.
    - A Python exception is a value of [exn]; code that can raise returns
      [exc A].  The text of the exception is not modelled.
    - The three JSON files and the module-level [DEFAULT_DB] object form the
      [World] that the stateful functions thread. *)

From Stdlib Require Import ZArith List String Ascii Bool Lia ZifyBool Permutation
  Sorted QArith.
Import ListNotations.
Local Open Scope string_scope.
Local Open Scope list_scope.
Local Open Scope Z_scope.

Set Implicit Arguments.
Set Warnings "-register-all".


(* ===================================================================== *)
(** * Python strings *)
(* ===================================================================== *)

Module PyStr.

(** ** Characters

    The operations of [str] that look at characters ([lower], [strip],
    [int], [len], iteration) work on code points.  [decode] reads the
    UTF-8 text of a string into its code points and [encode] writes them
    back.  A byte that belongs to no well-formed UTF-8 sequence (no [str]
    has such an encoding) is kept as a unit of its own, numbered from
    [RAW] up; it is no letter, no blank and no digit, and it is written
    back as it was. *)

Definition byte (a : ascii) : Z := Z.of_N (N_of_ascii a).

Definition chr8 (b : Z) : ascii := ascii_of_N (Z.to_N b).

Definition RAW : Z := 0x110000.

Definition between (lo hi b : Z) : bool := (lo <=? b) && (b <=? hi).

(** A continuation byte, [10xxxxxx]. *)
Definition cont (b : Z) : bool := between 0x80 0xBF b.

(** The second byte that a three-byte lead allows: no overlong form after
    [E0], no surrogate after [ED]. *)
Definition second3 (b0 b1 : Z) : bool :=
  cont b1 && (negb (b0 =? 0xE0) || (0xA0 <=? b1))
  && (negb (b0 =? 0xED) || (b1 <=? 0x9F)).

(** The second byte that a four-byte lead allows: no overlong form after
    [F0], nothing above U+10FFFF after [F4]. *)
Definition second4 (b0 b1 : Z) : bool :=
  cont b1 && (negb (b0 =? 0xF0) || (0x90 <=? b1))
  && (negb (b0 =? 0xF4) || (b1 <=? 0x8F)).

Definition raw (b : Z) : Z := RAW + b.

(** The code points of a UTF-8 text, from the left: at each position the
    well-formed sequence that starts there, if there is one. *)
Fixpoint decode (s : string) : list Z :=
  match s with
  | EmptyString => []
  | String a0 s1 =>
      let b0 := byte a0 in
      if b0 <? 0x80 then b0 :: decode s1
      else
        match s1 with
        | EmptyString => [raw b0]
        | String a1 s2 =>
            let b1 := byte a1 in
            if between 0xC2 0xDF b0 && cont b1 then
              ((b0 - 0xC0) * 64 + (b1 - 0x80)) :: decode s2
            else
              match s2 with
              | EmptyString => raw b0 :: decode s1
              | String a2 s3 =>
                  let b2 := byte a2 in
                  if between 0xE0 0xEF b0 && second3 b0 b1 && cont b2 then
                    ((b0 - 0xE0) * 4096 + (b1 - 0x80) * 64 + (b2 - 0x80))
                    :: decode s3
                  else
                    match s3 with
                    | EmptyString => raw b0 :: decode s1
                    | String a3 s4 =>
                        let b3 := byte a3 in
                        if between 0xF0 0xF4 b0 && second4 b0 b1
                           && cont b2 && cont b3 then
                          ((b0 - 0xF0) * 262144 + (b1 - 0x80) * 4096
                           + (b2 - 0x80) * 64 + (b3 - 0x80))
                          :: decode s4
                        else raw b0 :: decode s1
                    end
              end
        end
  end.

Definition str1 (b : Z) : string := String (chr8 b) EmptyString.

(** The UTF-8 sequence of one code point; a unit that stands for a byte
    gives that byte. *)
Definition encode_cp (c : Z) : string :=
  if c <? 0x80 then str1 c
  else if c <? 0x800 then
    str1 (0xC0 + c / 64) ++ str1 (0x80 + c mod 64)
  else if c <? 0x10000 then
    str1 (0xE0 + c / 4096) ++ str1 (0x80 + (c / 64) mod 64)
    ++ str1 (0x80 + c mod 64)
  else if c <? RAW then
    str1 (0xF0 + c / 262144) ++ str1 (0x80 + (c / 4096) mod 64)
    ++ str1 (0x80 + (c / 64) mod 64) ++ str1 (0x80 + c mod 64)
  else str1 (c - RAW).

Fixpoint encode (l : list Z) : string :=
  match l with
  | [] => ""
  | c :: l' => encode_cp c ++ encode l'
  end.

Definition in_ranges (c : Z) (r : list (Z * Z)) : bool :=
  existsb (fun p => between (fst p) (snd p) c) r.

(** ** The character tables of CPython 3.11 (Unicode 14.0.0) *)

(** [str.isspace] on one character: the characters that [strip] removes. *)
Definition space_ranges : list (Z * Z) :=
  [(0x9, 0xD); (0x1C, 0x20); (0x85, 0x85); (0xA0, 0xA0); (0x1680, 0x1680);
   (0x2000, 0x200A); (0x2028, 0x2029); (0x202F, 0x202F); (0x205F, 0x205F);
   (0x3000, 0x3000)].

(** The characters with a lowercase form of one code point: in each run
    [(first, last, step, delta)], every [step]-th character from [first]
    to [last] maps to itself plus [delta]. *)
Definition lower_runs : list (Z * Z * Z * Z) :=
  [(0x41, 0x5A, 1, 32); (0xC0, 0xD6, 1, 32); (0xD8, 0xDE, 1, 32);
   (0x100, 0x12E, 2, 1); (0x132, 0x136, 2, 1); (0x139, 0x147, 2, 1);
   (0x14A, 0x176, 2, 1); (0x178, 0x178, 1, (-121)); (0x179, 0x17D, 2, 1);
   (0x181, 0x181, 1, 210); (0x182, 0x184, 2, 1); (0x186, 0x186, 1, 206);
   (0x187, 0x187, 1, 1); (0x189, 0x18A, 1, 205); (0x18B, 0x18B, 1, 1);
   (0x18E, 0x18E, 1, 79); (0x18F, 0x18F, 1, 202); (0x190, 0x190, 1, 203);
   (0x191, 0x191, 1, 1); (0x193, 0x193, 1, 205); (0x194, 0x194, 1, 207);
   (0x196, 0x196, 1, 211); (0x197, 0x197, 1, 209); (0x198, 0x198, 1, 1);
   (0x19C, 0x19C, 1, 211); (0x19D, 0x19D, 1, 213); (0x19F, 0x19F, 1, 214);
   (0x1A0, 0x1A4, 2, 1); (0x1A6, 0x1A6, 1, 218); (0x1A7, 0x1A7, 1, 1);
   (0x1A9, 0x1A9, 1, 218); (0x1AC, 0x1AC, 1, 1); (0x1AE, 0x1AE, 1, 218);
   (0x1AF, 0x1AF, 1, 1); (0x1B1, 0x1B2, 1, 217); (0x1B3, 0x1B5, 2, 1);
   (0x1B7, 0x1B7, 1, 219); (0x1B8, 0x1B8, 1, 1); (0x1BC, 0x1BC, 1, 1);
   (0x1C4, 0x1C4, 1, 2); (0x1C5, 0x1C5, 1, 1); (0x1C7, 0x1C7, 1, 2);
   (0x1C8, 0x1C8, 1, 1); (0x1CA, 0x1CA, 1, 2); (0x1CB, 0x1DB, 2, 1);
   (0x1DE, 0x1EE, 2, 1); (0x1F1, 0x1F1, 1, 2); (0x1F2, 0x1F4, 2, 1);
   (0x1F6, 0x1F6, 1, (-97)); (0x1F7, 0x1F7, 1, (-56)); (0x1F8, 0x21E, 2, 1);
   (0x220, 0x220, 1, (-130)); (0x222, 0x232, 2, 1); (0x23A, 0x23A, 1, 10795);
   (0x23B, 0x23B, 1, 1); (0x23D, 0x23D, 1, (-163)); (0x23E, 0x23E, 1, 10792);
   (0x241, 0x241, 1, 1); (0x243, 0x243, 1, (-195)); (0x244, 0x244, 1, 69);
   (0x245, 0x245, 1, 71); (0x246, 0x24E, 2, 1); (0x370, 0x372, 2, 1);
   (0x376, 0x376, 1, 1); (0x37F, 0x37F, 1, 116); (0x386, 0x386, 1, 38);
   (0x388, 0x38A, 1, 37); (0x38C, 0x38C, 1, 64); (0x38E, 0x38F, 1, 63);
   (0x391, 0x3A1, 1, 32); (0x3A3, 0x3AB, 1, 32); (0x3CF, 0x3CF, 1, 8);
   (0x3D8, 0x3EE, 2, 1); (0x3F4, 0x3F4, 1, (-60)); (0x3F7, 0x3F7, 1, 1);
   (0x3F9, 0x3F9, 1, (-7)); (0x3FA, 0x3FA, 1, 1); (0x3FD, 0x3FF, 1, (-130));
   (0x400, 0x40F, 1, 80); (0x410, 0x42F, 1, 32); (0x460, 0x480, 2, 1);
   (0x48A, 0x4BE, 2, 1); (0x4C0, 0x4C0, 1, 15); (0x4C1, 0x4CD, 2, 1);
   (0x4D0, 0x52E, 2, 1); (0x531, 0x556, 1, 48); (0x10A0, 0x10C5, 1, 7264);
   (0x10C7, 0x10C7, 1, 7264); (0x10CD, 0x10CD, 1, 7264);
   (0x13A0, 0x13EF, 1, 38864); (0x13F0, 0x13F5, 1, 8);
   (0x1C90, 0x1CBA, 1, (-3008)); (0x1CBD, 0x1CBF, 1, (-3008));
   (0x1E00, 0x1E94, 2, 1); (0x1E9E, 0x1E9E, 1, (-7615));
   (0x1EA0, 0x1EFE, 2, 1); (0x1F08, 0x1F0F, 1, (-8));
   (0x1F18, 0x1F1D, 1, (-8)); (0x1F28, 0x1F2F, 1, (-8));
   (0x1F38, 0x1F3F, 1, (-8)); (0x1F48, 0x1F4D, 1, (-8));
   (0x1F59, 0x1F5F, 2, (-8)); (0x1F68, 0x1F6F, 1, (-8));
   (0x1F88, 0x1F8F, 1, (-8)); (0x1F98, 0x1F9F, 1, (-8));
   (0x1FA8, 0x1FAF, 1, (-8)); (0x1FB8, 0x1FB9, 1, (-8));
   (0x1FBA, 0x1FBB, 1, (-74)); (0x1FBC, 0x1FBC, 1, (-9));
   (0x1FC8, 0x1FCB, 1, (-86)); (0x1FCC, 0x1FCC, 1, (-9));
   (0x1FD8, 0x1FD9, 1, (-8)); (0x1FDA, 0x1FDB, 1, (-100));
   (0x1FE8, 0x1FE9, 1, (-8)); (0x1FEA, 0x1FEB, 1, (-112));
   (0x1FEC, 0x1FEC, 1, (-7)); (0x1FF8, 0x1FF9, 1, (-128));
   (0x1FFA, 0x1FFB, 1, (-126)); (0x1FFC, 0x1FFC, 1, (-9));
   (0x2126, 0x2126, 1, (-7517)); (0x212A, 0x212A, 1, (-8383));
   (0x212B, 0x212B, 1, (-8262)); (0x2132, 0x2132, 1, 28);
   (0x2160, 0x216F, 1, 16); (0x2183, 0x2183, 1, 1); (0x24B6, 0x24CF, 1, 26);
   (0x2C00, 0x2C2F, 1, 48); (0x2C60, 0x2C60, 1, 1);
   (0x2C62, 0x2C62, 1, (-10743)); (0x2C63, 0x2C63, 1, (-3814));
   (0x2C64, 0x2C64, 1, (-10727)); (0x2C67, 0x2C6B, 2, 1);
   (0x2C6D, 0x2C6D, 1, (-10780)); (0x2C6E, 0x2C6E, 1, (-10749));
   (0x2C6F, 0x2C6F, 1, (-10783)); (0x2C70, 0x2C70, 1, (-10782));
   (0x2C72, 0x2C72, 1, 1); (0x2C75, 0x2C75, 1, 1);
   (0x2C7E, 0x2C7F, 1, (-10815)); (0x2C80, 0x2CE2, 2, 1);
   (0x2CEB, 0x2CED, 2, 1); (0x2CF2, 0x2CF2, 1, 1); (0xA640, 0xA66C, 2, 1);
   (0xA680, 0xA69A, 2, 1); (0xA722, 0xA72E, 2, 1); (0xA732, 0xA76E, 2, 1);
   (0xA779, 0xA77B, 2, 1); (0xA77D, 0xA77D, 1, (-35332));
   (0xA77E, 0xA786, 2, 1); (0xA78B, 0xA78B, 1, 1);
   (0xA78D, 0xA78D, 1, (-42280)); (0xA790, 0xA792, 2, 1);
   (0xA796, 0xA7A8, 2, 1); (0xA7AA, 0xA7AA, 1, (-42308));
   (0xA7AB, 0xA7AB, 1, (-42319)); (0xA7AC, 0xA7AC, 1, (-42315));
   (0xA7AD, 0xA7AD, 1, (-42305)); (0xA7AE, 0xA7AE, 1, (-42308));
   (0xA7B0, 0xA7B0, 1, (-42258)); (0xA7B1, 0xA7B1, 1, (-42282));
   (0xA7B2, 0xA7B2, 1, (-42261)); (0xA7B3, 0xA7B3, 1, 928);
   (0xA7B4, 0xA7C2, 2, 1); (0xA7C4, 0xA7C4, 1, (-48));
   (0xA7C5, 0xA7C5, 1, (-42307)); (0xA7C6, 0xA7C6, 1, (-35384));
   (0xA7C7, 0xA7C9, 2, 1); (0xA7D0, 0xA7D0, 1, 1); (0xA7D6, 0xA7D8, 2, 1);
   (0xA7F5, 0xA7F5, 1, 1); (0xFF21, 0xFF3A, 1, 32);
   (0x10400, 0x10427, 1, 40); (0x104B0, 0x104D3, 1, 40);
   (0x10570, 0x10594, 2, 39); (0x10571, 0x10579, 2, 39);
   (0x1057D, 0x10589, 2, 39); (0x1058D, 0x10591, 2, 39);
   (0x10595, 0x10595, 1, 39); (0x10C80, 0x10CB2, 1, 64);
   (0x118A0, 0x118BF, 1, 32); (0x16E40, 0x16E5F, 1, 32);
   (0x1E900, 0x1E921, 1, 34)].

(** The characters with the property Cased. *)
Definition cased_ranges : list (Z * Z) :=
  [(0x41, 0x5A); (0x61, 0x7A); (0xAA, 0xAA); (0xB5, 0xB5); (0xBA, 0xBA);
   (0xC0, 0xD6); (0xD8, 0xF6); (0xF8, 0x1BA); (0x1BC, 0x1BF); (0x1C4, 0x293);
   (0x295, 0x2B8); (0x2C0, 0x2C1); (0x2E0, 0x2E4); (0x345, 0x345);
   (0x370, 0x373); (0x376, 0x377); (0x37A, 0x37D); (0x37F, 0x37F);
   (0x386, 0x386); (0x388, 0x38A); (0x38C, 0x38C); (0x38E, 0x3A1);
   (0x3A3, 0x3F5); (0x3F7, 0x481); (0x48A, 0x52F); (0x531, 0x556);
   (0x560, 0x588); (0x10A0, 0x10C5); (0x10C7, 0x10C7); (0x10CD, 0x10CD);
   (0x10D0, 0x10FA); (0x10FD, 0x10FF); (0x13A0, 0x13F5); (0x13F8, 0x13FD);
   (0x1C80, 0x1C88); (0x1C90, 0x1CBA); (0x1CBD, 0x1CBF); (0x1D00, 0x1DBF);
   (0x1E00, 0x1F15); (0x1F18, 0x1F1D); (0x1F20, 0x1F45); (0x1F48, 0x1F4D);
   (0x1F50, 0x1F57); (0x1F59, 0x1F59); (0x1F5B, 0x1F5B); (0x1F5D, 0x1F5D);
   (0x1F5F, 0x1F7D); (0x1F80, 0x1FB4); (0x1FB6, 0x1FBC); (0x1FBE, 0x1FBE);
   (0x1FC2, 0x1FC4); (0x1FC6, 0x1FCC); (0x1FD0, 0x1FD3); (0x1FD6, 0x1FDB);
   (0x1FE0, 0x1FEC); (0x1FF2, 0x1FF4); (0x1FF6, 0x1FFC); (0x2071, 0x2071);
   (0x207F, 0x207F); (0x2090, 0x209C); (0x2102, 0x2102); (0x2107, 0x2107);
   (0x210A, 0x2113); (0x2115, 0x2115); (0x2119, 0x211D); (0x2124, 0x2124);
   (0x2126, 0x2126); (0x2128, 0x2128); (0x212A, 0x212D); (0x212F, 0x2134);
   (0x2139, 0x2139); (0x213C, 0x213F); (0x2145, 0x2149); (0x214E, 0x214E);
   (0x2160, 0x217F); (0x2183, 0x2184); (0x24B6, 0x24E9); (0x2C00, 0x2CE4);
   (0x2CEB, 0x2CEE); (0x2CF2, 0x2CF3); (0x2D00, 0x2D25); (0x2D27, 0x2D27);
   (0x2D2D, 0x2D2D); (0xA640, 0xA66D); (0xA680, 0xA69D); (0xA722, 0xA787);
   (0xA78B, 0xA78E); (0xA790, 0xA7CA); (0xA7D0, 0xA7D1); (0xA7D3, 0xA7D3);
   (0xA7D5, 0xA7D9); (0xA7F5, 0xA7F6); (0xA7F8, 0xA7FA); (0xAB30, 0xAB5A);
   (0xAB5C, 0xAB68); (0xAB70, 0xABBF); (0xFB00, 0xFB06); (0xFB13, 0xFB17);
   (0xFF21, 0xFF3A); (0xFF41, 0xFF5A); (0x10400, 0x1044F);
   (0x104B0, 0x104D3); (0x104D8, 0x104FB); (0x10570, 0x1057A);
   (0x1057C, 0x1058A); (0x1058C, 0x10592); (0x10594, 0x10595);
   (0x10597, 0x105A1); (0x105A3, 0x105B1); (0x105B3, 0x105B9);
   (0x105BB, 0x105BC); (0x10780, 0x10780); (0x10783, 0x10785);
   (0x10787, 0x107B0); (0x107B2, 0x107BA); (0x10C80, 0x10CB2);
   (0x10CC0, 0x10CF2); (0x118A0, 0x118DF); (0x16E40, 0x16E7F);
   (0x1D400, 0x1D454); (0x1D456, 0x1D49C); (0x1D49E, 0x1D49F);
   (0x1D4A2, 0x1D4A2); (0x1D4A5, 0x1D4A6); (0x1D4A9, 0x1D4AC);
   (0x1D4AE, 0x1D4B9); (0x1D4BB, 0x1D4BB); (0x1D4BD, 0x1D4C3);
   (0x1D4C5, 0x1D505); (0x1D507, 0x1D50A); (0x1D50D, 0x1D514);
   (0x1D516, 0x1D51C); (0x1D51E, 0x1D539); (0x1D53B, 0x1D53E);
   (0x1D540, 0x1D544); (0x1D546, 0x1D546); (0x1D54A, 0x1D550);
   (0x1D552, 0x1D6A5); (0x1D6A8, 0x1D6C0); (0x1D6C2, 0x1D6DA);
   (0x1D6DC, 0x1D6FA); (0x1D6FC, 0x1D714); (0x1D716, 0x1D734);
   (0x1D736, 0x1D74E); (0x1D750, 0x1D76E); (0x1D770, 0x1D788);
   (0x1D78A, 0x1D7A8); (0x1D7AA, 0x1D7C2); (0x1D7C4, 0x1D7CB);
   (0x1DF00, 0x1DF09); (0x1DF0B, 0x1DF1E); (0x1E900, 0x1E943);
   (0x1F130, 0x1F149); (0x1F150, 0x1F169); (0x1F170, 0x1F189)].

(** The characters with the property Case_Ignorable. *)
Definition case_ignorable_ranges : list (Z * Z) :=
  [(0x27, 0x27); (0x2E, 0x2E); (0x3A, 0x3A); (0x5E, 0x5E); (0x60, 0x60);
   (0xA8, 0xA8); (0xAD, 0xAD); (0xAF, 0xAF); (0xB4, 0xB4); (0xB7, 0xB8);
   (0x2B0, 0x36F); (0x374, 0x375); (0x37A, 0x37A); (0x384, 0x385);
   (0x387, 0x387); (0x483, 0x489); (0x559, 0x559); (0x55F, 0x55F);
   (0x591, 0x5BD); (0x5BF, 0x5BF); (0x5C1, 0x5C2); (0x5C4, 0x5C5);
   (0x5C7, 0x5C7); (0x5F4, 0x5F4); (0x600, 0x605); (0x610, 0x61A);
   (0x61C, 0x61C); (0x640, 0x640); (0x64B, 0x65F); (0x670, 0x670);
   (0x6D6, 0x6DD); (0x6DF, 0x6E8); (0x6EA, 0x6ED); (0x70F, 0x70F);
   (0x711, 0x711); (0x730, 0x74A); (0x7A6, 0x7B0); (0x7EB, 0x7F5);
   (0x7FA, 0x7FA); (0x7FD, 0x7FD); (0x816, 0x82D); (0x859, 0x85B);
   (0x888, 0x888); (0x890, 0x891); (0x898, 0x89F); (0x8C9, 0x902);
   (0x93A, 0x93A); (0x93C, 0x93C); (0x941, 0x948); (0x94D, 0x94D);
   (0x951, 0x957); (0x962, 0x963); (0x971, 0x971); (0x981, 0x981);
   (0x9BC, 0x9BC); (0x9C1, 0x9C4); (0x9CD, 0x9CD); (0x9E2, 0x9E3);
   (0x9FE, 0x9FE); (0xA01, 0xA02); (0xA3C, 0xA3C); (0xA41, 0xA42);
   (0xA47, 0xA48); (0xA4B, 0xA4D); (0xA51, 0xA51); (0xA70, 0xA71);
   (0xA75, 0xA75); (0xA81, 0xA82); (0xABC, 0xABC); (0xAC1, 0xAC5);
   (0xAC7, 0xAC8); (0xACD, 0xACD); (0xAE2, 0xAE3); (0xAFA, 0xAFF);
   (0xB01, 0xB01); (0xB3C, 0xB3C); (0xB3F, 0xB3F); (0xB41, 0xB44);
   (0xB4D, 0xB4D); (0xB55, 0xB56); (0xB62, 0xB63); (0xB82, 0xB82);
   (0xBC0, 0xBC0); (0xBCD, 0xBCD); (0xC00, 0xC00); (0xC04, 0xC04);
   (0xC3C, 0xC3C); (0xC3E, 0xC40); (0xC46, 0xC48); (0xC4A, 0xC4D);
   (0xC55, 0xC56); (0xC62, 0xC63); (0xC81, 0xC81); (0xCBC, 0xCBC);
   (0xCBF, 0xCBF); (0xCC6, 0xCC6); (0xCCC, 0xCCD); (0xCE2, 0xCE3);
   (0xD00, 0xD01); (0xD3B, 0xD3C); (0xD41, 0xD44); (0xD4D, 0xD4D);
   (0xD62, 0xD63); (0xD81, 0xD81); (0xDCA, 0xDCA); (0xDD2, 0xDD4);
   (0xDD6, 0xDD6); (0xE31, 0xE31); (0xE34, 0xE3A); (0xE46, 0xE4E);
   (0xEB1, 0xEB1); (0xEB4, 0xEBC); (0xEC6, 0xEC6); (0xEC8, 0xECD);
   (0xF18, 0xF19); (0xF35, 0xF35); (0xF37, 0xF37); (0xF39, 0xF39);
   (0xF71, 0xF7E); (0xF80, 0xF84); (0xF86, 0xF87); (0xF8D, 0xF97);
   (0xF99, 0xFBC); (0xFC6, 0xFC6); (0x102D, 0x1030); (0x1032, 0x1037);
   (0x1039, 0x103A); (0x103D, 0x103E); (0x1058, 0x1059); (0x105E, 0x1060);
   (0x1071, 0x1074); (0x1082, 0x1082); (0x1085, 0x1086); (0x108D, 0x108D);
   (0x109D, 0x109D); (0x10FC, 0x10FC); (0x135D, 0x135F); (0x1712, 0x1714);
   (0x1732, 0x1733); (0x1752, 0x1753); (0x1772, 0x1773); (0x17B4, 0x17B5);
   (0x17B7, 0x17BD); (0x17C6, 0x17C6); (0x17C9, 0x17D3); (0x17D7, 0x17D7);
   (0x17DD, 0x17DD); (0x180B, 0x180F); (0x1843, 0x1843); (0x1885, 0x1886);
   (0x18A9, 0x18A9); (0x1920, 0x1922); (0x1927, 0x1928); (0x1932, 0x1932);
   (0x1939, 0x193B); (0x1A17, 0x1A18); (0x1A1B, 0x1A1B); (0x1A56, 0x1A56);
   (0x1A58, 0x1A5E); (0x1A60, 0x1A60); (0x1A62, 0x1A62); (0x1A65, 0x1A6C);
   (0x1A73, 0x1A7C); (0x1A7F, 0x1A7F); (0x1AA7, 0x1AA7); (0x1AB0, 0x1ACE);
   (0x1B00, 0x1B03); (0x1B34, 0x1B34); (0x1B36, 0x1B3A); (0x1B3C, 0x1B3C);
   (0x1B42, 0x1B42); (0x1B6B, 0x1B73); (0x1B80, 0x1B81); (0x1BA2, 0x1BA5);
   (0x1BA8, 0x1BA9); (0x1BAB, 0x1BAD); (0x1BE6, 0x1BE6); (0x1BE8, 0x1BE9);
   (0x1BED, 0x1BED); (0x1BEF, 0x1BF1); (0x1C2C, 0x1C33); (0x1C36, 0x1C37);
   (0x1C78, 0x1C7D); (0x1CD0, 0x1CD2); (0x1CD4, 0x1CE0); (0x1CE2, 0x1CE8);
   (0x1CED, 0x1CED); (0x1CF4, 0x1CF4); (0x1CF8, 0x1CF9); (0x1D2C, 0x1D6A);
   (0x1D78, 0x1D78); (0x1D9B, 0x1DFF); (0x1FBD, 0x1FBD); (0x1FBF, 0x1FC1);
   (0x1FCD, 0x1FCF); (0x1FDD, 0x1FDF); (0x1FED, 0x1FEF); (0x1FFD, 0x1FFE);
   (0x200B, 0x200F); (0x2018, 0x2019); (0x2024, 0x2024); (0x2027, 0x2027);
   (0x202A, 0x202E); (0x2060, 0x2064); (0x2066, 0x206F); (0x2071, 0x2071);
   (0x207F, 0x207F); (0x2090, 0x209C); (0x20D0, 0x20F0); (0x2C7C, 0x2C7D);
   (0x2CEF, 0x2CF1); (0x2D6F, 0x2D6F); (0x2D7F, 0x2D7F); (0x2DE0, 0x2DFF);
   (0x2E2F, 0x2E2F); (0x3005, 0x3005); (0x302A, 0x302D); (0x3031, 0x3035);
   (0x303B, 0x303B); (0x3099, 0x309E); (0x30FC, 0x30FE); (0xA015, 0xA015);
   (0xA4F8, 0xA4FD); (0xA60C, 0xA60C); (0xA66F, 0xA672); (0xA674, 0xA67D);
   (0xA67F, 0xA67F); (0xA69C, 0xA69F); (0xA6F0, 0xA6F1); (0xA700, 0xA721);
   (0xA770, 0xA770); (0xA788, 0xA78A); (0xA7F2, 0xA7F4); (0xA7F8, 0xA7F9);
   (0xA802, 0xA802); (0xA806, 0xA806); (0xA80B, 0xA80B); (0xA825, 0xA826);
   (0xA82C, 0xA82C); (0xA8C4, 0xA8C5); (0xA8E0, 0xA8F1); (0xA8FF, 0xA8FF);
   (0xA926, 0xA92D); (0xA947, 0xA951); (0xA980, 0xA982); (0xA9B3, 0xA9B3);
   (0xA9B6, 0xA9B9); (0xA9BC, 0xA9BD); (0xA9CF, 0xA9CF); (0xA9E5, 0xA9E6);
   (0xAA29, 0xAA2E); (0xAA31, 0xAA32); (0xAA35, 0xAA36); (0xAA43, 0xAA43);
   (0xAA4C, 0xAA4C); (0xAA70, 0xAA70); (0xAA7C, 0xAA7C); (0xAAB0, 0xAAB0);
   (0xAAB2, 0xAAB4); (0xAAB7, 0xAAB8); (0xAABE, 0xAABF); (0xAAC1, 0xAAC1);
   (0xAADD, 0xAADD); (0xAAEC, 0xAAED); (0xAAF3, 0xAAF4); (0xAAF6, 0xAAF6);
   (0xAB5B, 0xAB5F); (0xAB69, 0xAB6B); (0xABE5, 0xABE5); (0xABE8, 0xABE8);
   (0xABED, 0xABED); (0xFB1E, 0xFB1E); (0xFBB2, 0xFBC2); (0xFE00, 0xFE0F);
   (0xFE13, 0xFE13); (0xFE20, 0xFE2F); (0xFE52, 0xFE52); (0xFE55, 0xFE55);
   (0xFEFF, 0xFEFF); (0xFF07, 0xFF07); (0xFF0E, 0xFF0E); (0xFF1A, 0xFF1A);
   (0xFF3E, 0xFF3E); (0xFF40, 0xFF40); (0xFF70, 0xFF70); (0xFF9E, 0xFF9F);
   (0xFFE3, 0xFFE3); (0xFFF9, 0xFFFB); (0x101FD, 0x101FD);
   (0x102E0, 0x102E0); (0x10376, 0x1037A); (0x10780, 0x10785);
   (0x10787, 0x107B0); (0x107B2, 0x107BA); (0x10A01, 0x10A03);
   (0x10A05, 0x10A06); (0x10A0C, 0x10A0F); (0x10A38, 0x10A3A);
   (0x10A3F, 0x10A3F); (0x10AE5, 0x10AE6); (0x10D24, 0x10D27);
   (0x10EAB, 0x10EAC); (0x10F46, 0x10F50); (0x10F82, 0x10F85);
   (0x11001, 0x11001); (0x11038, 0x11046); (0x11070, 0x11070);
   (0x11073, 0x11074); (0x1107F, 0x11081); (0x110B3, 0x110B6);
   (0x110B9, 0x110BA); (0x110BD, 0x110BD); (0x110C2, 0x110C2);
   (0x110CD, 0x110CD); (0x11100, 0x11102); (0x11127, 0x1112B);
   (0x1112D, 0x11134); (0x11173, 0x11173); (0x11180, 0x11181);
   (0x111B6, 0x111BE); (0x111C9, 0x111CC); (0x111CF, 0x111CF);
   (0x1122F, 0x11231); (0x11234, 0x11234); (0x11236, 0x11237);
   (0x1123E, 0x1123E); (0x112DF, 0x112DF); (0x112E3, 0x112EA);
   (0x11300, 0x11301); (0x1133B, 0x1133C); (0x11340, 0x11340);
   (0x11366, 0x1136C); (0x11370, 0x11374); (0x11438, 0x1143F);
   (0x11442, 0x11444); (0x11446, 0x11446); (0x1145E, 0x1145E);
   (0x114B3, 0x114B8); (0x114BA, 0x114BA); (0x114BF, 0x114C0);
   (0x114C2, 0x114C3); (0x115B2, 0x115B5); (0x115BC, 0x115BD);
   (0x115BF, 0x115C0); (0x115DC, 0x115DD); (0x11633, 0x1163A);
   (0x1163D, 0x1163D); (0x1163F, 0x11640); (0x116AB, 0x116AB);
   (0x116AD, 0x116AD); (0x116B0, 0x116B5); (0x116B7, 0x116B7);
   (0x1171D, 0x1171F); (0x11722, 0x11725); (0x11727, 0x1172B);
   (0x1182F, 0x11837); (0x11839, 0x1183A); (0x1193B, 0x1193C);
   (0x1193E, 0x1193E); (0x11943, 0x11943); (0x119D4, 0x119D7);
   (0x119DA, 0x119DB); (0x119E0, 0x119E0); (0x11A01, 0x11A0A);
   (0x11A33, 0x11A38); (0x11A3B, 0x11A3E); (0x11A47, 0x11A47);
   (0x11A51, 0x11A56); (0x11A59, 0x11A5B); (0x11A8A, 0x11A96);
   (0x11A98, 0x11A99); (0x11C30, 0x11C36); (0x11C38, 0x11C3D);
   (0x11C3F, 0x11C3F); (0x11C92, 0x11CA7); (0x11CAA, 0x11CB0);
   (0x11CB2, 0x11CB3); (0x11CB5, 0x11CB6); (0x11D31, 0x11D36);
   (0x11D3A, 0x11D3A); (0x11D3C, 0x11D3D); (0x11D3F, 0x11D45);
   (0x11D47, 0x11D47); (0x11D90, 0x11D91); (0x11D95, 0x11D95);
   (0x11D97, 0x11D97); (0x11EF3, 0x11EF4); (0x13430, 0x13438);
   (0x16AF0, 0x16AF4); (0x16B30, 0x16B36); (0x16B40, 0x16B43);
   (0x16F4F, 0x16F4F); (0x16F8F, 0x16F9F); (0x16FE0, 0x16FE1);
   (0x16FE3, 0x16FE4); (0x1AFF0, 0x1AFF3); (0x1AFF5, 0x1AFFB);
   (0x1AFFD, 0x1AFFE); (0x1BC9D, 0x1BC9E); (0x1BCA0, 0x1BCA3);
   (0x1CF00, 0x1CF2D); (0x1CF30, 0x1CF46); (0x1D167, 0x1D169);
   (0x1D173, 0x1D182); (0x1D185, 0x1D18B); (0x1D1AA, 0x1D1AD);
   (0x1D242, 0x1D244); (0x1DA00, 0x1DA36); (0x1DA3B, 0x1DA6C);
   (0x1DA75, 0x1DA75); (0x1DA84, 0x1DA84); (0x1DA9B, 0x1DA9F);
   (0x1DAA1, 0x1DAAF); (0x1E000, 0x1E006); (0x1E008, 0x1E018);
   (0x1E01B, 0x1E021); (0x1E023, 0x1E024); (0x1E026, 0x1E02A);
   (0x1E130, 0x1E13D); (0x1E2AE, 0x1E2AE); (0x1E2EC, 0x1E2EF);
   (0x1E8D0, 0x1E8D6); (0x1E944, 0x1E94B); (0x1F3FB, 0x1F3FF);
   (0xE0001, 0xE0001); (0xE0020, 0xE007F); (0xE0100, 0xE01EF)].

(** The digits zero of the decimal systems; the nine characters after each
    are its digits one to nine. *)
Definition decimal_zeros : list Z :=
  [0x30; 0x660; 0x6F0; 0x7C0; 0x966; 0x9E6; 0xA66; 0xAE6; 0xB66; 0xBE6;
   0xC66; 0xCE6; 0xD66; 0xDE6; 0xE50; 0xED0; 0xF20; 0x1040; 0x1090; 0x17E0;
   0x1810; 0x1946; 0x19D0; 0x1A80; 0x1A90; 0x1B50; 0x1BB0; 0x1C40; 0x1C50;
   0xA620; 0xA8D0; 0xA900; 0xA9D0; 0xA9F0; 0xAA50; 0xABF0; 0xFF10; 0x104A0;
   0x10D30; 0x11066; 0x110F0; 0x11136; 0x111D0; 0x112F0; 0x11450; 0x114D0;
   0x11650; 0x116C0; 0x11730; 0x118E0; 0x11950; 0x11C50; 0x11D50; 0x11DA0;
   0x16A60; 0x16AC0; 0x16B50; 0x1D7CE; 0x1D7D8; 0x1D7E2; 0x1D7EC; 0x1D7F6;
   0x1E140; 0x1E2F0; 0x1E950; 0x1FBF0].

Definition is_space (c : Z) : bool := in_ranges c space_ranges.

(** The property Cased. *)
Definition is_cased (c : Z) : bool := in_ranges c cased_ranges.

(** The property Case_Ignorable. *)
Definition is_case_ignorable (c : Z) : bool := in_ranges c case_ignorable_ranges.

Definition in_run (c : Z) (r : Z * Z * Z * Z) : bool :=
  let '(lo, hi, step, _) := r in
  between lo hi c && ((c - lo) mod step =? 0).

(** The lowercase of one character out of context: one code point, or two
    for U+0130. *)
Definition lower_cp (c : Z) : list Z :=
  if c =? 0x130 then [0x69; 0x307]
  else
    match find (in_run c) lower_runs with
    | Some (_, _, _, delta) => [c + delta]
    | None => [c]
    end.

(** The value of a decimal digit. *)
Definition digit_value (c : Z) : option Z :=
  match find (fun z => between z (z + 9) c) decimal_zeros with
  | Some z => Some (c - z)
  | None => None
  end.

(** ** The operations *)

Definition SIGMA : Z := 0x3A3.

(** No cased letter follows, the case-ignorable characters being skipped. *)
Fixpoint ends_word (l : list Z) : bool :=
  match l with
  | [] => true
  | c :: l' => if is_case_ignorable c then ends_word l' else negb (is_cased c)
  end.

(** [lower] on code points.  A capital sigma becomes the final form when it
    ends a word: [after_cased] tells that the nearest character before it
    that is not case-ignorable is cased. *)
Fixpoint lower_from (after_cased : bool) (l : list Z) : list Z :=
  match l with
  | [] => []
  | c :: l' =>
      (if c =? SIGMA then
         [if after_cased && ends_word l' then 0x3C2 else 0x3C3]
       else lower_cp c)
      ++ lower_from (if is_case_ignorable c then after_cased else is_cased c) l'
  end.

(** [s.lower()] *)
Definition lower (s : string) : string :=
  encode (lower_from false (decode s)).

Fixpoint lstrip_cps (l : list Z) : list Z :=
  match l with
  | [] => []
  | c :: l' => if is_space c then lstrip_cps l' else l
  end.

Fixpoint rstrip_cps (l : list Z) : list Z :=
  match l with
  | [] => []
  | c :: l' =>
      match rstrip_cps l' with
      | [] => if is_space c then [] else [c]
      | r => c :: r
      end
  end.

(** [s.lstrip()] *)
Definition lstrip (s : string) : string := encode (lstrip_cps (decode s)).

(** [s.rstrip()] *)
Definition rstrip (s : string) : string := encode (rstrip_cps (decode s)).

(** [s.strip()] *)
Definition strip (s : string) : string :=
  encode (rstrip_cps (lstrip_cps (decode s))).

(** [len(s)] *)
Definition len (s : string) : nat := List.length (decode s).

(** [sep.join(l)] *)
Fixpoint join (sep : string) (l : list string) : string :=
  match l with
  | [] => ""
  | [s] => s
  | s :: l' => (s ++ sep ++ join sep l')%string
  end.

(** [s * n] *)
Fixpoint repeat (s : string) (n : nat) : string :=
  match n with
  | O => ""
  | S n' => (s ++ repeat s n')%string
  end.

(** [s[:n]] for a text [s] of ASCII characters (the hexadecimal digests). *)
Fixpoint take (n : nat) (s : string) : string :=
  match n, s with
  | S n', String c s' => String c (take n' s')
  | _, _ => ""
  end.

(** [a in b] for two strings: [a] occurs in [b] as a contiguous run. *)
Fixpoint contains (b a : string) : bool :=
  prefix a b ||
  match b with
  | EmptyString => false
  | String _ b' => contains b' a
  end.

(** [for ch in s]: the one-character strings of [s]. *)
Definition chars (s : string) : list string :=
  map encode_cp (decode s).

(** The blanks [int()] accepts around a literal: the ASCII ones of C
    ([isspace]: TAB to CR, and SPACE), and the blank characters outside
    ASCII. *)
Definition is_int_space (c : Z) : bool :=
  between 9 13 c || (c =? 32) || (127 <=? c) && is_space c.

Fixpoint int_lstrip (l : list Z) : list Z :=
  match l with
  | [] => []
  | c :: l' => if is_int_space c then int_lstrip l' else l
  end.

(** The most digits [int()] reads from a string
    ([sys.get_int_max_str_digits()], its default). *)
Definition int_max_str_digits : Z := 4300.

(** Digits of a decimal literal, a single underscore allowed between two
    digits, trailing blanks allowed after the last digit.  [acc] is the
    value read so far, [n] the number of digits read and [after_digit]
    tells that the previous character was a digit.  The result is the
    value with the number of digits. *)
Fixpoint int_digits (l : list Z) (acc n : Z) (after_digit : bool)
  : option (Z * Z) :=
  match l with
  | [] => if after_digit then Some (acc, n) else None
  | c :: l' =>
      match digit_value c with
      | Some d => int_digits l' (10 * acc + d) (n + 1) true
      | None =>
          if c =? 95 then
            match l' with
            | d :: _ =>
                match digit_value d with
                | Some _ => if after_digit then int_digits l' acc n false else None
                | None => None
                end
            | [] => None
            end
          else if after_digit && is_int_space c then
            match int_lstrip l' with
            | [] => Some (acc, n)
            | _ => None
            end
          else None
      end
  end.

Definition int_unsigned (l : list Z) : option Z :=
  match int_digits l 0 0 false with
  | Some (z, n) => if n <=? int_max_str_digits then Some z else None
  | None => None
  end.

(** [int(s)] for a string [s], base 10; [None] stands for [ValueError]. *)
Definition parse_int (s : string) : option Z :=
  match int_lstrip (decode s) with
  | 45 :: l => option_map Z.opp (int_unsigned l)
  | 43 :: l => int_unsigned l
  | l => int_unsigned l
  end.

End PyStr.

(* ===================================================================== *)
(** * SHA-1 ([hashlib.sha1]) *)
(* ===================================================================== *)

Module SHA1.

Definition w32 (x : Z) : Z := x mod 2 ^ 32.

Definition rotl (n x : Z) : Z :=
  w32 (Z.lor (Z.shiftl x n) (Z.shiftr x (32 - n))).

Definition bytes_of_string (s : string) : list Z :=
  map (fun c => Z.of_nat (nat_of_ascii c)) (list_ascii_of_string s).

(** Big-endian bytes of [x], [n] of them. *)
Fixpoint be_bytes (n : nat) (x : Z) : list Z :=
  match n with
  | O => []
  | S n' => be_bytes n' (Z.shiftr x 8) ++ [x mod 256]
  end.

(** Message padding: a [0x80] byte, zero bytes up to 56 modulo 64, then
    the bit length on eight bytes. *)
Definition pad (msg : list Z) : list Z :=
  let len := Z.of_nat (List.length msg) in
  let zeros := Z.to_nat ((55 - len) mod 64) in
  msg ++ [128] ++ List.repeat 0 zeros ++ be_bytes 8 (8 * len).

Fixpoint words (fuel : nat) (bs : list Z) : list Z :=
  match fuel, bs with
  | S f, b0 :: b1 :: b2 :: b3 :: bs' =>
      (b0 * 2 ^ 24 + b1 * 2 ^ 16 + b2 * 2 ^ 8 + b3) :: words f bs'
  | _, _ => []
  end.

(** The message schedule, most recent word first: [rev_w] holds
    [W(t-1), W(t-2), ...]. *)
Fixpoint extend (n : nat) (rev_w : list Z) : list Z :=
  match n with
  | O => rev_w
  | S n' =>
      let w := rotl 1 (Z.lxor (Z.lxor (nth 2 rev_w 0) (nth 7 rev_w 0))
                              (Z.lxor (nth 13 rev_w 0) (nth 15 rev_w 0))) in
      extend n' (w :: rev_w)
  end.

Definition schedule (block : list Z) : list Z :=
  rev (extend 64 (rev block)).

Definition state : Type := Z * Z * Z * Z * Z.

Definition round (t : nat) (st : state) (w : Z) : state :=
  let '(a, b, c, d, e) := st in
  let '(f, k) :=
    if (t <? 20)%nat then
      (Z.lor (Z.land b c) (Z.land (Z.lxor b (2 ^ 32 - 1)) d), 1518500249)
    else if (t <? 40)%nat then
      (Z.lxor (Z.lxor b c) d, 1859775393)
    else if (t <? 60)%nat then
      (Z.lor (Z.lor (Z.land b c) (Z.land b d)) (Z.land c d), 2400959708)
    else
      (Z.lxor (Z.lxor b c) d, 3395469782) in
  (w32 (rotl 5 a + f + e + k + w), a, rotl 30 b, c, d).

Fixpoint rounds (t : nat) (ws : list Z) (st : state) : state :=
  match ws with
  | [] => st
  | w :: ws' => rounds (S t) ws' (round t st w)
  end.

Definition compress (h : state) (block : list Z) : state :=
  let '(h0, h1, h2, h3, h4) := h in
  let '(a, b, c, d, e) := rounds 0 (schedule block) h in
  (w32 (h0 + a), w32 (h1 + b), w32 (h2 + c), w32 (h3 + d), w32 (h4 + e)).

Fixpoint blocks (fuel : nat) (ws : list Z) (h : state) : state :=
  match fuel with
  | O => h
  | S f =>
      match ws with
      | [] => h
      | _ => blocks f (skipn 16 ws) (compress h (firstn 16 ws))
      end
  end.

Definition init : state :=
  (1732584193, 4023233417, 2562383102, 271733878, 3285377520).

Definition digest (msg : list Z) : state :=
  let bs := pad msg in
  let ws := words (List.length bs) bs in
  blocks (List.length ws) ws init.

Definition hex_digit (x : Z) : ascii :=
  if x <? 10 then ascii_of_nat (Z.to_nat (48 + x))
  else ascii_of_nat (Z.to_nat (87 + x)).

(** The eight lowercase hexadecimal digits of a 32-bit word. *)
Definition hex32 (x : Z) : string :=
  string_of_list_ascii
    (map (fun i => hex_digit (Z.shiftr x (4 * Z.of_nat i) mod 16))
         [7; 6; 5; 4; 3; 2; 1; 0]%nat).

(** [hashlib.sha1(bytes).hexdigest()] *)
Definition hexdigest (s : string) : string :=
  let '(h0, h1, h2, h3, h4) := digest (bytes_of_string s) in
  (hex32 h0 ++ hex32 h1 ++ hex32 h2 ++ hex32 h3 ++ hex32 h4)%string.

End SHA1.

(* ===================================================================== *)
(** * JSON values and the Python operations applied to them *)
(* ===================================================================== *)

(** What [json.load] returns. *)
Inductive json : Type :=
| JNull
| JBool (b : bool)
| JInt (z : Z)
| JStr (s : string)
| JList (l : list json)
| JDict (kv : list (string * json)).

(** The exceptions the modelled code can meet.  [ExternalError] is a
    failure of a collaborator (network, provider, decoding of its reply). *)
Inductive exn : Type :=
| AttributeError
| KeyError
| TypeError
| ValueError
| ExternalError (msg : string).

(** A computation that returns or raises. *)
Inductive exc (A : Type) : Type :=
| Ok (a : A)
| Raise (e : exn).
Arguments Ok {A} a.
Arguments Raise {A} e.

Definition bind {A B : Type} (c : exc A) (k : A -> exc B) : exc B :=
  match c with
  | Ok a => k a
  | Raise e => Raise e
  end.

Notation "x <- c ;; k" := (bind c (fun x => k))
  (at level 61, c at next level, right associativity).

(** Evaluate [f] on the elements from left to right, stop at the first
    exception. *)
Fixpoint mapM {A B : Type} (f : A -> exc B) (l : list A) : exc (list B) :=
  match l with
  | [] => Ok []
  | a :: l' => b <- f a ;; bs <- mapM f l' ;; Ok (b :: bs)
  end.

Module Py.

(** First binding of [k]. *)
Fixpoint assoc (k : string) (kv : list (string * json)) : option json :=
  match kv with
  | [] => None
  | (k', v) :: kv' => if String.eqb k k' then Some v else assoc k kv'
  end.

(** [d[k] = v] on the bindings of a dict: the value is replaced where
    the key stands, a new key goes last. *)
Fixpoint assign (k : string) (v : json) (kv : list (string * json))
  : list (string * json) :=
  match kv with
  | [] => [(k, v)]
  | (k', v') :: kv' =>
      if String.eqb k k' then (k', v) :: kv' else (k', v') :: assign k v kv'
  end.

(** [d.get(k, default)] for [d] known to be a dict. *)
Definition get_or (kv : list (string * json)) (k : string) (default : json) : json :=
  match assoc k kv with
  | Some v => v
  | None => default
  end.

(** [d.get(k)] for [d] known to be a dict. *)
Definition lookup (kv : list (string * json)) (k : string) : json :=
  get_or kv k JNull.

(** [o.get(k, default)] *)
Definition get (o : json) (k : string) (default : json) : exc json :=
  match o with
  | JDict kv => Ok (get_or kv k default)
  | _ => Raise AttributeError
  end.

(** [bool(v)] *)
Definition truthy (v : json) : bool :=
  match v with
  | JNull => false
  | JBool b => b
  | JInt z => negb (z =? 0)
  | JStr s => negb (String.eqb s "")
  | JList l => match l with [] => false | _ => true end
  | JDict kv => match kv with [] => false | _ => true end
  end.

(** [v == s] for a string [s]. *)
Definition is_str (s : string) (v : json) : bool :=
  match v with
  | JStr s' => String.eqb s s'
  | _ => false
  end.

(** [for x in v]: the elements of a list, the characters of a string,
    the keys of a dict; anything else is not iterable. *)
Definition iter (v : json) : exc (list json) :=
  match v with
  | JList l => Ok l
  | JStr s => Ok (map JStr (PyStr.chars s))
  | JDict kv => Ok (map (fun p => JStr (fst p)) kv)
  | _ => Raise TypeError
  end.

(** [len(v)]; for a string, the number of its characters. *)
Definition len (v : json) : exc nat :=
  match v with
  | JList l => Ok (List.length l)
  | JStr s => Ok (PyStr.len s)
  | JDict kv => Ok (List.length kv)
  | _ => Raise TypeError
  end.

(** [v.strip()] *)
Definition strip (v : json) : exc string :=
  match v with
  | JStr s => Ok (PyStr.strip s)
  | _ => Raise AttributeError
  end.

(** [v.lower()] *)
Definition lower (v : json) : exc string :=
  match v with
  | JStr s => Ok (PyStr.lower s)
  | _ => Raise AttributeError
  end.

(** [int(v)] *)
Definition int (v : json) : exc Z :=
  match v with
  | JInt z => Ok z
  | JBool b => Ok (if b then 1 else 0)
  | JStr s =>
      match PyStr.parse_int s with
      | Some z => Ok z
      | None => Raise ValueError
      end
  | _ => Raise TypeError
  end.

(** [a + b] where the code concatenates strings. *)
Definition add_str (a b : json) : exc json :=
  match a, b with
  | JStr x, JStr y => Ok (JStr (x ++ y)%string)
  | _, _ => Raise TypeError
  end.

(** The hashable values, up to Python's equality: [True == 1] and
    [False == 0], so a boolean and that integer are one set element. *)
Inductive key : Type :=
| KNone
| KInt (z : Z)
| KStr (s : string).

Definition key_eqb (a b : key) : bool :=
  match a, b with
  | KNone, KNone => true
  | KInt x, KInt y => x =? y
  | KStr x, KStr y => String.eqb x y
  | _, _ => false
  end.

(** [hash(v)], as needed to put [v] in a set or look it up there; lists
    and dicts are unhashable. *)
Definition hash (v : json) : exc key :=
  match v with
  | JNull => Ok KNone
  | JBool b => Ok (KInt (if b then 1 else 0))
  | JInt z => Ok (KInt z)
  | JStr s => Ok (KStr s)
  | JList _ | JDict _ => Raise TypeError
  end.

(** A Python set of hashable values; only membership is observed. *)
Definition set : Type := list key.

Definition mem (k : key) (s : set) : bool := existsb (key_eqb k) s.

(** [s.add(k)] *)
Definition add (s : set) (k : key) : set := s ++ [k].

(** [{x.get("id") for x in v}] *)
Definition id_set (v : json) : exc set :=
  xs <- iter v ;;
  mapM (fun x => i <- get x "id" JNull ;; hash i) xs.

(** [d[k].append(x)] on the bindings of a dict. *)
Definition append_at (kv : list (string * json)) (k : string) (x : json)
  : exc (list (string * json)) :=
  match assoc k kv with
  | None => Raise KeyError
  | Some (JList l) => Ok (assign k (JList (l ++ [x])) kv)
  | Some _ => Raise AttributeError
  end.

End Py.

(* ===================================================================== *)
(** * Identity *)
(* ===================================================================== *)

(** [tool_id], lines 132-134:
    [payload = (obj.get("name", "") + "|" + obj.get("link", "")).strip().lower()],
    then the first 16 hexadecimal digits of its SHA-1. *)
Definition payload (obj : json) : exc string :=
  name <- Py.get obj "name" (JStr "") ;;
  a <- Py.add_str name (JStr "|") ;;
  link <- Py.get obj "link" (JStr "") ;;
  p <- Py.add_str a link ;;
  s <- Py.strip p ;;
  Ok (PyStr.lower s).

Definition tool_id (obj : json) : exc string :=
  p <- payload obj ;;
  Ok (PyStr.take 16 (SHA1.hexdigest p)).

(** [euros], lines 125-130: the price shown as one to five banknote signs,
    three when the value cannot be read as an integer. *)
Definition EURO : string := "💶".

Definition euros_count (n : json) : Z :=
  match Py.int n with
  | Ok z => Z.max 1 (Z.min 5 z)
  | Raise _ => 3
  end.

Definition euros (n : json) : string :=
  PyStr.repeat EURO (Z.to_nat (euros_count n)).

(* ===================================================================== *)
(** * The stores *)
(* ===================================================================== *)

(** A JSON file of the data directory, as [os.path.exists], [open] and
    [json.load] see it. *)
Inductive file : Type :=
| Missing                (* no such file *)
| Unreadable             (* exists; opening or decoding it raises *)
| Content (j : json).    (* exists and decodes to [j] *)

(** The files behind [DB_PATH], [COMMENTS_PATH] and [LINKS_PATH], and the
    list object held by the module-level [DEFAULT_DB = {"tools": []}].
    [DEFAULT_DB.copy()] is a shallow copy: the dict is new, its ["tools"]
    list is this one object, so an [append] through a copy is seen by every
    later copy.  [DEFAULT_COMMENTS] and [DEFAULT_LINKS] are empty dicts and
    their copies share nothing. *)
Record World : Type := mkWorld {
  db_file : file;
  comments_file : file;
  links_file : file;
  DEFAULT_DB_tools : list json
}.

Definition set_db_file (f : file) (w : World) : World :=
  mkWorld f (comments_file w) (links_file w) (DEFAULT_DB_tools w).
Definition set_comments_file (f : file) (w : World) : World :=
  mkWorld (db_file w) f (links_file w) (DEFAULT_DB_tools w).
Definition set_links_file (f : file) (w : World) : World :=
  mkWorld (db_file w) (comments_file w) f (DEFAULT_DB_tools w).
Definition set_DEFAULT_DB_tools (l : list json) (w : World) : World :=
  mkWorld (db_file w) (comments_file w) (links_file w) l.

Definition DEFAULT_DB (w : World) : json :=
  JDict [("tools", JList (DEFAULT_DB_tools w))].
Definition DEFAULT_COMMENTS : json := JDict [].
Definition DEFAULT_LINKS : json := JDict [].

(** [save_db], lines 60-71.  The file is rewritten.  The background push
    that follows when automatic synchronisation is on runs in its own
    thread and is not part of the model. *)
Definition save_db (db : json) (w : World) : World := set_db_file (Content db) w.
Definition save_comments (c : json) (w : World) : World := set_comments_file (Content c) w.
Definition save_links (l : json) (w : World) : World := set_links_file (Content l) w.

(** [load_db], lines 50-58. *)
Definition load_db (w : World) : json * World :=
  match db_file w with
  | Missing => (DEFAULT_DB w, save_db (DEFAULT_DB w) w)
  | Unreadable => (DEFAULT_DB w, w)
  | Content j => (j, w)
  end.

(** Whether the dict [load_db] returns is a copy of [DEFAULT_DB], whose
    ["tools"] list is then the shared object. *)
Definition load_db_shares_default (w : World) : bool :=
  match db_file w with
  | Content _ => false
  | _ => true
  end.

(** [load_comments], lines 73-81. *)
Definition load_comments (w : World) : json * World :=
  match comments_file w with
  | Missing => (DEFAULT_COMMENTS, save_comments DEFAULT_COMMENTS w)
  | Unreadable => (DEFAULT_COMMENTS, w)
  | Content j => (j, w)
  end.

(** [load_links], lines 96-104. *)
Definition load_links (w : World) : json * World :=
  match links_file w with
  | Missing => (DEFAULT_LINKS, save_links DEFAULT_LINKS w)
  | Unreadable => (DEFAULT_LINKS, w)
  | Content j => (j, w)
  end.

(* ===================================================================== *)
(** * Export *)
(* ===================================================================== *)

(** [sum(len(c) for c in d.values())] *)
Fixpoint sum_len (vs : list json) : exc nat :=
  match vs with
  | [] => Ok O
  | v :: vs' => n <- Py.len v ;; m <- sum_len vs' ;; Ok (n + m)%nat
  end.

Definition values (d : json) : exc (list json) :=
  match d with
  | JDict kv => Ok (map snd kv)
  | _ => Raise AttributeError
  end.

(** [export_all_data], lines 326-345.  [export_date] is the clock reading.
    The function has no handler of its own: an exception leaves it. *)
Definition export_all_data (export_date : string) (w : World) : exc json * World :=
  let (db, w1) := load_db w in
  let (comments, w2) := load_comments w1 in
  let (links, w3) := load_links w2 in
  (tools <- Py.get db "tools" (JList []) ;;
   total_tools <- Py.len tools ;;
   cs <- values comments ;;
   total_comments <- sum_len cs ;;
   ls <- values links ;;
   total_links <- sum_len ls ;;
   Ok (JDict [("version", JStr "1.0");
              ("export_date", JStr export_date);
              ("tools", tools);
              ("comments", comments);
              ("external_links", links);
              ("metadata",
               JDict [("total_tools", JInt (Z.of_nat total_tools));
                      ("total_comments", JInt (Z.of_nat total_comments));
                      ("total_links", JInt (Z.of_nat total_links))])]),
   w3).

(* ===================================================================== *)
(** * Import *)
(* ===================================================================== *)

(** An entry of [results["errors"]]: the message
    ["Version non supportée: {version}"] or
    ["Erreur lors de l'import: {str(e)}"]. *)
Inductive import_error : Type :=
| UnsupportedVersion (version : json)
| ImportFailed (e : exn).

Record results : Type := mkResults {
  tools_imported : nat;
  comments_imported : nat;
  links_imported : nat;
  errors : list import_error
}.

(** The dict literal of lines 370-378; [now] is the reading of
    [datetime.utcnow().isoformat() + "Z"] taken for this tool. *)
Definition normalize_tool (now : string) (tool : list (string * json))
  : exc (list (string * json)) :=
  name <- (v <- Py.get (JDict tool) "name" (JStr "") ;; Py.strip v) ;;
  link <- (v <- Py.get (JDict tool) "link" (JStr "") ;; Py.strip v) ;;
  description <- (v <- Py.get (JDict tool) "description" (JStr "") ;; Py.strip v) ;;
  category <- (v <- Py.get (JDict tool) "category" (JStr "") ;; Py.strip v) ;;
  let keywords :=
    match Py.lookup tool "keywords" with
    | JList l => JList l
    | _ => JList []
    end in
  price <- (v <- Py.get (JDict tool) "price_euros_1_to_5" (JInt 3) ;; Py.int v) ;;
  let added_at :=
    if Py.truthy (Py.lookup tool "added_at") then Py.lookup tool "added_at"
    else JStr now in
  Ok [("name", JStr name);
      ("link", JStr link);
      ("description", JStr description);
      ("category", JStr category);
      ("keywords", keywords);
      ("price_euros_1_to_5", JInt price);
      ("added_at", added_at)].

(** The guard of line 368 on a dict: [tool.get("name") or tool.get("link")]. *)
Definition has_name_or_link (tool : list (string * json)) : bool :=
  Py.truthy (Py.lookup tool "name") || Py.truthy (Py.lookup tool "link").

(** The local variables of the tools section: the bindings of [db], the
    set [existing_tools], and [results["tools_imported"]]. *)
Record tools_state : Type := mkToolsState {
  ts_db : list (string * json);
  ts_existing : Py.set;
  ts_imported : nat
}.

(** One turn of the loop of lines 367-385.  The state returned with an
    exception is the state reached when it was raised. *)
Definition import_tool (now : string) (tool : json) (st : tools_state)
  : option exn * tools_state :=
  match tool with
  | JDict t =>
      if has_name_or_link t then
        match normalize_tool now t with
        | Raise e => (Some e, st)
        | Ok normalized =>
            match tool_id (JDict normalized) with
            | Raise e => (Some e, st)
            | Ok i =>
                let normalized := Py.assign "id" (JStr i) normalized in
                if Py.mem (Py.KStr i) (ts_existing st) then (None, st)
                else
                  match Py.append_at (ts_db st) "tools" (JDict normalized) with
                  | Raise e => (Some e, st)
                  | Ok db' =>
                      (None,
                       mkToolsState db' (Py.add (ts_existing st) (Py.KStr i))
                                    (S (ts_imported st)))
                  end
            end
        end
      else (None, st)
  | _ => (None, st)
  end.

(** [for tool in data["tools"]]; [now i] is the clock reading for the
    tool at position [i]. *)
Fixpoint import_tools_loop (now : nat -> string) (i : nat) (tools : list json)
  (st : tools_state) : option exn * tools_state :=
  match tools with
  | [] => (None, st)
  | tool :: tools' =>
      match import_tool (now i) tool st with
      | (Some e, st') => (Some e, st')
      | (None, st') => import_tools_loop now (S i) tools' st'
      end
  end.

(** What a section of the import leaves behind: the exception that ended
    it, if any, the value of its counter, and the world. *)
Definition section_result : Type := option exn * nat * World.

(** The [DEFAULT_DB] list after appends made through a copy of
    [DEFAULT_DB]. *)
Definition publish_default (db : list (string * json)) (w : World) : World :=
  match Py.assoc "tools" db with
  | Some (JList l) => set_DEFAULT_DB_tools l w
  | _ => w
  end.

(** The tools section, lines 364-387, for [data["tools"]] a list. *)
Definition import_tools (now : nat -> string) (tools : list json) (w : World)
  : section_result :=
  let shared := load_db_shares_default w in
  let (db, w1) := load_db w in
  match db with
  | JDict kv =>
      match Py.id_set (Py.get_or kv "tools" (JList [])) with
      | Raise e => (Some e, O, w1)
      | Ok existing =>
          let (r, st) := import_tools_loop now 0 tools (mkToolsState kv existing 0) in
          let w2 := if shared then publish_default (ts_db st) w1 else w1 in
          match r with
          | Some e => (Some e, ts_imported st, w2)
          | None => (None, ts_imported st, save_db (JDict (ts_db st)) w2)
          end
      end
  | _ => (Some AttributeError, O, w1)
  end.

(** [k not in store] followed by [store[k] = []], lines 394-395 and
    412-413, for a store of any JSON type. *)
Definition ensure_key (store : json) (k : string) : exc json :=
  match store with
  | JDict kv =>
      match Py.assoc k kv with
      | Some _ => Ok store
      | None => Ok (JDict (Py.assign k (JList []) kv))
      end
  | JList l => if existsb (Py.is_str k) l then Ok store else Raise TypeError
  | JStr s => if PyStr.contains s k then Ok store else Raise TypeError
  | _ => Raise TypeError
  end.

(** [store[k]] *)
Definition subscript (store : json) (k : string) : exc json :=
  match store with
  | JDict kv =>
      match Py.assoc k kv with
      | Some v => Ok v
      | None => Raise KeyError
      end
  | _ => Raise TypeError
  end.

(** [store[k].append(x)] *)
Definition append_item (store : json) (k : string) (x : json) : exc json :=
  match store with
  | JDict kv => kv' <- Py.append_at kv k x ;; Ok (JDict kv')
  | _ => Raise TypeError
  end.

(** One turn of the inner loop of lines 397-403 (comments, with
    [f1 = "author"] and [f2 = "content"]) and of lines 415-421 (links, with
    [f1 = "title"] and [f2 = "url"]).  The state is the store in memory and
    the counter. *)
Definition merge_item (f1 f2 : string) (k : string) (item : json)
  (st : json * nat) : option exn * (json * nat) :=
  let (store, n) := st in
  match item with
  | JDict c =>
      if Py.truthy (Py.lookup c f1) && Py.truthy (Py.lookup c f2) then
        match (l <- subscript store k ;; Py.id_set l) with
        | Raise e => (Some e, st)
        | Ok existing_ids =>
            match Py.hash (Py.lookup c "id") with
            | Raise e => (Some e, st)
            | Ok i =>
                if Py.mem i existing_ids then (None, st)
                else
                  match append_item store k item with
                  | Raise e => (Some e, st)
                  | Ok store' => (None, (store', S n))
                  end
            end
        end
      else (None, st)
  | _ => (None, st)
  end.

Fixpoint merge_items (f1 f2 : string) (k : string) (items : list json)
  (st : json * nat) : option exn * (json * nat) :=
  match items with
  | [] => (None, st)
  | item :: items' =>
      match merge_item f1 f2 k item st with
      | (Some e, st') => (Some e, st')
      | (None, st') => merge_items f1 f2 k items' st'
      end
  end.

(** The outer loop, [for current_tool_id, items in data[...].items()]. *)
Fixpoint merge_entries (f1 f2 : string) (entries : list (string * json))
  (st : json * nat) : option exn * (json * nat) :=
  match entries with
  | [] => (None, st)
  | (k, JList items) :: entries' =>
      match ensure_key (fst st) k with
      | Raise e => (Some e, st)
      | Ok store' =>
          match merge_items f1 f2 k items (store', snd st) with
          | (Some e, st') => (Some e, st')
          | (None, st') => merge_entries f1 f2 entries' st'
          end
      end
  | _ :: entries' => merge_entries f1 f2 entries' st
  end.

(** The comments section, lines 391-405, for [data["comments"]] a dict. *)
Definition import_comments (entries : list (string * json)) (w : World)
  : section_result :=
  let (comments, w1) := load_comments w in
  match merge_entries "author" "content" entries (comments, O) with
  | (Some e, (_, n)) => (Some e, n, w1)
  | (None, (comments', n)) => (None, n, save_comments comments' w1)
  end.

(** The links section, lines 409-423, for [data["external_links"]] a
    dict. *)
Definition import_links (entries : list (string * json)) (w : World)
  : section_result :=
  let (links, w1) := load_links w in
  match merge_entries "title" "url" entries (links, O) with
  | (Some e, (_, n)) => (Some e, n, w1)
  | (None, (links', n)) => (None, n, save_links links' w1)
  end.

(** The guards of lines 363, 390 and 408 on a dict [data]. *)
Definition tools_section (now : nat -> string) (data : list (string * json))
  (w : World) : section_result :=
  match Py.assoc "tools" data with
  | Some (JList tools) => import_tools now tools w
  | _ => (None, O, w)
  end.

Definition comments_section (data : list (string * json)) (w : World)
  : section_result :=
  match Py.assoc "comments" data with
  | Some (JDict entries) => import_comments entries w
  | _ => (None, O, w)
  end.

Definition links_section (data : list (string * json)) (w : World)
  : section_result :=
  match Py.assoc "external_links" data with
  | Some (JDict entries) => import_links entries w
  | _ => (None, O, w)
  end.

(** The version check of lines 358-360. *)
Definition version_errors (data : list (string * json)) : list import_error :=
  let version := Py.get_or data "version" (JStr "1.0") in
  if Py.is_str "1.0" version then [] else [UnsupportedVersion version].

(** [import_all_data], lines 347-432.  The three sections run in order
    inside one [try]; the handler appends the exception to the errors and
    the function returns [results] in every case.  The note about the
    metadata (lines 426-427) only writes to the page. *)
Definition import_all_data (now : nat -> string) (data : json) (w : World)
  : results * World :=
  match data with
  | JDict d =>
      let errs := version_errors d in
      match tools_section now d w with
      | (Some e, nt, w1) => (mkResults nt 0 0 (errs ++ [ImportFailed e]), w1)
      | (None, nt, w1) =>
          match comments_section d w1 with
          | (Some e, nc, w2) => (mkResults nt nc 0 (errs ++ [ImportFailed e]), w2)
          | (None, nc, w2) =>
              match links_section d w2 with
              | (Some e, nl, w3) => (mkResults nt nc nl (errs ++ [ImportFailed e]), w3)
              | (None, nl, w3) => (mkResults nt nc nl errs, w3)
              end
          end
      end
  | _ => (mkResults 0 0 0 [ImportFailed AttributeError], w)
  end.

(* ===================================================================== *)
(** * Enrichment *)
(* ===================================================================== *)

Section Enrichment.

(** [str(e)], the text Python gives for an exception. *)
Variable str_of_exn : exn -> string.

(** [{**tool, "ai_enriched": flag, "ai_note": note}] *)
Definition with_flags (tool : list (string * json)) (flag : bool) (note : string)
  : list (string * json) :=
  Py.assign "ai_note" (JStr note) (Py.assign "ai_enriched" (JBool flag) tool).

(** The loop of lines 249-253 over [keywords[:20]]. *)
Fixpoint clean_keywords (kws : list json) : list json :=
  match kws with
  | [] => []
  | JStr s :: kws' =>
      if String.eqb (PyStr.strip s) "" then clean_keywords kws'
      else JStr (PyStr.lower (PyStr.strip s)) :: clean_keywords kws'
  | _ :: kws' => clean_keywords kws'
  end.

(** The body of the [try] of [ai_enrich], lines 201-262.  [reply] is what
    the steps from the prompt to [json.loads] give: the decoded reply, or
    the exception that the building of the prompt, the provider call or
    the decoding raised.  The web snippets only feed the prompt, and
    [ddg_snippets] returns an empty list when the lookup fails. *)
Definition enrich_body (reply : exc json) (tool : list (string * json))
  : exc (list (string * json)) :=
  _query <- (name <- Py.get (JDict tool) "name" (JStr "") ;;
             a <- Py.add_str name (JStr " ") ;;
             link <- Py.get (JDict tool) "link" (JStr "") ;;
             Py.add_str a link) ;;
  data <- reply ;;
  keywords <- Py.get data "keywords" (JList []) ;;
  let keywords :=
    match keywords with
    | JList l => JList (clean_keywords (firstn 20 l))
    | other => other
    end in
  description <- Py.get data "description" (Py.get_or tool "description" (JStr "")) ;;
  category <- Py.get data "category" (Py.get_or tool "category" (JStr "")) ;;
  Ok (with_flags
        (Py.assign "category" category
           (Py.assign "keywords" keywords
              (Py.assign "description" description tool)))
        true "Enrichi par IA avec recherche web").

(** [ai_enrich], lines 196-264.  [client] tells whether
    [get_openai_client()] returned a client. *)
Definition ai_enrich (client : bool) (reply : exc json)
  (tool : list (string * json)) : list (string * json) :=
  if negb client then with_flags tool false "OpenAI non configuré"
  else
    match enrich_body reply tool with
    | Ok tool' => tool'
    | Raise e => with_flags tool false ("Erreur IA: " ++ str_of_exn e)%string
    end.

End Enrichment.

(* ===================================================================== *)
(** * Search *)
(* ===================================================================== *)

Section Search.

(** [rapidfuzz.fuzz.token_set_ratio], a similarity between 0 and 100. *)
Variable token_set_ratio : string -> string -> Q.

(** [str(v)] for a value that is not a string, as an f-string renders
    it. *)
Variable py_str : json -> string.

Definition format (v : json) : string :=
  match v with
  | JStr s => s
  | _ => py_str v
  end.

(** [any(query_lower in kw.lower() for kw in kws)]: the keywords are
    examined in order up to the first hit. *)
Fixpoint any_keyword (query_lower : string) (kws : list json) : exc bool :=
  match kws with
  | [] => Ok false
  | kw :: kws' =>
      s <- Py.lower kw ;;
      if PyStr.contains s query_lower then Ok true
      else any_keyword query_lower kws'
  end.

(** The three tests of lines 806-819 on one entry. *)
Definition exact_match (query_lower : string) (t : json) : exc bool :=
  name <- (v <- Py.get t "name" (JStr "") ;; Py.lower v) ;;
  if PyStr.contains name query_lower then Ok true
  else
    kws <- (v <- Py.get t "keywords" (JList []) ;; Py.iter v) ;;
    hit <- any_keyword query_lower kws ;;
    if hit then Ok true
    else
      category <- (v <- Py.get t "category" (JStr "") ;; Py.lower v) ;;
      Ok (PyStr.contains category query_lower).

(** The loop of lines 803-819: [exact_matches], in catalog order. *)
Fixpoint exact_phase (query_lower : string) (tools : list json) : exc (list json) :=
  match tools with
  | [] => Ok []
  | t :: tools' =>
      hit <- exact_match query_lower t ;;
      rest <- exact_phase query_lower tools' ;;
      Ok (if hit then t :: rest else rest)
  end.

Definition as_str (v : json) : exc string :=
  match v with
  | JStr s => Ok s
  | _ => Raise TypeError
  end.

(** [score_tool], lines 927-929. *)
Definition score_tool (query_lower : string) (t : json) : exc Q :=
  name <- Py.get t "name" (JStr "") ;;
  description <- Py.get t "description" (JStr "") ;;
  kws <- (v <- Py.get t "keywords" (JList []) ;; xs <- Py.iter v ;; mapM as_str xs) ;;
  category <- Py.get t "category" (JStr "") ;;
  let text :=
    (format name ++ " " ++ format description ++ " "
     ++ PyStr.join " " kws ++ " " ++ format category)%string in
  Ok (token_set_ratio query_lower (PyStr.lower text)).

(** [sorted(l, key=..., reverse=True)] on entries paired with their key:
    a stable sort, largest key first.  An element is placed before the
    first element whose key is not larger than its own. *)
Fixpoint insert_desc (x : json * Q) (l : list (json * Q)) : list (json * Q) :=
  match l with
  | [] => [x]
  | y :: l' =>
      if Qle_bool (snd y) (snd x) then x :: y :: l'
      else y :: insert_desc x l'
  end.

Definition sorted_desc (l : list (json * Q)) : list (json * Q) :=
  fold_right insert_desc [] l.

(** Line 932: [sorted(tools, key=score_tool, reverse=True)[:5]].  The
    keys are computed for every entry before any comparison. *)
Definition smart_results (query_lower : string) (tools : list json)
  : exc (list json) :=
  scores <- mapM (score_tool query_lower) tools ;;
  Ok (firstn 5 (map fst (sorted_desc (combine tools scores)))).

(** What the search tab shows. *)
Inductive search_outcome : Type :=
| NoQuery                          (* empty query: nothing is searched *)
| EmptyBase                        (* no tool in the base *)
| ExactResults (l : list json)     (* step 1 found entries *)
| GptResults (l : list json)       (* step 2, recommendations of the model *)
| SmartResults (l : list json).    (* step 2, similarity ranking *)

(** The search tab, lines 796-954, on the list [tools] of the catalog.
    [use_gpt] is the checkbox, [have_openai] the result of
    [have_openai()], and [gpt] the outcome of the [try] block of lines
    860-921: the recommended entries, or the exception that sends the
    search back to the similarity ranking.  An exception raised by the
    other steps has no handler.  The outcome is the list computed; how it
    is rendered afterwards is not modelled. *)
Definition search (use_gpt have_openai : bool) (gpt : exc (list json))
  (query : string) (tools : list json) : exc search_outcome :=
  if String.eqb query "" then Ok NoQuery
  else
    match tools with
    | [] => Ok EmptyBase
    | _ =>
        let query_lower := PyStr.lower query in
        exact_matches <- exact_phase query_lower tools ;;
        match exact_matches with
        | _ :: _ => Ok (ExactResults exact_matches)
        | [] =>
            let fallback :=
              l <- smart_results query_lower tools ;; Ok (SmartResults l) in
            if use_gpt && have_openai then
              match gpt with
              | Ok recommended => Ok (GptResults recommended)
              | Raise _ => fallback
              end
            else fallback
        end
    end.

End Search.

(* ===================================================================== *)
(** * Adding a tool from the form *)
(* ===================================================================== *)

(** [s.replace(",", ";").split(";")] *)
Fixpoint split_keywords (s : string) : list string :=
  match s with
  | EmptyString => [""]
  | String c s' =>
      if Ascii.eqb c "," || Ascii.eqb c ";" then "" :: split_keywords s'
      else
        match split_keywords s' with
        | [] => [String c ""]
        | p :: ps => String c p :: ps
        end
  end.

(** [normalize_kw], lines 119-123. *)
Definition normalize_kw (s : string) : list string :=
  if String.eqb s "" then []
  else
    filter (fun p => negb (String.eqb p ""))
           (map (fun p => PyStr.lower (PyStr.strip p)) (split_keywords s)).

Inductive add_outcome : Type :=
| NotSubmitted        (* name or link empty: the form does nothing *)
| AlreadyThere        (* "Cet outil existe déjà !" *)
| Added (tool : list (string * json)).

Section AddTool.

Variable str_of_exn : exn -> string.

(** [tool["id"] in [t.get("id") for t in tools]] *)
Fixpoint id_in_list (i : string) (tools : list json) : exc bool :=
  match tools with
  | [] => Ok false
  | t :: tools' =>
      v <- Py.get t "id" JNull ;;
      rest <- id_in_list i tools' ;;
      Ok (Py.is_str i v || rest)
  end.

(** The form of lines 745-785, once submitted.  [price] is the value of
    the slider [st.slider("Prix (1-5)", 1, 5, 3)]; [use_ai], [client] and
    [reply] are the checkbox and the enrichment collaborators. *)
Definition add_tool (now : string) (use_ai client : bool) (reply : exc json)
  (name link description category keywords : string) (price : Z) (w : World)
  : exc add_outcome * World :=
  if String.eqb name "" || String.eqb link "" then (Ok NotSubmitted, w)
  else
    let shared := load_db_shares_default w in
    let (db, w1) := load_db w in
    let tool :=
      [("name", JStr (PyStr.strip name));
       ("link", JStr (PyStr.strip link));
       ("description", JStr (PyStr.strip description));
       ("category", JStr (PyStr.strip category));
       ("keywords", JList (map JStr (normalize_kw keywords)));
       ("price_euros_1_to_5", JInt price);
       ("added_at", JStr now)] in
    let tool := if use_ai then ai_enrich str_of_exn client reply tool else tool in
    match tool_id (JDict tool) with
    | Raise e => (Raise e, w1)
    | Ok i =>
        let tool := Py.assign "id" (JStr i) tool in
        match db with
        | JDict kv =>
            match (xs <- Py.iter (Py.get_or kv "tools" (JList [])) ;;
                   id_in_list i xs) with
            | Raise e => (Raise e, w1)
            | Ok true => (Ok AlreadyThere, w1)
            | Ok false =>
                match Py.append_at kv "tools" (JDict tool) with
                | Raise e => (Raise e, w1)
                | Ok db' =>
                    let w2 := if shared then publish_default db' w1 else w1 in
                    (Ok (Added tool), save_db (JDict db') w2)
                end
            end
        | _ => (Raise AttributeError, w1)
        end
    end.

End AddTool.

(* ===================================================================== *)
(** * Duplicates in the catalog *)
(* ===================================================================== *)

(** [t.get("id") or tool_id(t)], line 140. *)
Definition id_or_computed (t : json) : exc json :=
  i <- Py.get t "id" JNull ;;
  if Py.truthy i then Ok i
  else s <- tool_id t ;; Ok (JStr s).

(** [t[k] = v] for an entry of any JSON type. *)
Definition set_item (t : json) (k : string) (v : json) : exc json :=
  match t with
  | JDict kv => Ok (JDict (Py.assign k v kv))
  | _ => Raise TypeError
  end.

(** The loop of [dedupe_tools], lines 139-144, with the set [seen] and the
    list [out]. *)
Fixpoint dedupe_loop (tools : list json) (seen : Py.set) (out : list json)
  : exc (list json) :=
  match tools with
  | [] => Ok out
  | t :: tools' =>
      tid <- id_or_computed t ;;
      k <- Py.hash tid ;;
      if Py.mem k seen then dedupe_loop tools' seen out
      else
        t' <- set_item t "id" tid ;;
        dedupe_loop tools' (Py.add seen k) (out ++ [t'])
  end.

(** [dedupe_tools], lines 136-145: the list returned.  Its entries are the
    objects of the input that were kept; they receive their id in place. *)
Definition dedupe_tools (tools : list json) : exc (list json) :=
  dedupe_loop tools [] [].

(* ===================================================================== *)
(** * Comments and links of an entry *)
(* ===================================================================== *)

(** [hashlib.sha1(f"{a}{b}{c}".encode()).hexdigest()[:8]] *)
Definition short_id (a b c : string) : string :=
  PyStr.take 8 (SHA1.hexdigest (a ++ b ++ c)%string).

(** The dict literal of lines 272-279.  [now_id] and [now_ts] are the two
    readings of [datetime.now().isoformat()], the first inside the id, the
    second for the timestamp. *)
Definition new_comment (now_id now_ts : string) (key author content : string)
  (rating : Z) : json :=
  JDict [("id", JStr (short_id key author now_id));
         ("author", JStr author);
         ("content", JStr content);
         ("rating", JInt (Z.max 1 (Z.min 5 rating)));
         ("timestamp", JStr now_ts);
         ("likes", JInt 0)].

(** [add_comment], lines 267-282, for a string [key] (the parameter
    [tool_id] of the source). *)
Definition add_comment (now_id now_ts : string) (key author content : string)
  (rating : Z) (w : World) : option exn * World :=
  let (comments, w1) := load_comments w in
  match (s <- ensure_key comments key ;;
         append_item s key (new_comment now_id now_ts key author content rating)) with
  | Raise e => (Some e, w1)
  | Ok comments' => (None, save_comments comments' w1)
  end.

(** [[c for c in l if c.get("id") != i]] *)
Fixpoint without_id (i : string) (l : list json) : exc (list json) :=
  match l with
  | [] => Ok []
  | c :: l' =>
      v <- Py.get c "id" JNull ;;
      rest <- without_id i l' ;;
      Ok (if Py.is_str i v then rest else c :: rest)
  end.

(** The body shared by [delete_comment] and [delete_external_link] once the
    store is loaded: the store to save, if any.  [key in store] is a key
    test on a dict, an element test on a list and a substring test on a
    string; on the last two [store[key]] then raises. *)
Definition delete_from (store : json) (key i : string) : exc (option json) :=
  match store with
  | JDict kv =>
      match Py.assoc key kv with
      | None => Ok None
      | Some v =>
          xs <- Py.iter v ;;
          kept <- without_id i xs ;;
          Ok (Some (JDict (Py.assign key (JList kept) kv)))
      end
  | JList l => if existsb (Py.is_str key) l then Raise TypeError else Ok None
  | JStr s => if PyStr.contains s key then Raise TypeError else Ok None
  | _ => Raise TypeError
  end.

(** [delete_comment], lines 284-289. *)
Definition delete_comment (key comment_id : string) (w : World)
  : option exn * World :=
  let (comments, w1) := load_comments w in
  match delete_from comments key comment_id with
  | Raise e => (Some e, w1)
  | Ok None => (None, w1)
  | Ok (Some comments') => (None, save_comments comments' w1)
  end.


(** The dict literal of lines 301-309. *)
Definition new_link (now_id now_added : string)
  (key title url link_type description : string) : json :=
  JDict [("id", JStr (short_id key title now_id));
         ("title", JStr title);
         ("url", JStr url);
         ("type", JStr link_type);
         ("description", JStr description);
         ("added_at", JStr now_added);
         ("rating", JInt 0)].

(** [add_external_link], lines 296-312. *)
Definition add_external_link (now_id now_added : string)
  (key title url link_type description : string) (w : World)
  : option exn * World :=
  let (links, w1) := load_links w in
  match (s <- ensure_key links key ;;
         append_item s key (new_link now_id now_added key title url link_type description)) with
  | Raise e => (Some e, w1)
  | Ok links' => (None, save_links links' w1)
  end.


(** [delete_external_link], lines 318-323. *)
Definition delete_external_link (key link_id : string) (w : World)
  : option exn * World :=
  let (links, w1) := load_links w in
  match delete_from links key link_id with
  | Raise e => (Some e, w1)
  | Ok None => (None, w1)
  | Ok (Some links') => (None, save_links links' w1)
  end.



(* ===================================================================== *)
(** * Vocabulary of the properties and sample inputs *)
(* ===================================================================== *)

(** ** Reading one character *)

(** The character that starts at byte [b0] followed by [s], if a
    well-formed sequence starts there, with the text after it: one step of
    [PyStr.decode]. *)
Definition head_cp (b0 : Z) (s : string) : option (Z * string) :=
  if b0 <? 0x80 then Some (b0, s)
  else
    match s with
    | EmptyString => None
    | String a1 s2 =>
        let b1 := PyStr.byte a1 in
        if PyStr.between 0xC2 0xDF b0 && PyStr.cont b1 then
          Some ((b0 - 0xC0) * 64 + (b1 - 0x80), s2)
        else
          match s2 with
          | EmptyString => None
          | String a2 s3 =>
              let b2 := PyStr.byte a2 in
              if PyStr.between 0xE0 0xEF b0 && PyStr.second3 b0 b1
                 && PyStr.cont b2 then
                Some ((b0 - 0xE0) * 4096 + (b1 - 0x80) * 64 + (b2 - 0x80), s3)
              else
                match s3 with
                | EmptyString => None
                | String a3 s4 =>
                    let b3 := PyStr.byte a3 in
                    if PyStr.between 0xF0 0xF4 b0 && PyStr.second4 b0 b1
                       && PyStr.cont b2 && PyStr.cont b3 then
                      Some ((b0 - 0xF0) * 262144 + (b1 - 0x80) * 4096
                            + (b2 - 0x80) * 64 + (b3 - 0x80), s4)
                    else None
                end
          end
    end.

(** A code point that has a UTF-8 encoding: no surrogate. *)
Definition is_scalar (c : Z) : bool :=
  PyStr.between 0 0xD7FF c || PyStr.between 0xE000 0x10FFFF c.

(** A unit that stands for a byte outside any character. *)
Definition is_raw (c : Z) : bool :=
  PyStr.between (PyStr.RAW + 0x80) (PyStr.RAW + 0xFF) c.

(** The lists that [PyStr.decode] produces: characters, and bytes that
    start no well-formed sequence with what follows them. *)
Fixpoint canonical (l : list Z) : Prop :=
  match l with
  | [] => True
  | c :: l' =>
      canonical l'
      /\ (is_scalar c = true
          \/ (is_raw c = true
              /\ head_cp (c - PyStr.RAW) (PyStr.encode l') = None))
  end.

(** A text that does not start inside a character. *)
Definition clean_start (s : string) : Prop :=
  match s with
  | EmptyString => True
  | String a _ => PyStr.cont (PyStr.byte a) = false
  end.

(** Two texts with the same continuation bytes at their start, as far as
    [n] bytes. *)
Fixpoint agree (n : nat) (s t : string) : Prop :=
  match n with
  | O => True
  | S n' =>
      match s, t with
      | EmptyString, EmptyString => True
      | EmptyString, String b _ => PyStr.cont (PyStr.byte b) = false
      | String a _, EmptyString => PyStr.cont (PyStr.byte a) = false
      | String a s', String b t' =>
          (PyStr.cont (PyStr.byte a) = false /\ PyStr.cont (PyStr.byte b) = false)
          \/ (a = b /\ agree n' s' t')
      end
  end.

(** ** The members of the character tables *)

(** The characters of one run of [PyStr.lower_runs]. *)
Definition run_members (r : Z * Z * Z * Z) : list Z :=
  let '(lo, hi, step, _) := r in
  map (fun k => lo + step * Z.of_nat k) (seq 0 (Z.to_nat ((hi - lo) / step) + 1)).

(** The characters that have a lowercase form of their own, U+0130 apart. *)
Definition lower_keys : list Z := flat_map run_members PyStr.lower_runs.

Definition range_members (r : Z * Z) : list Z :=
  map (fun k => fst r + Z.of_nat k) (seq 0 (Z.to_nat (snd r - fst r + 1))).

(** The blank characters. *)
Definition space_members : list Z := flat_map range_members PyStr.space_ranges.

(** A character that [lower] leaves as it is, wherever it stands. *)
Definition is_fixed (c : Z) : bool :=
  negb (c =? PyStr.SIGMA)
  && match PyStr.lower_cp c with
     | [c'] => c' =? c
     | _ => false
     end.

(** A character or a byte outside any character. *)
Definition is_unit (c : Z) : bool := is_scalar c || is_raw c.

(** A character that is no blank, is not cased and is not skipped when the
    case of its neighbours is decided: it separates what stands before it
    from what stands after it. *)
Definition is_separator (c : Z) : bool :=
  is_scalar c && negb (PyStr.is_space c) && negb (PyStr.is_cased c)
  && negb (PyStr.is_case_ignorable c) && is_fixed c.

(** Two lists of units whose encodings start alike: the same bytes
    outside characters, up to the first character or the end. *)
Inductive alike : list Z -> list Z -> Prop :=
| alike_nil : alike [] []
| alike_end (c : Z) (l : list Z) : is_scalar c = true -> alike (c :: l) []
| alike_scalar (c : Z) (l : list Z) (o : Z) (m : list Z) :
    is_scalar c = true -> is_scalar o = true -> alike (c :: l) (o :: m)
| alike_raw (c : Z) (l m : list Z) :
    is_raw c = true -> alike l m -> alike (c :: l) (c :: m).

(** The keys [ai_enrich] may write. *)
Definition enriched_field (k : string) : bool :=
  String.eqb k "description" || String.eqb k "keywords" || String.eqb k "category"
  || String.eqb k "ai_enriched" || String.eqb k "ai_note".

(** The two keys every result of [ai_enrich] carries. *)
Definition flag_field (k : string) : bool :=
  String.eqb k "ai_enriched" || String.eqb k "ai_note".

(** The exception that ends the [try] of [ai_enrich], if one does.  The
    concatenation of name and link raises when either is not a string; the
    building of the prompt, the provider call and the decoding of its reply
    may raise; a reply that is not a JSON object has no [get].  A reply
    that is an object ends the [try] with no exception, whatever its fields
    hold. *)
Definition enrich_error (reply : exc json) (tool : list (string * json))
  : option exn :=
  match Py.get_or tool "name" (JStr ""), Py.get_or tool "link" (JStr "") with
  | JStr _, JStr _ =>
      match reply with
      | Raise e => Some e
      | Ok (JDict _) => None
      | Ok _ => Some AttributeError
      end
  | _, _ => Some TypeError
  end.

(** The keywords stored for a reply that is an object: the cleaned first
    twenty when the reply holds a list (the empty list when it has no
    keywords), the value of the reply as it is otherwise. *)
Definition reply_keywords (data : list (string * json)) : json :=
  match Py.get_or data "keywords" (JList []) with
  | JList l => JList (clean_keywords (firstn 20 l))
  | other => other
  end.

(** A reply that does not follow the format asked for, and the entry it is
    applied to. *)
Definition malformed_reply : exc json :=
  Ok (JDict [("description", JInt 0); ("keywords", JStr "none")]).

Definition described_tool : list (string * json) :=
  [("name", JStr "ChatGPT"); ("link", JStr "https://chat.openai.com");
   ("description", JStr "assistant"); ("keywords", JList [JStr "chat"]);
   ("category", JStr "text")].


(** The prices held by the catalog file. *)
Definition stored_prices (w : World) : list json :=
  match db_file w with
  | Content (JDict db) =>
      match Py.assoc "tools" db with
      | Some (JList tools) =>
          map (fun t => match t with
                        | JDict e => Py.lookup e "price_euros_1_to_5"
                        | _ => JNull
                        end) tools
      | _ => []
      end
  | _ => []
  end.

(** A data directory with no file yet, in a fresh process. *)
Definition empty_world : World := mkWorld Missing Missing Missing [].

(** A clock that always reads the same instant. *)
Definition fixed_clock (_ : nat) : string := "2024-01-01T00:00:00Z".

(** Documents with one tool priced 9, and -3. *)
Definition price_9_document : json :=
  JDict [("version", JStr "1.0");
         ("tools", JList [JDict [("name", JStr "T"); ("link", JStr "l");
                                 ("price_euros_1_to_5", JInt 9)]])].

Definition price_minus_3_document : json :=
  JDict [("version", JStr "1.0");
         ("tools", JList [JDict [("name", JStr "T"); ("link", JStr "l");
                                 ("price_euros_1_to_5", JInt (-3))]])].

(** The entries of [errors] that report a caught exception. *)
Definition failures (r : results) : list exn :=
  flat_map (fun x => match x with
                     | ImportFailed e => [e]
                     | UnsupportedVersion _ => []
                     end) (errors r).


(** The guard of lines 398 and 416. *)
Definition accepted (f1 f2 : string) (x : json) : bool :=
  match x with
  | JDict c => Py.truthy (Py.lookup c f1) && Py.truthy (Py.lookup c f2)
  | _ => false
  end.

(** [sorted] leaves the entries in decreasing order of key. *)
Definition decreasing (a b : json * Q) : Prop := (snd b <= snd a)%Q.

(** The entries whose key equals [q]. *)
Definition with_score (q : Q) (l : list (json * Q)) : list (json * Q) :=
  filter (fun p => Qeq_bool (snd p) q) l.

(** [ranked] is [scored] in decreasing order of score, entries of equal
    score keeping the order they have in [scored]. *)
Definition stable_ranking (scored ranked : list (json * Q)) : Prop :=
  Permutation ranked scored
  /\ StronglySorted decreasing ranked
  /\ forall q, with_score q ranked = with_score q scored.


(** What [db["tools"].append(x)] meets: nothing, a missing key, or a value
    that is not a list. *)
Definition slot (db : list (string * json)) : option exn :=
  match Py.assoc "tools" db with
  | None => Some KeyError
  | Some (JList _) => None
  | Some _ => Some AttributeError
  end.

(** The set [existing_tools] stays the set of ids of the catalog in
    memory. *)
Definition ids_in_step (st : tools_state) : Prop :=
  Py.id_set (Py.get_or (ts_db st) "tools" (JList [])) = Ok (ts_existing st).

(** How the store in memory changes during a merge: a new key with an
    empty list, or a record with a hashable id appended to the list of a
    key. *)
Inductive grows : json -> json -> Prop :=
| grows_refl (s : json) : grows s s
| grows_key (kv : list (string * json)) (k : string) :
    Py.assoc k kv = None ->
    grows (JDict kv) (JDict (Py.assign k (JList []) kv))
| grows_append (kv : list (string * json)) (k : string) (l : list json)
               (c : list (string * json)) (i : Py.key) :
    Py.assoc k kv = Some (JList l) ->
    Py.hash (Py.lookup c "id") = Ok i ->
    grows (JDict kv) (JDict (Py.assign k (JList (l ++ [JDict c])) kv))
| grows_trans (s1 s2 s3 : json) : grows s1 s2 -> grows s2 s3 -> grows s1 s3.

(** The key [k] needs no creation in the store [s]. *)
Definition present (k : string) (s : json) : Prop := ensure_key s k = Ok s.

(** The record [x] is refused by the guard, or its id is among the ids
    under [k] in the store [s]. *)
Definition settled (f1 f2 k : string) (x : json) (s : json) : Prop :=
  accepted f1 f2 x = false
  \/ exists c l ids i,
      x = JDict c
      /\ subscript s k = Ok l
      /\ Py.id_set l = Ok ids
      /\ Py.hash (Py.lookup c "id") = Ok i
      /\ Py.mem i ids = true.

Definition entries_settled (f1 f2 : string) (entries : list (string * json))
  (s : json) : Prop :=
  Forall (fun kv =>
            match snd kv with
            | JList items =>
                present (fst kv) s
                /\ Forall (fun x => settled f1 f2 (fst kv) x s) items
            | _ => True
            end) entries.

(** The list under ["tools"] of a catalog document, the list under a key of
    a comments or links document; empty when there is no such list. *)
Definition tools_of (db : json) : list json :=
  match db with
  | JDict kv => match Py.assoc "tools" kv with Some (JList l) => l | _ => [] end
  | _ => []
  end.

Definition items_at (store : json) (k : string) : list json :=
  match store with
  | JDict kv => match Py.assoc k kv with Some (JList l) => l | _ => [] end
  | _ => []
  end.

(** The catalog, the comments of an entry and its links, as the loaders
    give them. *)
Definition catalog (w : World) : list json := tools_of (fst (load_db w)).
Definition comments_of (w : World) (k : string) : list json :=
  items_at (fst (load_comments w)) k.
Definition links_of (w : World) (k : string) : list json :=
  items_at (fst (load_links w)) k.




(** The three files present and empty. *)
Definition empty_stores : World :=
  mkWorld (Content (JDict [("tools", JList [])])) (Content (JDict []))
          (Content (JDict [])) [].

(** A comment or a link as the program writes it: an object whose id, if
    any, is a scalar. *)
Definition record_ok (x : json) : bool :=
  match x with
  | JDict c => match Py.hash (Py.lookup c "id") with Ok _ => true | Raise _ => false end
  | _ => false
  end.

(** A catalog entry as the form and the import write it: an object that
    the import can normalize again (its name, link, description and
    category are strings, its price reads as an integer) and whose id is
    the one [tool_id] gives to the normalized entry.  An entry with neither
    name nor link is never looked at; it only needs a scalar id. *)
Definition canonical_tool (x : json) : bool :=
  match x with
  | JDict c =>
      if has_name_or_link c then
        match normalize_tool "" c with
        | Ok n =>
            match tool_id (JDict n) with
            | Ok i => Py.is_str i (Py.lookup c "id")
            | Raise _ => false
            end
        | Raise _ => false
        end
      else record_ok x
  | _ => false
  end.

(** A catalog document: an object whose ["tools"], if any, is a list of
    canonical entries. *)
Definition catalog_ok (db : json) : bool :=
  match db with
  | JDict kv =>
      match Py.get_or kv "tools" (JList []) with
      | JList tools => forallb canonical_tool tools
      | _ => false
      end
  | _ => false
  end.

(** No key is bound twice, as in every dict Python builds. *)
Fixpoint distinct_keys (kv : list (string * json)) : bool :=
  match kv with
  | [] => true
  | (k, _) :: kv' =>
      match Py.assoc k kv' with
      | None => distinct_keys kv'
      | Some _ => false
      end
  end.

(** A store of comments or links: an object with one binding per key, each
    value a list of records. *)
Definition annotations_ok (store : json) : bool :=
  match store with
  | JDict kv =>
      distinct_keys kv
      && forallb (fun p => match snd p with
                           | JList items => forallb record_ok items
                           | _ => false
                           end) kv
  | _ => false
  end.

(** The three stores, as the loaders give them, hold such records. *)
Definition stores_ok (w : World) : bool :=
  catalog_ok (fst (load_db w))
  && annotations_ok (fst (load_comments w))
  && annotations_ok (fst (load_links w)).


(** Stores with one canonical entry and one comment, and no links file. *)
Definition sample_stores : World :=
  mkWorld
    (Content (JDict [("tools",
                      JList [JDict [("name", JStr "A"); ("link", JStr "x");
                                    ("description", JStr "d"); ("category", JStr "c");
                                    ("keywords", JList [JStr "k"]);
                                    ("price_euros_1_to_5", JInt 2);
                                    ("added_at", JStr "2024-01-01T00:00:00Z");
                                    ("id", JStr "e4fef98d862ee147")]])]))
    (Content (JDict [("e4fef98d862ee147",
                      JList [JDict [("id", JStr "c1"); ("author", JStr "ann");
                                    ("content", JStr "good"); ("rating", JInt 4);
                                    ("timestamp", JStr "2024-01-02T00:00:00");
                                    ("likes", JInt 0)]])]))
    Missing
    [].



(** A stand-in for the similarity: 100 when the text holds the query, 50
    when it holds its first three characters, 0 otherwise. *)
Definition sample_ratio (query text : string) : Q :=
  if PyStr.contains text query then 100%Q
  else if PyStr.contains text (PyStr.take 3 query) then 50%Q
  else 0%Q.

(** A stand-in for [str] on values that are not strings. *)
Definition sample_str (_ : json) : string := "None".

(** The two entries of the search example, with a description each. *)
Definition chatgpt : json :=
  JDict [("name", JStr "ChatGPT"); ("category", JStr "chatbot");
         ("keywords", JList [JStr "ai"]); ("description", JStr "Chat assistant")].

Definition midjourney : json :=
  JDict [("name", JStr "Midjourney"); ("category", JStr "image");
         ("description", JStr "Makes pictures")].

Definition sample_catalog : list json := [chatgpt; midjourney].

(** Three comments without an id, the third with an explicit null. *)
Definition first_anonymous : json :=
  JDict [("author", JStr "ann"); ("content", JStr "first")].
Definition second_anonymous : json :=
  JDict [("author", JStr "bob"); ("content", JStr "second")].
Definition third_anonymous : json :=
  JDict [("author", JStr "cid"); ("content", JStr "third"); ("id", JNull)].




(** The value of a field of a record. *)
Definition field (x : json) (k : string) : json :=
  match x with
  | JDict c => Py.lookup c k
  | _ => JNull
  end.

(** The files and the shared list that the comment functions leave alone,
    and those the link functions leave alone. *)
Definition same_but_comments (w w' : World) : Prop :=
  db_file w' = db_file w /\ links_file w' = links_file w
  /\ DEFAULT_DB_tools w' = DEFAULT_DB_tools w.

Definition same_but_links (w w' : World) : Prop :=
  db_file w' = db_file w /\ comments_file w' = comments_file w
  /\ DEFAULT_DB_tools w' = DEFAULT_DB_tools w.


(** The ids of the entries can be put in a set and are pairwise
    different. *)
Definition distinct_ids (tools : list json) : Prop :=
  exists ids, Py.id_set (JList tools) = Ok ids /\ NoDup ids.

(** The entry carries an id that counts as true. *)
Definition has_id (t : json) : bool := Py.truthy (field t "id").

(** The entry is an object whose id counts as true and is [k] as a set
    element. *)
Definition carries (t : json) (k : Py.key) : Prop :=
  exists kv tid,
    t = JDict kv /\ Py.assoc "id" kv = Some tid
    /\ Py.truthy tid = true /\ Py.hash tid = Ok k.

(** What [dedupe_tools] does to an entry it keeps: the entry with its id
    written, paired with that id as a set element. *)
Definition identified (t : json) : exc (json * Py.key) :=
  tid <- id_or_computed t ;;
  k <- Py.hash tid ;;
  t' <- set_item t "id" tid ;;
  Ok (t', k).

(** The first occurrence of every set element, in the order of the list:
    the head is kept and its later occurrences are removed from what is
    kept of the tail. *)
Fixpoint first_occurrences (l : list (json * Py.key)) : list (json * Py.key) :=
  match l with
  | [] => []
  | x :: l' =>
      x :: filter (fun y => negb (Py.key_eqb (snd y) (snd x))) (first_occurrences l')
  end.

(** A lowercase hexadecimal digit. *)
Definition is_hex (c : ascii) : bool :=
  let n := nat_of_ascii c in
  ((48 <=? n) && (n <=? 57) || (97 <=? n) && (n <=? 102))%nat.

(** Every character of [s] satisfies [p]. *)
Fixpoint all_chars (p : ascii -> bool) (s : string) : bool :=
  match s with
  | EmptyString => true
  | String c s' => p c && all_chars p s'
  end.

(** A catalog with the same tool twice, the second time under another
    spelling of its name, and a third entry that already has an id. *)
Definition catalog_with_duplicate : list json :=
  [JDict [("name", JStr "ChatGPT"); ("link", JStr "https://chat.openai.com")];
   JDict [("name", JStr "chatgpt"); ("link", JStr "https://chat.openai.com");
          ("description", JStr "again")];
   JDict [("id", JStr "legacy-1"); ("name", JStr "Other"); ("link", JStr "x")]].

(** The number of records a store of comments or links holds, all keys
    together. *)
Definition total_records (store : json) : nat :=
  match store with
  | JDict kv =>
      list_sum (map (fun p => match snd p with
                              | JList items => List.length items
                              | _ => O
                              end) kv)
  | _ => O
  end.

(** A document with a tool that [sample_stores] has under another
    spelling, a new tool, a known and a new comment for the known tool, and
    a link. *)
Definition mixed_document : json :=
  JDict [("version", JStr "1.0");
         ("tools", JList [JDict [("name", JStr " a "); ("link", JStr "X")];
                          JDict [("name", JStr "B"); ("link", JStr "y");
                                 ("price_euros_1_to_5", JStr "4")]]);
         ("comments",
          JDict [("e4fef98d862ee147",
                  JList [JDict [("id", JStr "c1"); ("author", JStr "ann");
                                ("content", JStr "good")];
                         JDict [("id", JStr "c9"); ("author", JStr "dan");
                                ("content", JStr "new")]])]);
         ("external_links",
          JDict [("k2", JList [JDict [("id", JStr "l1"); ("title", JStr "t");
                                      ("url", JStr "u")]])])].

(** A keyword as the program stores it: not empty, and left as it is by
    [strip] and by [lower]. *)
Definition normalized_keyword (k : string) : Prop :=
  k <> "" /\ PyStr.strip k = k /\ PyStr.lower k = k.

(* ===================================================================== *)
(** * The model on known values *)
(* ===================================================================== *)

Example sha1_abc :
  SHA1.hexdigest "abc" = "a9993e364706816aba3e25717850c26c9cd0d89d".
Proof. vm_compute. reflexivity. Qed.

Example sha1_two_blocks :
  SHA1.hexdigest "abcdbcdecdefdefgefghfghighijhijkijkljklmklmnlmnomnopnopq"
  = "84983e441c3bd26ebaae4aa1f95129e5e54670f1".
Proof. vm_compute. reflexivity. Qed.

Example sha1_empty :
  SHA1.hexdigest "" = "da39a3ee5e6b4b0d3255bfef95601890afd80709".
Proof. vm_compute. reflexivity. Qed.

Example parse_int_examples :
  map PyStr.parse_int [" 12 "; "-3"; "1_2_3"; "007"; "9"; "_1"; "1__0"; "3_"; ""; "- 3"; "abc"]
  = [Some 12; Some (-3); Some 123; Some 7; Some 9; None; None; None; None; None; None].
Proof. vm_compute. reflexivity. Qed.

Example parse_int_digits :
  map PyStr.parse_int ["٥"; "-١٢"; "１_２"; " 7 "; "²"; "٥a"]
  = [Some 5; Some (-12); Some 12; Some 7; None; None].
Proof. vm_compute. reflexivity. Qed.

Example parse_int_limit :
  PyStr.parse_int (PyStr.repeat "1" 4301) = None
  /\ PyStr.parse_int (PyStr.repeat "0" 4300) = Some 0
  /\ PyStr.parse_int (" " ++ PyStr.repeat "0" 4300 ++ " ") = Some 0.
Proof. vm_compute. repeat split. Qed.

Example strip_example : PyStr.lower (PyStr.strip "  A |b ") = "a |b".
Proof. vm_compute. reflexivity. Qed.

Example lower_examples :
  map PyStr.lower ["École"; "ΟΔΥΣΣΕΥΣ"; "ΑΣ."; "Σ"; "İstanbul"; "Straße"]
  = ["école"; "οδυσσευς"; "ας."; "σ"; "i̇stanbul"; "straße"].
Proof. vm_compute. reflexivity. Qed.

Example strip_examples :
  map PyStr.strip [" Café "; "　x y "; "a"; "  "]
  = ["Café"; "x y"; "a"; ""].
Proof. vm_compute. reflexivity. Qed.

Example len_example : PyStr.len "École 💶" = 7%nat.
Proof. vm_compute. reflexivity. Qed.

Example tool_id_accent :
  tool_id (JDict [("name", JStr "École"); ("link", JStr "x")]) = Ok "534bbc1a436ca886"
  /\ tool_id (JDict [("name", JStr "école"); ("link", JStr "x")]) = Ok "534bbc1a436ca886".
Proof. vm_compute. split; reflexivity. Qed.

Example tool_id_example :
  tool_id (JDict [("name", JStr "ChatGPT"); ("link", JStr "https://chat.openai.com")])
  = Ok "6f8255065a2a2a73".
Proof. vm_compute. reflexivity. Qed.

(* ===================================================================== *)
(** * Characters and their encoding *)
(* ===================================================================== *)

Ltac unfold_bytes :=
  unfold is_unit, is_scalar, is_raw, PyStr.raw, PyStr.second3, PyStr.second4,
    PyStr.cont, PyStr.between, PyStr.RAW in *.

Ltac settle_tests :=
  repeat match goal with
         | |- context [if ?c then _ else _] =>
             first [ replace c with false by (unfold_bytes; lia)
                   | replace c with true by (unfold_bytes; lia) ]
         end.

Section CodecFacts.
Import PyStr.

Lemma string_app_assoc (a b c : string) :
  ((a ++ b) ++ c = a ++ (b ++ c))%string.
Proof. induction a as [|x a IH]; simpl; [reflexivity | now rewrite IH]. Qed.

Lemma string_app_nil_r (a : string) : (a ++ "")%string = a.
Proof. induction a as [|x a IH]; simpl; [reflexivity | now rewrite IH]. Qed.

Lemma string_app_length (a b : string) :
  String.length (a ++ b) = (String.length a + String.length b)%nat.
Proof. induction a as [|x a IH]; simpl; [reflexivity | now rewrite IH]. Qed.

Lemma byte_range (a : ascii) : 0 <= byte a < 256.
Proof.
  unfold byte. pose proof (N_ascii_bounded a). lia.
Qed.

Lemma chr8_byte (a : ascii) : chr8 (byte a) = a.
Proof.
  unfold chr8, byte. rewrite N2Z.id. apply ascii_N_embedding.
Qed.

Lemma byte_chr8 (b : Z) : 0 <= b < 256 -> byte (chr8 b) = b.
Proof.
  intros H. unfold chr8, byte. rewrite N_ascii_embedding by lia. lia.
Qed.

Lemma decode_cons (a : ascii) (s : string) :
  decode (String a s)
  = match head_cp (byte a) s with
    | Some (c, r) => c :: decode r
    | None => raw (byte a) :: decode s
    end.
Proof.
  unfold head_cp. cbn [decode].
  destruct (byte a <? 0x80); [reflexivity|].
  destruct s as [|a1 s]; [reflexivity|].
  destruct (between 0xC2 0xDF (byte a) && cont (byte a1)); [reflexivity|].
  destruct s as [|a2 s]; [reflexivity|].
  destruct (between 0xE0 0xEF (byte a) && second3 (byte a) (byte a1)
            && cont (byte a2)); [reflexivity|].
  destruct s as [|a3 s]; [reflexivity|].
  destruct (between 0xF0 0xF4 (byte a) && second4 (byte a) (byte a1)
            && cont (byte a2) && cont (byte a3)); reflexivity.
Qed.

(** What [head_cp] returns is a character, and the bytes read are its
    encoding. *)
Lemma head_cp_sound (a : ascii) (s : string) (c : Z) (r : string) :
  head_cp (byte a) s = Some (c, r) ->
  is_scalar c = true /\ String a s = (encode_cp c ++ r)%string.
Proof.
  pose proof (byte_range a) as Ha.
  unfold head_cp.
  destruct (byte a <? 0x80) eqn:E0.
  { intros H. inversion H; subst c r. split; [unfold_bytes; lia|].
    unfold encode_cp. rewrite E0. unfold str1. now rewrite chr8_byte. }
  destruct s as [|a1 s]; [discriminate|].
  pose proof (byte_range a1) as Ha1.
  destruct (between 0xC2 0xDF (byte a) && cont (byte a1)) eqn:E1.
  { intros H. inversion H; subst c r. clear H.
    unfold_bytes.
    split; [lia|].
    unfold encode_cp, str1, RAW.
    replace (_ <? 0x80) with false by lia.
    replace (_ <? 0x800) with true by lia.
    replace (0xC0 + _ / 64) with (byte a) by (Z.div_mod_to_equations; lia).
    replace (0x80 + _ mod 64) with (byte a1) by (Z.div_mod_to_equations; lia).
    now rewrite !chr8_byte. }
  destruct s as [|a2 s]; [discriminate|].
  pose proof (byte_range a2) as Ha2.
  destruct (between 0xE0 0xEF (byte a) && second3 (byte a) (byte a1)
            && cont (byte a2)) eqn:E2.
  { intros H. inversion H; subst c r. clear H.
    unfold_bytes.
    split; [lia|].
    unfold encode_cp, str1, RAW.
    replace (_ <? 0x80) with false by lia.
    replace (_ <? 0x800) with false by lia.
    replace (_ <? 0x10000) with true by lia.
    replace (0xE0 + _ / 4096) with (byte a) by (Z.div_mod_to_equations; lia).
    replace (0x80 + (_ / 64) mod 64) with (byte a1) by (Z.div_mod_to_equations; lia).
    replace (0x80 + _ mod 64) with (byte a2) by (Z.div_mod_to_equations; lia).
    now rewrite !chr8_byte. }
  destruct s as [|a3 s]; [discriminate|].
  pose proof (byte_range a3) as Ha3.
  destruct (between 0xF0 0xF4 (byte a) && second4 (byte a) (byte a1)
            && cont (byte a2) && cont (byte a3)) eqn:E3; [|discriminate].
  intros H. inversion H; subst c r. clear H.
  unfold_bytes.
  split; [lia|].
  unfold encode_cp, str1, RAW.
  replace (_ <? 0x80) with false by lia.
  replace (_ <? 0x800) with false by lia.
  replace (_ <? 0x10000) with false by lia.
  replace (_ <? 0x110000) with true by lia.
  replace (0xF0 + _ / 262144) with (byte a) by (Z.div_mod_to_equations; lia).
  replace (0x80 + (_ / 4096) mod 64) with (byte a1) by (Z.div_mod_to_equations; lia).
  replace (0x80 + (_ / 64) mod 64) with (byte a2) by (Z.div_mod_to_equations; lia).
  replace (0x80 + _ mod 64) with (byte a3) by (Z.div_mod_to_equations; lia).
  now rewrite !chr8_byte.
Qed.

Lemma encode_cp_raw (a : ascii) : encode_cp (raw (byte a)) = String a "".
Proof.
  pose proof (byte_range a). unfold encode_cp, raw, RAW.
  replace (_ <? 0x80) with false by lia.
  replace (_ <? 0x800) with false by lia.
  replace (_ <? 0x10000) with false by lia.
  replace (_ <? 0x110000) with false by lia.
  unfold str1. replace (0x110000 + byte a - 0x110000) with (byte a) by lia.
  now rewrite chr8_byte.
Qed.

Lemma encode_cp_length (c : Z) : (1 <= String.length (encode_cp c))%nat.
Proof.
  unfold encode_cp, str1.
  destruct (c <? 0x80); [simpl; lia|].
  destruct (c <? 0x800); [simpl; lia|].
  destruct (c <? 0x10000); [simpl; lia|].
  destruct (c <? RAW); simpl; lia.
Qed.

(** Induction along the characters of a text. *)
Lemma decode_ind (P : string -> Prop) :
  P "" ->
  (forall a s c r,
      head_cp (byte a) s = Some (c, r) -> is_scalar c = true ->
      String a s = (encode_cp c ++ r)%string -> P r -> P (String a s)) ->
  (forall a s, head_cp (byte a) s = None -> 0x80 <= byte a -> P s -> P (String a s)) ->
  forall s, P s.
Proof.
  intros H0 Hc Hr s.
  remember (String.length s) as n eqn:Hn.
  revert s Hn. induction n as [n IH] using lt_wf_ind. intros s Hn.
  destruct s as [|a s]; [exact H0|].
  destruct (head_cp (byte a) s) as [[c r]|] eqn:E.
  - destruct (@head_cp_sound _ _ _ _ E) as [Hs Heq].
    apply (Hc a s c r E Hs Heq).
    apply (IH (String.length r)); [|reflexivity].
    subst n. pose proof (encode_cp_length c) as Hl.
    apply (f_equal String.length) in Heq.
    rewrite string_app_length in Heq. cbn [String.length] in Heq |- *. lia.
  - apply (Hr a s E).
    + unfold head_cp in E. destruct (byte a <? 0x80) eqn:E0; [discriminate|lia].
    + apply (IH (String.length s)); [subst n; cbn [String.length]; lia | reflexivity].
Qed.

(** Decoding loses nothing. *)
Lemma encode_decode (s : string) : encode (decode s) = s.
Proof.
  induction s as [|a s c r E Hs Heq IH|a s E Ha IH] using decode_ind.
  - reflexivity.
  - rewrite decode_cons, E. cbn [encode]. now rewrite IH.
  - rewrite decode_cons, E. cbn [encode]. now rewrite IH, encode_cp_raw.
Qed.

(** A character is read back from its encoding, whatever follows. *)
Lemma decode_encode_cp (c : Z) (t : string) :
  is_scalar c = true -> decode (encode_cp c ++ t) = c :: decode t.
Proof.
  intros Hs. unfold encode_cp, str1.
  destruct (c <? 0x80) eqn:E0.
  { cbn [append]. rewrite decode_cons. unfold head_cp.
    rewrite byte_chr8 by (unfold_bytes; lia). now rewrite E0. }
  destruct (c <? 0x800) eqn:E1.
  { cbn [append]. rewrite decode_cons. unfold head_cp.
    rewrite !byte_chr8 by (unfold_bytes; Z.div_mod_to_equations; lia).
    replace (_ <? 0x80) with false by (Z.div_mod_to_equations; lia).
    replace (between _ _ _ && cont _) with true
      by (unfold_bytes; Z.div_mod_to_equations; lia).
    f_equal. Z.div_mod_to_equations; lia. }
  destruct (c <? 0x10000) eqn:E2.
  { cbn [append]. rewrite decode_cons. unfold head_cp.
    rewrite !byte_chr8 by (unfold_bytes; Z.div_mod_to_equations; lia).
    replace (_ <? 0x80) with false by (Z.div_mod_to_equations; lia).
    replace (between 0xC2 _ _ && cont _) with false
      by (unfold_bytes; Z.div_mod_to_equations; lia).
    replace (between 0xE0 _ _ && _ && _) with true
      by (unfold_bytes; Z.div_mod_to_equations; lia).
    f_equal. Z.div_mod_to_equations; lia. }
  assert (E3 : (c <? RAW) = true) by (unfold_bytes; lia).
  rewrite E3.
  cbn [append]. rewrite decode_cons. unfold head_cp.
  rewrite !byte_chr8 by (unfold_bytes; Z.div_mod_to_equations; lia).
  replace (_ <? 0x80) with false by (unfold_bytes; Z.div_mod_to_equations; lia).
  replace (between 0xC2 _ _ && cont _) with false
    by (unfold_bytes; Z.div_mod_to_equations; lia).
  replace (between 0xE0 _ _ && _ && _) with false
    by (unfold_bytes; Z.div_mod_to_equations; lia).
  replace (between 0xF0 _ _ && _ && _ && _) with true
    by (unfold_bytes; Z.div_mod_to_equations; lia).
  f_equal. unfold_bytes. Z.div_mod_to_equations; lia.
Qed.

Lemma head_cp_app_some (b : Z) (s y : string) (c : Z) (r : string) :
  head_cp b s = Some (c, r) -> head_cp b (s ++ y) = Some (c, (r ++ y)%string).
Proof.
  unfold head_cp.
  destruct (b <? 0x80); [intros H; now inversion H|].
  destruct s as [|a1 s]; [discriminate|]. cbn [append].
  destruct (between 0xC2 0xDF b && cont (byte a1)); [intros H; now inversion H|].
  destruct s as [|a2 s]; [discriminate|]. cbn [append].
  destruct (between 0xE0 0xEF b && second3 b (byte a1) && cont (byte a2));
    [intros H; now inversion H|].
  destruct s as [|a3 s]; [discriminate|]. cbn [append].
  destruct (between 0xF0 0xF4 b && second4 b (byte a1) && cont (byte a2)
            && cont (byte a3)); [intros H; now inversion H|discriminate].
Qed.

Lemma head_cp_app_none (b : Z) (s y : string) :
  head_cp b s = None -> clean_start y -> head_cp b (s ++ y) = None.
Proof.
  unfold head_cp, clean_start.
  destruct (b <? 0x80) eqn:E0; [discriminate|].
  destruct s as [|a1 s]; cbn [append].
  { intros _ Hy. destruct y as [|b1 y]; [reflexivity|].
    settle_tests. destruct y as [|b2 y]; [reflexivity|].
    settle_tests. destruct y as [|b3 y]; [reflexivity|].
    settle_tests. reflexivity. }
  destruct (between 0xC2 0xDF b && cont (byte a1)) eqn:E1; [discriminate|].
  destruct s as [|a2 s]; cbn [append].
  { intros _ Hy. destruct y as [|b2 y]; [reflexivity|].
    settle_tests. destruct y as [|b3 y]; [reflexivity|].
    settle_tests. reflexivity. }
  destruct (between 0xE0 0xEF b && second3 b (byte a1) && cont (byte a2)) eqn:E2;
    [discriminate|].
  destruct s as [|a3 s]; cbn [append].
  { intros _ Hy. destruct y as [|b3 y]; [reflexivity|].
    settle_tests. reflexivity. }
  destruct (between 0xF0 0xF4 b && second4 b (byte a1) && cont (byte a2)
            && cont (byte a3)) eqn:E3; [discriminate|reflexivity].
Qed.

(** A text cut where a character starts is decoded piece by piece. *)
Lemma decode_app (x y : string) :
  clean_start y -> decode (x ++ y) = decode x ++ decode y.
Proof.
  intros Hy.
  induction x as [|a s c r E Hs Heq IH|a s E Ha IH] using decode_ind.
  - reflexivity.
  - cbn [append]. rewrite !decode_cons, (@head_cp_app_some _ _ y _ _ E), E.
    cbn [app]. now rewrite IH.
  - cbn [append]. rewrite !decode_cons, (@head_cp_app_none _ _ y E Hy), E.
    cbn [app]. now rewrite IH.
Qed.

Lemma encode_cp_is_raw (c : Z) : is_raw c = true -> encode_cp c = str1 (c - RAW).
Proof.
  intros H. unfold encode_cp.
  replace (c <? 0x80) with false by (unfold_bytes; lia).
  replace (c <? 0x800) with false by (unfold_bytes; lia).
  replace (c <? 0x10000) with false by (unfold_bytes; lia).
  replace (c <? RAW) with false by (unfold_bytes; lia).
  reflexivity.
Qed.

(** [decode] produces canonical lists, and a canonical list is read back
    from its encoding. *)
Lemma decode_canonical (s : string) : canonical (decode s).
Proof.
  induction s as [|a s c r E Hs Heq IH|a s E Ha IH] using decode_ind.
  - exact I.
  - rewrite decode_cons, E. cbn [canonical]. split; [exact IH | now left].
  - rewrite decode_cons, E. cbn [canonical]. split; [exact IH | right].
    pose proof (byte_range a). split; [unfold_bytes; lia|].
    rewrite encode_decode. unfold raw.
    replace (RAW + byte a - RAW) with (byte a) by lia. exact E.
Qed.

Lemma canonical_decode (l : list Z) : canonical l -> decode (encode l) = l.
Proof.
  induction l as [|c l IH]; [reflexivity|].
  cbn [canonical encode]. intros [Hl [Hs | [Hr Hn]]].
  - rewrite (@decode_encode_cp c _ Hs). now rewrite IH.
  - rewrite encode_cp_is_raw by exact Hr.
    unfold str1. cbn [append]. rewrite decode_cons.
    rewrite byte_chr8 by (unfold_bytes; lia).
    rewrite Hn, (IH Hl). unfold raw. f_equal. lia.
Qed.

Lemma canonical_app (l m : list Z) :
  forallb is_scalar l = true -> canonical m -> canonical (l ++ m).
Proof.
  induction l as [|c l IH]; intros Hl Hm; [exact Hm|].
  cbn [forallb] in Hl. apply andb_true_iff in Hl. destruct Hl as [Hc Hl].
  cbn [app canonical]. split; [now apply IH | now left].
Qed.

Lemma canonical_units (l : list Z) : canonical l -> forallb is_unit l = true.
Proof.
  induction l as [|c l IH]; [reflexivity|].
  cbn [canonical forallb]. intros [Hl Hc]. rewrite (IH Hl), andb_true_r.
  unfold is_unit. destruct Hc as [-> | [-> _]]; [reflexivity | apply orb_true_r].
Qed.

Lemma encode_app (l m : list Z) :
  encode (l ++ m) = (encode l ++ encode m)%string.
Proof.
  induction l as [|c l IH]; [reflexivity|].
  cbn [app encode]. now rewrite IH, string_app_assoc.
Qed.

Lemma encode_empty (l : list Z) : encode l = "" -> l = [].
Proof.
  destruct l as [|c l]; [reflexivity|]. cbn [encode]. intros H.
  pose proof (encode_cp_length c) as Hl.
  apply (f_equal String.length) in H. rewrite string_app_length in H.
  cbn [String.length] in H. lia.
Qed.

(** The encoding of a character does not start with a continuation byte. *)
Lemma encode_cp_clean (c : Z) (t : string) :
  is_scalar c = true ->
  exists a r, (encode_cp c ++ t)%string = String a r /\ cont (byte a) = false.
Proof.
  intros Hs. unfold encode_cp, str1.
  destruct (c <? 0x80) eqn:E0.
  { cbn [append]. eexists _, _. split; [reflexivity|].
    rewrite byte_chr8 by (unfold_bytes; lia). unfold_bytes; lia. }
  destruct (c <? 0x800) eqn:E1.
  { cbn [append]. eexists _, _. split; [reflexivity|].
    rewrite byte_chr8 by (unfold_bytes; Z.div_mod_to_equations; lia).
    unfold_bytes; Z.div_mod_to_equations; lia. }
  destruct (c <? 0x10000) eqn:E2.
  { cbn [append]. eexists _, _. split; [reflexivity|].
    rewrite byte_chr8 by (unfold_bytes; Z.div_mod_to_equations; lia).
    unfold_bytes; Z.div_mod_to_equations; lia. }
  assert (E3 : (c <? RAW) = true) by (unfold_bytes; lia).
  rewrite E3. cbn [append]. eexists _, _. split; [reflexivity|].
  rewrite byte_chr8 by (unfold_bytes; Z.div_mod_to_equations; lia).
  unfold_bytes; Z.div_mod_to_equations; lia.
Qed.


End CodecFacts.

(* ===================================================================== *)
(** * Facts read off the character tables *)
(* ===================================================================== *)

Section TableFacts.
Import PyStr.

Lemma in_range_members (c lo hi : Z) :
  between lo hi c = true -> In c (range_members (lo, hi)).
Proof.
  intros H. unfold between in H. unfold range_members. cbn [fst snd].
  apply in_map_iff. exists (Z.to_nat (c - lo)). split; [lia|].
  apply in_seq. lia.
Qed.

Lemma in_ranges_members (c : Z) (rs : list (Z * Z)) :
  in_ranges c rs = true -> In c (flat_map range_members rs).
Proof.
  unfold in_ranges. intros H. apply existsb_exists in H.
  destruct H as ([lo hi] & Hin & Hb). cbn [fst snd] in Hb.
  apply in_flat_map. exists (lo, hi). split; [exact Hin|].
  now apply in_range_members.
Qed.

Lemma in_run_members (c lo hi step d : Z) :
  0 < step -> in_run c (lo, hi, step, d) = true ->
  In c (run_members (lo, hi, step, d)).
Proof.
  intros Hs H. unfold in_run, between in H. unfold run_members.
  apply in_map_iff. exists (Z.to_nat ((c - lo) / step)).
  assert (Hm : (c - lo) mod step = 0) by lia.
  assert (Hq : 0 <= (c - lo) / step) by (apply Z.div_pos; lia).
  assert (Hle : (c - lo) / step <= (hi - lo) / step)
    by (apply Z.div_le_mono; lia).
  split.
  - rewrite Z2Nat.id by exact Hq.
    pose proof (Z.div_mod (c - lo) step ltac:(lia)) as E. lia.
  - apply in_seq. lia.
Qed.

Lemma lower_runs_steps :
  forallb (fun r => 0 <? snd (fst r)) lower_runs = true.
Proof. vm_compute. reflexivity. Qed.

Lemma lower_runs_below_raw :
  forallb (fun r => snd (fst (fst r)) <? RAW) lower_runs = true.
Proof. vm_compute. reflexivity. Qed.

Lemma find_in_run (c : Z) (r : Z * Z * Z * Z) :
  find (in_run c) lower_runs = Some r -> In c lower_keys /\ c < RAW.
Proof.
  intros H. apply find_some in H. destruct H as [Hin Hr].
  destruct r as [[[lo hi] step] d].
  pose proof lower_runs_steps as Hs. rewrite forallb_forall in Hs.
  specialize (Hs _ Hin). cbn [fst snd] in Hs.
  pose proof lower_runs_below_raw as Hb. rewrite forallb_forall in Hb.
  specialize (Hb _ Hin). cbn [fst snd] in Hb.
  split.
  - unfold lower_keys. apply in_flat_map. exists (lo, hi, step, d).
    split; [exact Hin|]. apply in_run_members; [lia | exact Hr].
  - unfold in_run, between in Hr. lia.
Qed.

(** A property of every character that holds where [lower_cp] changes
    nothing and is checked on the characters of the table. *)
Lemma lower_cp_check (P : Z -> Prop) (chk : Z -> bool) :
  (forall c, chk c = true -> P c) ->
  (forall c, lower_cp c = [c] -> P c) ->
  chk 0x130 = true ->
  forallb chk lower_keys = true ->
  forall c, P c.
Proof.
  intros Hchk Hid H130 Hall c.
  destruct (c =? 0x130) eqn:E.
  { apply Hchk. replace c with 0x130 by lia. exact H130. }
  destruct (find (in_run c) lower_runs) as [r|] eqn:F.
  - apply Hchk. rewrite forallb_forall in Hall. apply Hall.
    now apply (@find_in_run c r).
  - apply Hid. unfold lower_cp. now rewrite E, F.
Qed.

Lemma lower_cp_nonempty (c : Z) : lower_cp c <> [].
Proof.
  unfold lower_cp. destruct (c =? 0x130); [discriminate|].
  destruct (find (in_run c) lower_runs) as [[[[? ?] ?] ?]|]; discriminate.
Qed.

Lemma lower_cp_raw (c : Z) : RAW <= c -> lower_cp c = [c].
Proof.
  intros H. unfold lower_cp.
  replace (c =? 0x130) with false by (unfold RAW in H; lia).
  destruct (find (in_run c) lower_runs) as [r|] eqn:F; [|reflexivity].
  apply find_in_run in F. lia.
Qed.

(** The lowercase of a character is made of characters. *)
Lemma lower_cp_scalar (c : Z) :
  is_scalar c = true -> forallb is_scalar (lower_cp c) = true.
Proof.
  revert c.
  apply (@lower_cp_check
           (fun c => is_scalar c = true -> forallb is_scalar (lower_cp c) = true)
           (fun c => forallb is_scalar (lower_cp c))).
  - intros c H _. exact H.
  - intros c E H. rewrite E. cbn [forallb]. now rewrite H.
  - vm_compute. reflexivity.
  - vm_compute. reflexivity.
Qed.

(** The lowercase of a character is left as it is by [lower]. *)
Lemma lower_cp_fixed (c : Z) : forallb is_fixed (lower_cp c) = true.
Proof.
  revert c.
  apply (@lower_cp_check
           (fun c => forallb is_fixed (lower_cp c) = true)
           (fun c => forallb is_fixed (lower_cp c))).
  - intros c H. exact H.
  - intros c E. rewrite E. cbn [forallb]. unfold is_fixed. rewrite E.
    assert (Hs : (c =? SIGMA) = false).
    { destruct (c =? SIGMA) eqn:S; [|reflexivity].
      replace c with SIGMA in E by lia. vm_compute in E. discriminate. }
    rewrite Hs, Z.eqb_refl. reflexivity.
  - vm_compute. reflexivity.
  - vm_compute. reflexivity.
Qed.

(** The lowercase of a character that is no blank has no blank. *)
Lemma lower_cp_solid (c : Z) :
  is_space c = false ->
  forallb (fun o => negb (is_space o)) (lower_cp c) = true.
Proof.
  revert c.
  apply (@lower_cp_check
           (fun c => is_space c = false ->
                     forallb (fun o => negb (is_space o)) (lower_cp c) = true)
           (fun c => forallb (fun o => negb (is_space o)) (lower_cp c))).
  - intros c H _. exact H.
  - intros c E H. rewrite E. cbn [forallb]. now rewrite H.
  - vm_compute. reflexivity.
  - vm_compute. reflexivity.
Qed.

(** A blank is a character that [lower] keeps, is not cased and is not
    case-ignorable. *)
Lemma space_facts (c : Z) :
  is_space c = true ->
  is_scalar c = true /\ is_fixed c = true
  /\ is_cased c = false /\ is_case_ignorable c = false.
Proof.
  intros H. apply in_ranges_members in H. fold space_members in H.
  assert (Hall : forallb (fun c => is_scalar c && is_fixed c && negb (is_cased c)
                                   && negb (is_case_ignorable c)) space_members = true)
    by (vm_compute; reflexivity).
  rewrite forallb_forall in Hall. specialize (Hall _ H).
  destruct (is_scalar c), (is_fixed c), (is_cased c), (is_case_ignorable c);
    try discriminate; repeat split; reflexivity.
Qed.

Lemma is_fixed_spec (c : Z) :
  is_fixed c = true -> (c =? SIGMA) = false /\ lower_cp c = [c].
Proof.
  unfold is_fixed. intros H. apply andb_true_iff in H. destruct H as [H1 H2].
  split; [now destruct (c =? SIGMA)|].
  destruct (lower_cp c) as [|c' [|? ?]]; try discriminate.
  f_equal. lia.
Qed.

End TableFacts.

(* ===================================================================== *)
(** * The operations on lists of characters *)
(* ===================================================================== *)

Section UnitFacts.
Import PyStr.

Lemma head_cp_agree (b : Z) (s t : string) :
  0x80 <= b -> agree 3 s t -> head_cp b s = None -> head_cp b t = None.
Proof.
  intros Hb. unfold head_cp.
  replace (b <? 0x80) with false by lia.
  destruct s as [|a1 s], t as [|b1 t]; cbn [agree]; try reflexivity.
  - intros Hc _. settle_tests.
    destruct t as [|b2 t]; [reflexivity|]. settle_tests.
    destruct t as [|b3 t]; [reflexivity|]. settle_tests. reflexivity.
  - intros [[Ha Hc] | [<- Hag]].
    { intros _. settle_tests.
      destruct t as [|b2 t]; [reflexivity|]. settle_tests.
      destruct t as [|b3 t]; [reflexivity|]. settle_tests. reflexivity. }
    destruct (between 0xC2 0xDF b && cont (byte a1)) eqn:E1; [discriminate|].
    destruct s as [|a2 s], t as [|b2 t]; cbn [agree] in Hag; try reflexivity.
    + intros _. settle_tests.
      destruct t as [|b3 t]; [reflexivity|]. settle_tests. reflexivity.
    + destruct Hag as [[Ha Hc] | [<- Hag]].
      { intros _. settle_tests.
        destruct t as [|b3 t]; [reflexivity|]. settle_tests. reflexivity. }
      destruct (between 0xE0 0xEF b && second3 b (byte a1) && cont (byte a2)) eqn:E2;
        [discriminate|].
      destruct s as [|a3 s], t as [|b3 t]; cbn [agree] in Hag; try reflexivity.
      * intros _. settle_tests. reflexivity.
      * destruct Hag as [[Ha Hc] | [<- _]].
        { intros _. settle_tests. reflexivity. }
        destruct (between 0xF0 0xF4 b && second4 b (byte a1) && cont (byte a2)
                  && cont (byte a3)); [discriminate|reflexivity].
Qed.

Lemma alike_agree (n : nat) (l m : list Z) :
  alike l m -> agree n (encode l) (encode m).
Proof.
  revert l m. induction n as [|n IH]; intros l m H; [exact I|].
  destruct H as [|c l Hc|c l o m Hc Ho|c l m Hc H].
  - exact I.
  - cbn [encode].
    destruct (@encode_cp_clean c (encode l) Hc) as (a & r & -> & Ha). exact Ha.
  - cbn [encode].
    destruct (@encode_cp_clean c (encode l) Hc) as (a & r & -> & Ha).
    destruct (@encode_cp_clean o (encode m) Ho) as (a' & r' & -> & Ha').
    left. split; assumption.
  - cbn [encode]. rewrite (@encode_cp_is_raw c Hc). unfold str1. cbn [append agree].
    right. split; [reflexivity | now apply IH].
Qed.

(** The head of [lower_from]: what the first character becomes. *)
Lemma lower_head (p : bool) (c : Z) (l : list Z) :
  exists o outs,
    lower_from p (c :: l)
    = (o :: outs) ++ lower_from (if is_case_ignorable c then p else is_cased c) l
    /\ forallb is_fixed (o :: outs) = true
    /\ (is_scalar c = true -> forallb is_scalar (o :: outs) = true)
    /\ (is_raw c = true -> o :: outs = [c])
    /\ (is_space c = false ->
        forallb (fun x => negb (is_space x)) (o :: outs) = true).
Proof.
  cbn [lower_from]. destruct (c =? SIGMA) eqn:E.
  - assert (Hc : c = SIGMA) by lia.
    eexists _, _. split; [reflexivity|].
    destruct (p && ends_word l); subst c; repeat split;
      try (intros _; vm_compute; reflexivity); try (vm_compute; reflexivity);
      intros H; vm_compute in H; discriminate.
  - destruct (lower_cp c) as [|o outs] eqn:L; [now apply lower_cp_nonempty in L|].
    exists o, outs. split; [reflexivity|]. rewrite <- L.
    split; [apply lower_cp_fixed|]. split; [apply lower_cp_scalar|].
    split; [|apply lower_cp_solid].
    intros Hr. apply lower_cp_raw. unfold_bytes; lia.
Qed.

Lemma units_tail (c : Z) (l : list Z) :
  forallb is_unit (c :: l) = true ->
  (is_scalar c = true \/ is_raw c = true) /\ forallb is_unit l = true.
Proof.
  cbn [forallb]. intros H. apply andb_true_iff in H. destruct H as [Hc Hl].
  split; [|exact Hl]. unfold is_unit in Hc. now apply orb_true_iff in Hc.
Qed.

Lemma alike_lower (p : bool) (l : list Z) :
  forallb is_unit l = true -> alike l (lower_from p l).
Proof.
  revert p. induction l as [|c l IH]; intros p H; [constructor|].
  apply units_tail in H. destruct H as [Hc Hl].
  destruct (lower_head p c l) as (o & outs & -> & _ & Hs & Hr & _).
  destruct Hc as [Hc | Hc].
  - specialize (Hs Hc). cbn [forallb] in Hs. apply andb_true_iff in Hs.
    cbn [app]. apply alike_scalar; [exact Hc | apply Hs].
  - specialize (Hr Hc). inversion Hr; subst o outs. cbn [app].
    apply alike_raw; [exact Hc | now apply IH].
Qed.

Lemma rstrip_cps_cons (c : Z) (l : list Z) :
  (rstrip_cps (c :: l) = [] /\ is_space c = true /\ rstrip_cps l = [])
  \/ (rstrip_cps (c :: l) = c :: rstrip_cps l
      /\ (is_space c = false \/ rstrip_cps l <> [])).
Proof.
  cbn [rstrip_cps]. destruct (rstrip_cps l) as [|d r] eqn:E.
  - destruct (is_space c) eqn:Ec; [left | right]; repeat split; auto.
  - right. split; [reflexivity | right; discriminate].
Qed.

Lemma alike_rstrip (l : list Z) :
  forallb is_unit l = true -> alike l (rstrip_cps l).
Proof.
  induction l as [|c l IH]; intros H; [constructor|].
  apply units_tail in H. destruct H as [Hc Hl].
  destruct (rstrip_cps_cons c l) as [(-> & Hs & _) | (-> & _)].
  - apply alike_end. now apply space_facts in Hs.
  - destruct Hc as [Hc | Hc].
    + now apply alike_scalar.
    + apply alike_raw; [exact Hc | now apply IH].
Qed.

(** The operations keep lists canonical. *)
Lemma canonical_lower (p : bool) (l : list Z) :
  canonical l -> canonical (lower_from p l).
Proof.
  revert p. induction l as [|c l IH]; intros p H; [exact I|].
  destruct H as [Hl Hc].
  destruct (lower_head p c l) as (o & outs & -> & _ & Hs & Hr & _).
  destruct Hc as [Hc | [Hc Hn]].
  - apply canonical_app; [now apply Hs | now apply IH].
  - rewrite (Hr Hc). cbn [app canonical]. split; [now apply IH | right].
    split; [exact Hc|].
    apply (@head_cp_agree (c - RAW) (encode l)); [unfold_bytes; lia | | exact Hn].
    apply alike_agree, alike_lower, canonical_units, Hl.
Qed.

Lemma canonical_lstrip (l : list Z) : canonical l -> canonical (lstrip_cps l).
Proof.
  induction l as [|c l IH]; intros H; [exact I|].
  cbn [lstrip_cps]. destruct (is_space c); [apply IH, H | exact H].
Qed.

Lemma canonical_rstrip (l : list Z) : canonical l -> canonical (rstrip_cps l).
Proof.
  induction l as [|c l IH]; intros H; [exact I|].
  destruct H as [Hl Hc].
  destruct (rstrip_cps_cons c l) as [(-> & _) | (-> & _)]; [exact I|].
  cbn [canonical]. split; [now apply IH|].
  destruct Hc as [Hc | [Hc Hn]]; [now left | right].
  split; [exact Hc|].
  apply (@head_cp_agree (c - RAW) (encode l)); [unfold_bytes; lia | | exact Hn].
  apply alike_agree, alike_rstrip, canonical_units, Hl.
Qed.

(** ** [lower] twice *)

Lemma lower_from_fixed (p : bool) (l : list Z) :
  forallb is_fixed l = true -> lower_from p l = l.
Proof.
  revert p. induction l as [|c l IH]; intros p H; [reflexivity|].
  cbn [forallb] in H. apply andb_true_iff in H. destruct H as [Hc Hl].
  apply is_fixed_spec in Hc. destruct Hc as [Hs Hc].
  cbn [lower_from]. rewrite Hs, Hc. cbn [app]. now rewrite IH.
Qed.

Lemma forallb_app_true {A : Type} (f : A -> bool) (l m : list A) :
  forallb f l = true -> forallb f m = true -> forallb f (l ++ m) = true.
Proof. intros Hl Hm. rewrite forallb_app, Hl, Hm. reflexivity. Qed.

Lemma lower_from_is_fixed (p : bool) (l : list Z) :
  forallb is_fixed (lower_from p l) = true.
Proof.
  revert p. induction l as [|c l IH]; intros p; [reflexivity|].
  destruct (lower_head p c l) as (o & outs & -> & Hf & _).
  apply forallb_app_true; [exact Hf | apply IH].
Qed.

Lemma lower_from_idempotent (p q : bool) (l : list Z) :
  lower_from p (lower_from q l) = lower_from q l.
Proof. apply lower_from_fixed, lower_from_is_fixed. Qed.

Lemma lower_from_empty (p : bool) (l : list Z) : lower_from p l = [] -> l = [].
Proof.
  destruct l as [|c l]; [reflexivity|].
  destruct (lower_head p c l) as (o & outs & -> & _). discriminate.
Qed.

(** ** [strip] *)

Lemma lstrip_cps_head (l : list Z) :
  lstrip_cps l = []
  \/ exists c r, lstrip_cps l = c :: r /\ is_space c = false.
Proof.
  induction l as [|c l IH]; [now left|].
  cbn [lstrip_cps]. destruct (is_space c) eqn:E; [exact IH|].
  right. now exists c, l.
Qed.

Lemma rstrip_cps_solid (c : Z) (l : list Z) :
  is_space c = false -> rstrip_cps (c :: l) = c :: rstrip_cps l.
Proof.
  intros Hc. cbn [rstrip_cps]. destruct (rstrip_cps l); [now rewrite Hc | reflexivity].
Qed.

Lemma rstrip_cps_idempotent (l : list Z) : rstrip_cps (rstrip_cps l) = rstrip_cps l.
Proof.
  induction l as [|c l IH]; [reflexivity|].
  destruct (rstrip_cps_cons c l) as [(-> & _) | (-> & [Hc | Hne])]; [reflexivity| |].
  - rewrite rstrip_cps_solid by exact Hc. now rewrite IH.
  - cbn [rstrip_cps]. rewrite IH. destruct (rstrip_cps l); [congruence | reflexivity].
Qed.

Lemma lstrip_cps_strip (l : list Z) :
  lstrip_cps (rstrip_cps (lstrip_cps l)) = rstrip_cps (lstrip_cps l).
Proof.
  destruct (lstrip_cps_head l) as [-> | (c & r & -> & Hc)]; [reflexivity|].
  rewrite rstrip_cps_solid by exact Hc. cbn [lstrip_cps]. now rewrite Hc.
Qed.

(** ** [strip] and [lower] *)

Lemma lstrip_lower_cps (l : list Z) :
  lstrip_cps (lower_from false l) = lower_from false (lstrip_cps l).
Proof.
  induction l as [|c l IH]; [reflexivity|].
  destruct (is_space c) eqn:Ec.
  - destruct (space_facts _ Ec) as (_ & Hf & Hcas & Hig).
    apply is_fixed_spec in Hf. destruct Hf as [Hs Hf].
    cbn [lower_from lstrip_cps]. rewrite Hs, Hf, Hig, Hcas, Ec. cbn [app lstrip_cps].
    rewrite Ec. exact IH.
  - cbn [lstrip_cps]. rewrite Ec.
    destruct (lower_head false c l) as (o & outs & -> & _ & _ & _ & Hsol).
    specialize (Hsol Ec). cbn [forallb] in Hsol. apply andb_true_iff in Hsol.
    destruct Hsol as [Ho _]. cbn [app lstrip_cps].
    destruct (is_space o); [discriminate | reflexivity].
Qed.

Lemma ends_word_rstrip (l : list Z) : ends_word (rstrip_cps l) = ends_word l.
Proof.
  induction l as [|c l IH]; [reflexivity|].
  destruct (rstrip_cps_cons c l) as [(-> & Hs & _) | (-> & _)].
  - destruct (space_facts _ Hs) as (_ & _ & Hcas & Hig).
    cbn [ends_word]. now rewrite Hig, Hcas.
  - cbn [ends_word]. now rewrite IH.
Qed.

Lemma rstrip_cps_app_solid (x y : list Z) :
  forallb (fun c => negb (is_space c)) x = true ->
  rstrip_cps (x ++ y) = x ++ rstrip_cps y.
Proof.
  induction x as [|c x IH]; intros H; [reflexivity|].
  cbn [forallb] in H. apply andb_true_iff in H. destruct H as [Hc Hx].
  cbn [app]. rewrite rstrip_cps_solid by now destruct (is_space c).
  now rewrite IH.
Qed.

Lemma rstrip_cps_app_keep (x y : list Z) :
  rstrip_cps y <> [] -> rstrip_cps (x ++ y) = x ++ rstrip_cps y.
Proof.
  intros Hy. induction x as [|c x IH]; [reflexivity|].
  cbn [app rstrip_cps]. rewrite IH.
  destruct (x ++ rstrip_cps y) eqn:E; [|reflexivity].
  apply app_eq_nil in E. destruct E as [_ E]. contradiction.
Qed.

Lemma rstrip_lower_cps (p : bool) (l : list Z) :
  rstrip_cps (lower_from p l) = lower_from p (rstrip_cps l).
Proof.
  revert p. induction l as [|c l IH]; intros p; [reflexivity|].
  destruct (rstrip_cps_cons c l) as [(-> & Hs & Hl) | (-> & Hor)].
  - destruct (space_facts _ Hs) as (_ & Hf & _).
    apply is_fixed_spec in Hf. destruct Hf as [Hsig Hf].
    cbn [lower_from]. rewrite Hsig, Hf. cbn [app rstrip_cps].
    rewrite IH, Hl. cbn [lower_from]. now rewrite Hs.
  - cbn [lower_from]. rewrite ends_word_rstrip, <- IH.
    set (outs := if c =? SIGMA then _ else _).
    set (p' := if is_case_ignorable c then p else is_cased c).
    destruct Hor as [Hc | Hne].
    + apply rstrip_cps_app_solid. subst outs.
      destruct (lower_head p c l) as (o & os & E & _ & _ & _ & Hsol).
      cbn [lower_from] in E. apply app_inv_tail in E. rewrite E. now apply Hsol.
    + apply rstrip_cps_app_keep. rewrite IH. intros H.
      apply lower_from_empty in H. contradiction.
Qed.

(** ** A separator between two texts *)

Lemma is_separator_spec (x : Z) :
  is_separator x = true ->
  is_scalar x = true /\ is_space x = false /\ is_cased x = false
  /\ is_case_ignorable x = false /\ (x =? SIGMA) = false /\ lower_cp x = [x].
Proof.
  unfold is_separator. intros H.
  repeat (apply andb_true_iff in H; destruct H as [H ?]).
  destruct (is_fixed_spec x) as [? ?]; [assumption|].
  repeat split; try assumption;
    match goal with
    | Hn : negb ?b = true |- ?b = false => now destruct b
    end.
Qed.

Lemma ends_word_separator (x : Z) (u v : list Z) :
  is_separator x = true -> ends_word (u ++ x :: v) = ends_word u.
Proof.
  intros Hx. apply is_separator_spec in Hx.
  destruct Hx as (_ & _ & Hcas & Hig & _).
  induction u as [|c u IH].
  - cbn [app ends_word]. now rewrite Hig, Hcas.
  - cbn [app ends_word]. now rewrite IH.
Qed.

Lemma lower_from_separator (x : Z) (p : bool) (u v : list Z) :
  is_separator x = true ->
  lower_from p (u ++ x :: v) = lower_from p u ++ x :: lower_from false v.
Proof.
  intros Hx. pose proof (is_separator_spec _ Hx) as (_ & _ & Hcas & Hig & Hsig & Hf).
  revert p. induction u as [|c u IH]; intros p.
  - cbn [app lower_from]. now rewrite Hsig, Hf, Hig, Hcas.
  - cbn [app lower_from]. rewrite (@ends_word_separator x u v Hx), IH.
    now rewrite app_assoc.
Qed.

Lemma lstrip_cps_separator (x : Z) (u v : list Z) :
  is_separator x = true -> lstrip_cps (u ++ x :: v) = lstrip_cps u ++ x :: v.
Proof.
  intros Hx. apply is_separator_spec in Hx. destruct Hx as (_ & Hsp & _).
  induction u as [|c u IH].
  - cbn [app lstrip_cps]. now rewrite Hsp.
  - cbn [app lstrip_cps]. destruct (is_space c); [exact IH | reflexivity].
Qed.

Lemma rstrip_cps_separator (x : Z) (u v : list Z) :
  is_separator x = true -> rstrip_cps (u ++ x :: v) = u ++ x :: rstrip_cps v.
Proof.
  intros Hx. apply is_separator_spec in Hx. destruct Hx as (_ & Hsp & _).
  rewrite <- (@rstrip_cps_solid x v Hsp).
  apply rstrip_cps_app_keep. rewrite rstrip_cps_solid by exact Hsp. discriminate.
Qed.

End UnitFacts.

(* ===================================================================== *)
(** * [lower] and [strip] on strings *)
(* ===================================================================== *)

Section StringFacts.
Import PyStr.

Lemma canonical_strip (s : string) :
  canonical (rstrip_cps (lstrip_cps (decode s))).
Proof. apply canonical_rstrip, canonical_lstrip, decode_canonical. Qed.

Lemma decode_lower (s : string) :
  decode (lower s) = lower_from false (decode s).
Proof. apply canonical_decode, canonical_lower, decode_canonical. Qed.

Lemma decode_strip (s : string) :
  decode (strip s) = rstrip_cps (lstrip_cps (decode s)).
Proof. apply canonical_decode, canonical_strip. Qed.

Lemma lower_lower (s : string) : lower (lower s) = lower s.
Proof.
  unfold lower at 1. rewrite decode_lower, lower_from_idempotent. reflexivity.
Qed.

Lemma lower_empty (s : string) : lower s = "" -> s = "".
Proof.
  unfold lower. intros H. apply encode_empty, lower_from_empty in H.
  rewrite <- (encode_decode s), H. reflexivity.
Qed.

Lemma lstrip_strip (s : string) : lstrip (strip s) = strip s.
Proof.
  unfold lstrip. rewrite decode_strip, lstrip_cps_strip. reflexivity.
Qed.

Lemma rstrip_strip (s : string) : rstrip (strip s) = strip s.
Proof.
  unfold rstrip. rewrite decode_strip, rstrip_cps_idempotent. reflexivity.
Qed.

Lemma strip_strip (s : string) : strip (strip s) = strip s.
Proof.
  unfold strip at 1. rewrite decode_strip, lstrip_cps_strip, rstrip_cps_idempotent.
  reflexivity.
Qed.

Lemma strip_lower (s : string) : strip (lower s) = lower (strip s).
Proof.
  unfold strip at 1. unfold lower at 2.
  rewrite decode_lower, decode_strip, lstrip_lower_cps, rstrip_lower_cps.
  reflexivity.
Qed.

(** The bar that separates name and link in the hashed text. *)
Lemma bar_separator : is_separator 124 = true.
Proof. vm_compute. reflexivity. Qed.

Lemma decode_bar (n l : string) :
  decode (n ++ "|" ++ l) = decode n ++ 124 :: decode l.
Proof.
  rewrite decode_app by (vm_compute; reflexivity).
  reflexivity.
Qed.

Lemma encode_bar (u v : list Z) :
  encode (u ++ 124 :: v) = (encode u ++ "|" ++ encode v)%string.
Proof. rewrite encode_app. reflexivity. Qed.

Lemma strip_name_bar_link (n l : string) :
  strip (n ++ "|" ++ l) = (lstrip n ++ "|" ++ rstrip l)%string.
Proof.
  unfold strip, lstrip, rstrip.
  rewrite decode_bar, (@lstrip_cps_separator 124 _ _ bar_separator),
    (@rstrip_cps_separator 124 _ _ bar_separator).
  apply encode_bar.
Qed.

Lemma lower_bar (a b : string) :
  lower (a ++ "|" ++ b) = (lower a ++ "|" ++ lower b)%string.
Proof.
  unfold lower.
  rewrite decode_bar, (@lower_from_separator 124 _ _ _ bar_separator).
  apply encode_bar.
Qed.

Lemma decode_empty (s : string) : decode s = [] -> s = "".
Proof. intros H. rewrite <- (encode_decode s), H. reflexivity. Qed.

End StringFacts.

(* ===================================================================== *)
(** * Properties of the identity *)
(* ===================================================================== *)

Section IdentityFacts.

Import PyStr.

(** The hashed text: trimming the concatenation trims the name on the left
    and the link on the right, and nothing else; the bar keeps the case of
    the two apart. *)
Lemma payload_of_strings (e : json) (n l : string) :
  Py.get e "name" (JStr "") = Ok (JStr n) ->
  Py.get e "link" (JStr "") = Ok (JStr l) ->
  payload e = Ok (lower (lstrip n) ++ "|" ++ lower (rstrip l))%string.
Proof.
  intros Hn Hl. unfold payload. rewrite Hn. cbn [bind Py.add_str].
  rewrite Hl. cbn [bind Py.add_str Py.strip].
  rewrite string_app_assoc, strip_name_bar_link.
  now rewrite lower_bar.
Qed.

Lemma payload_normalized (a b : string) (rest : list (string * json)) :
  payload (JDict (("name", JStr a) :: ("link", JStr b) :: rest))
  = Ok (lower (lstrip a) ++ "|" ++ lower (rstrip b))%string.
Proof. apply payload_of_strings; reflexivity. Qed.

End IdentityFacts.

(** The ids the import assigns: [tool_id] is applied to the normalized
    entry, whose name and link were trimmed one by one. *)
Lemma normalized_tool_id (now : string) (t n : list (string * json)) (a b : string) :
  normalize_tool now t = Ok n ->
  Py.get_or t "name" (JStr "") = JStr a ->
  Py.get_or t "link" (JStr "") = JStr b ->
  tool_id (JDict n)
  = Ok (PyStr.take 16
          (SHA1.hexdigest
             (PyStr.lower (PyStr.strip a) ++ "|" ++ PyStr.lower (PyStr.strip b))%string)).
Proof.
  unfold normalize_tool. cbn [Py.get bind]. intros H Ha Hb.
  rewrite Ha, Hb in H. cbn [Py.strip bind] in H.
  repeat match type of H with
         | bind ?c _ = _ =>
             destruct c eqn:?; cbn [bind] in H; cbv zeta in H; try discriminate
         end.
  injection H as <-. unfold tool_id.
  rewrite payload_normalized, lstrip_strip, rstrip_strip. reflexivity.
Qed.

(** C2, as the code has it.  [tool_id] trims and lowercases the
    concatenation [name + "|" + link] as a whole: blanks are removed before
    the name and after the link only.  Two entries whose names agree after
    lowercasing and removal of leading blanks, and whose links agree after
    lowercasing and removal of trailing blanks, have the same id.  The
    import trims each field before it calls [tool_id]: the ids it assigns
    to two tools are equal as soon as their names and their links agree
    after lowercasing and trimming.  Lowercasing and trimming are
    [str.lower] and [str.strip], on any text. *)
Theorem tool_id_normalization :
  (forall (e1 e2 : json) (n1 l1 n2 l2 : string),
      Py.get e1 "name" (JStr "") = Ok (JStr n1) ->
      Py.get e1 "link" (JStr "") = Ok (JStr l1) ->
      Py.get e2 "name" (JStr "") = Ok (JStr n2) ->
      Py.get e2 "link" (JStr "") = Ok (JStr l2) ->
      PyStr.lower (PyStr.lstrip n1) = PyStr.lower (PyStr.lstrip n2) ->
      PyStr.lower (PyStr.rstrip l1) = PyStr.lower (PyStr.rstrip l2) ->
      tool_id e1 = tool_id e2)
  /\ (forall (now1 now2 : string) (t1 t2 m1 m2 : list (string * json))
             (n1 l1 n2 l2 : string),
         normalize_tool now1 t1 = Ok m1 ->
         normalize_tool now2 t2 = Ok m2 ->
         Py.get_or t1 "name" (JStr "") = JStr n1 ->
         Py.get_or t1 "link" (JStr "") = JStr l1 ->
         Py.get_or t2 "name" (JStr "") = JStr n2 ->
         Py.get_or t2 "link" (JStr "") = JStr l2 ->
         PyStr.lower (PyStr.strip n1) = PyStr.lower (PyStr.strip n2) ->
         PyStr.lower (PyStr.strip l1) = PyStr.lower (PyStr.strip l2) ->
         tool_id (JDict m1) = tool_id (JDict m2)).
Proof.
  split.
  - intros e1 e2 n1 l1 n2 l2 Hn1 Hl1 Hn2 Hl2 Hn Hl.
    unfold tool_id.
    rewrite (payload_of_strings e1 Hn1 Hl1), (payload_of_strings e2 Hn2 Hl2).
    now rewrite Hn, Hl.
  - intros now1 now2 t1 t2 m1 m2 n1 l1 n2 l2 H1 H2 Hn1 Hl1 Hn2 Hl2 Hn Hl.
    rewrite (@normalized_tool_id now1 t1 m1 n1 l1 H1 Hn1 Hl1),
      (@normalized_tool_id now2 t2 m2 n2 l2 H2 Hn2 Hl2).
    now rewrite Hn, Hl.
Qed.

Lemma tool_id_normalization_witness :
  tool_id (JDict [("name", JStr "  ÉCOLE Σ"); ("link", JStr "HTTPS://x.io　")])
  = tool_id (JDict [("link", JStr "https://x.io"); ("name", JStr "école σ")]).
Proof.
  apply (proj1 tool_id_normalization _ _ "  ÉCOLE Σ" "HTTPS://x.io　" "école σ" "https://x.io");
    vm_compute; reflexivity.
Defined.

(** C2 as stated fails: a blank after the name (or before the link) is
    kept in the hashed text.  ["A "] and ["A"] are equal once lowercased
    and trimmed, the links are equal, and the ids differ. *)
Lemma tool_id_inner_blank_counterexample :
  let e1 := JDict [("name", JStr "A "); ("link", JStr "x")] in
  let e2 := JDict [("name", JStr "A"); ("link", JStr "x")] in
  PyStr.lower (PyStr.strip "A ") = PyStr.lower (PyStr.strip "A")
  /\ PyStr.lower (PyStr.strip "x") = PyStr.lower (PyStr.strip "x")
  /\ tool_id e1 = Ok "ae58ff75850c7450"
  /\ tool_id e2 = Ok "e4fef98d862ee147"
  /\ tool_id e1 <> tool_id e2.
Proof.
  cbv zeta. repeat split; try (vm_compute; reflexivity).
  vm_compute. discriminate.
Qed.

(* ===================================================================== *)
(** * Dict updates *)
(* ===================================================================== *)

Lemma assoc_assign (k k' : string) (v : json) (kv : list (string * json)) :
  Py.assoc k (Py.assign k' v kv) = if String.eqb k k' then Some v else Py.assoc k kv.
Proof.
  induction kv as [|[x y] kv IH]; simpl.
  - destruct (String.eqb k k'); reflexivity.
  - destruct (String.eqb k' x) eqn:Ex; simpl.
    + apply String.eqb_eq in Ex. subst x.
      destruct (String.eqb k k'); reflexivity.
    + destruct (String.eqb k x) eqn:Ek.
      * apply String.eqb_eq in Ek. subst x.
        rewrite String.eqb_sym in Ex. now rewrite Ex.
      * exact IH.
Qed.

Lemma assoc_assign_same (k : string) (v : json) (kv : list (string * json)) :
  Py.assoc k (Py.assign k v kv) = Some v.
Proof. rewrite assoc_assign. now rewrite String.eqb_refl. Qed.

Lemma assoc_assign_other (k k' : string) (v : json) (kv : list (string * json)) :
  k <> k' -> Py.assoc k (Py.assign k' v kv) = Py.assoc k kv.
Proof.
  intros H. rewrite assoc_assign.
  destruct (String.eqb k k') eqn:E; [|reflexivity].
  apply String.eqb_eq in E. contradiction.
Qed.

(* ===================================================================== *)
(** * The loader *)
(* ===================================================================== *)




(* ===================================================================== *)
(** * Enrichment keeps the other fields *)
(* ===================================================================== *)

Lemma with_flags_frame (tool : list (string * json)) (b : bool) (note k : string) :
  flag_field k = false ->
  Py.assoc k (with_flags tool b note) = Py.assoc k tool.
Proof.
  unfold flag_field, with_flags. intros H.
  apply orb_false_iff in H. destruct H as [H1 H2].
  rewrite !assoc_assign, H1, H2. reflexivity.
Qed.

Lemma with_flags_flags (tool : list (string * json)) (b : bool) (note : string) :
  Py.assoc "ai_enriched" (with_flags tool b note) = Some (JBool b)
  /\ Py.assoc "ai_note" (with_flags tool b note) = Some (JStr note).
Proof.
  unfold with_flags. rewrite !assoc_assign. simpl. split; reflexivity.
Qed.

Lemma enrich_body_frame (reply : exc json) (tool tool' : list (string * json)) (k : string) :
  enrich_body reply tool = Ok tool' ->
  enriched_field k = false ->
  Py.assoc k tool' = Py.assoc k tool.
Proof.
  unfold enrich_body, bind. intros H Hk.
  repeat match type of H with
         | match ?c with _ => _ end = _ => destruct c; try discriminate
         end.
  all: inversion H; subst tool'; clear H.
  all: unfold enriched_field in Hk; repeat (apply orb_false_iff in Hk; destruct Hk as [Hk ?]).
  all: rewrite with_flags_frame by (unfold flag_field; apply orb_false_iff; split; assumption).
  all: rewrite !assoc_assign.
  all: repeat match goal with H : String.eqb _ _ = false |- _ => rewrite H; clear H end.
  all: reflexivity.
Qed.

Lemma enrich_body_query (reply : exc json) (tool : list (string * json)) :
  enrich_body reply tool
  = match Py.get_or tool "name" (JStr ""), Py.get_or tool "link" (JStr "") with
    | JStr _, JStr _ =>
        match reply with
        | Raise e => Raise e
        | Ok (JDict data) =>
            Ok (with_flags
                  (Py.assign "category"
                     (Py.get_or data "category" (Py.get_or tool "category" (JStr "")))
                     (Py.assign "keywords" (reply_keywords data)
                        (Py.assign "description"
                           (Py.get_or data "description"
                              (Py.get_or tool "description" (JStr "")))
                           tool)))
                  true "Enrichi par IA avec recherche web")
        | Ok _ => Raise AttributeError
        end
    | _, _ => Raise TypeError
    end.
Proof.
  unfold enrich_body. cbn [Py.get bind].
  destruct (Py.get_or tool "name" (JStr "")); cbn [Py.add_str bind]; try reflexivity.
  destruct (Py.get_or tool "link" (JStr "")); cbn [Py.add_str bind]; try reflexivity.
  destruct reply as [v|e]; cbn [bind]; [|reflexivity].
  destruct v; cbn [Py.get bind]; try reflexivity.
  cbv zeta. unfold reply_keywords.
  destruct (Py.get_or kv "keywords" (JList [])); reflexivity.
Qed.

(** Fields that [ai_enrich] does not write keep their value. *)
Lemma ai_enrich_keeps (str_of_exn : exn -> string) (client : bool) (reply : exc json)
      (tool : list (string * json)) (k : string) :
  enriched_field k = false ->
  Py.assoc k (ai_enrich str_of_exn client reply tool) = Py.assoc k tool.
Proof.
  intros Hk.
  assert (Hf : flag_field k = false).
  { unfold enriched_field in Hk. unfold flag_field.
    repeat (apply orb_false_iff in Hk; destruct Hk as [Hk ?]).
    apply orb_false_iff. split; assumption. }
  unfold ai_enrich. destruct client; simpl.
  - destruct (enrich_body reply tool) eqn:E.
    + now apply (enrich_body_frame reply tool).
    + now apply with_flags_frame.
  - now apply with_flags_frame.
Qed.

Lemma enrich_body_flag (reply : exc json) (tool tool' : list (string * json)) :
  enrich_body reply tool = Ok tool' ->
  Py.assoc "ai_enriched" tool' = Some (JBool true).
Proof.
  unfold enrich_body. intros H.
  repeat match type of H with
         | bind ?c _ = _ =>
             destruct c; cbn [bind] in H; cbv zeta in H; try discriminate
         end.
  injection H as <-. apply with_flags_flags.
Qed.

(** C8, as the code has it.  Whatever the collaborators answer,
    [ai_enrich] leaves every field other than description, keywords,
    category, ai_enriched and ai_note as it was.  It fails in these cases
    and no other: there is no client; the name or the link of the entry is
    not a string; the building of the prompt, the provider call or the
    decoding of its reply raises; the decoded reply is not a JSON object.  The result is then the entry
    given with ai_enriched set to false and the note ["OpenAI non
    configuré"] in the first case, ["Erreur IA: "] followed by the text of
    the exception in the others, every other field as it was.  In every
    other case the reply is an object, and it is taken as a success
    whatever its fields hold: the result is flagged as enriched, its
    description and its category are what the reply holds under these
    keys, of any type (what the entry had when the reply lacks the key),
    and its keywords are [reply_keywords] of the reply. *)
Theorem ai_enrich_frame :
  forall (str_of_exn : exn -> string) (client : bool) (reply : exc json)
         (tool : list (string * json)),
    (forall k, enriched_field k = false ->
               Py.assoc k (ai_enrich str_of_exn client reply tool) = Py.assoc k tool)
    /\ (client = false ->
        ai_enrich str_of_exn client reply tool
        = with_flags tool false "OpenAI non configuré")
    /\ (forall e, client = true -> enrich_error reply tool = Some e ->
          ai_enrich str_of_exn client reply tool
          = with_flags tool false ("Erreur IA: " ++ str_of_exn e))
    /\ (forall note,
          (forall k, flag_field k = false ->
                     Py.assoc k (with_flags tool false note) = Py.assoc k tool)
          /\ Py.assoc "ai_enriched" (with_flags tool false note) = Some (JBool false)
          /\ Py.assoc "ai_note" (with_flags tool false note) = Some (JStr note))
    /\ (client = true -> enrich_error reply tool = None ->
        exists data,
          reply = Ok (JDict data)
          /\ Py.assoc "ai_enriched" (ai_enrich str_of_exn client reply tool)
             = Some (JBool true)
          /\ Py.assoc "ai_note" (ai_enrich str_of_exn client reply tool)
             = Some (JStr "Enrichi par IA avec recherche web")
          /\ Py.assoc "description" (ai_enrich str_of_exn client reply tool)
             = Some (Py.get_or data "description"
                       (Py.get_or tool "description" (JStr "")))
          /\ Py.assoc "category" (ai_enrich str_of_exn client reply tool)
             = Some (Py.get_or data "category" (Py.get_or tool "category" (JStr "")))
          /\ Py.assoc "keywords" (ai_enrich str_of_exn client reply tool)
             = Some (reply_keywords data)).
Proof.
  intros str_of_exn client reply tool.
  split; [intros k; apply ai_enrich_keeps|].
  split; [intros ->; reflexivity|].
  split.
  { intros e -> He. unfold ai_enrich. cbn [negb].
    rewrite enrich_body_query. unfold enrich_error in He.
    destruct (Py.get_or tool "name" (JStr "")); try (inversion He; reflexivity).
    destruct (Py.get_or tool "link" (JStr "")); try (inversion He; reflexivity).
    destruct reply as [v|e0]; [|inversion He; reflexivity].
    destruct v; inversion He; reflexivity. }
  split.
  { intros note. split; [intros k Hk; now apply with_flags_frame|].
    apply with_flags_flags. }
  intros -> He. unfold ai_enrich. cbn [negb].
  rewrite enrich_body_query. unfold enrich_error in He.
  destruct (Py.get_or tool "name" (JStr "")); try discriminate.
  destruct (Py.get_or tool "link" (JStr "")); try discriminate.
  destruct reply as [v|e0]; [|discriminate].
  destruct v as [| | | | |data]; try discriminate.
  exists data. split; [reflexivity|].
  unfold with_flags. rewrite !assoc_assign. cbn [String.eqb Ascii.eqb Bool.eqb].
  repeat split; reflexivity.
Qed.

Lemma ai_enrich_frame_witness :
  let msg := fun e : exn => match e with ExternalError m => m | _ => "error" end in
  ai_enrich msg true (Raise (ExternalError "timeout")) described_tool
  = with_flags described_tool false "Erreur IA: timeout"
  /\ Py.assoc "description"
       (ai_enrich msg true (Raise (ExternalError "timeout")) described_tool)
     = Some (JStr "assistant")
  /\ ai_enrich msg true (Ok (JList [])) described_tool
     = with_flags described_tool false "Erreur IA: error".
Proof.
  intros msg.
  pose proof (ai_enrich_frame msg true (Raise (ExternalError "timeout")) described_tool)
    as (_ & _ & Hfail & Hflags & _).
  pose proof (ai_enrich_frame msg true (Ok (JList [])) described_tool)
    as (_ & _ & Hfail' & _).
  split; [exact (Hfail (ExternalError "timeout") eq_refl eq_refl)|].
  split; [|exact (Hfail' AttributeError eq_refl eq_refl)].
  rewrite (Hfail (ExternalError "timeout") eq_refl eq_refl).
  destruct (Hflags "Erreur IA: timeout") as (Hkeep & _).
  rewrite Hkeep by reflexivity. reflexivity.
Defined.

(** C8 as stated fails on a malformed reply.  A reply that is an object
    with a number for description, a string for keywords and no category is
    taken as a success: the entry is flagged as enriched, its description
    and its keywords are overwritten, and the result is not the entry given
    with its two flags, whatever the note. *)
Lemma ai_enrich_malformed_counterexample :
  let result := ai_enrich (fun _ => "error") true malformed_reply described_tool in
  Py.assoc "ai_enriched" result = Some (JBool true)
  /\ Py.assoc "description" described_tool = Some (JStr "assistant")
  /\ Py.assoc "description" result = Some (JInt 0)
  /\ Py.assoc "keywords" described_tool = Some (JList [JStr "chat"])
  /\ Py.assoc "keywords" result = Some (JStr "none")
  /\ (forall note, result <> with_flags described_tool false note).
Proof.
  cbv zeta. repeat split; try (vm_compute; reflexivity).
  intros note H. apply (f_equal (Py.assoc "description")) in H.
  rewrite with_flags_frame in H by reflexivity. vm_compute in H. discriminate.
Qed.

(* ===================================================================== *)
(** * The price *)
(* ===================================================================== *)

Lemma normalize_tool_price (now : string) (t n : list (string * json)) :
  normalize_tool now t = Ok n ->
  exists z,
    Py.int (Py.get_or t "price_euros_1_to_5" (JInt 3)) = Ok z
    /\ Py.assoc "price_euros_1_to_5" n = Some (JInt z).
Proof.
  unfold normalize_tool. cbn [Py.get bind].
  intros H.
  repeat match type of H with
         | bind ?c _ = _ =>
             destruct c eqn:?; cbn [bind] in H; cbv zeta in H; try discriminate
         end.
  inversion H; subst n; clear H.
  eexists; split; reflexivity.
Qed.

(** C3, as the code has it.  The interval [1,5] is enforced where a price
    is shown, not where it is stored.  [euros] shows [max(1, min(5, int(n)))]
    signs when [int(n)] succeeds: five for 9, one for -3, five for the
    string of an Arabic-Indic five.  It shows three signs when [int(n)]
    raises: for [None], for a string that is no number, for a string of
    more than 4300 digits.  The import stores [int(price)] as it is (3
    when the field is absent), and the form stores the value of its slider;
    enrichment does not touch the price. *)
Theorem price_clamped_on_display :
  (forall (v : json) (z : Z),
      Py.int v = Ok z ->
      euros v = PyStr.repeat EURO (Z.to_nat (Z.max 1 (Z.min 5 z)))
      /\ 1 <= Z.max 1 (Z.min 5 z) <= 5)
  /\ (forall (v : json) (e : exn),
         Py.int v = Raise e -> euros v = PyStr.repeat EURO 3)
  /\ euros (JInt 9) = PyStr.repeat EURO 5
  /\ euros (JInt (-3)) = PyStr.repeat EURO 1
  /\ euros (JStr "٥") = PyStr.repeat EURO 5
  /\ euros JNull = PyStr.repeat EURO 3
  /\ euros (JStr "abc") = PyStr.repeat EURO 3
  /\ euros (JStr (PyStr.repeat "9" 4301)) = PyStr.repeat EURO 3
  /\ (forall (now : string) (t n : list (string * json)),
         normalize_tool now t = Ok n ->
         exists z,
           Py.int (Py.get_or t "price_euros_1_to_5" (JInt 3)) = Ok z
           /\ Py.assoc "price_euros_1_to_5" n = Some (JInt z))
  /\ (forall str_of_exn now use_ai client reply name link description category
             keywords price w tool w',
         add_tool str_of_exn now use_ai client reply name link description
                  category keywords price w = (Ok (Added tool), w') ->
         Py.assoc "price_euros_1_to_5" tool = Some (JInt price))
  /\ (forall str_of_exn client reply tool,
         Py.assoc "price_euros_1_to_5" (ai_enrich str_of_exn client reply tool)
         = Py.assoc "price_euros_1_to_5" tool).
Proof.
  split.
  { intros v z H. unfold euros, euros_count. rewrite H. split; [reflexivity | lia]. }
  split.
  { intros v e H. unfold euros, euros_count. rewrite H. reflexivity. }
  split; [reflexivity|]. split; [reflexivity|].
  split; [vm_compute; reflexivity|]. split; [reflexivity|].
  split; [vm_compute; reflexivity|]. split; [vm_compute; reflexivity|].
  split; [exact normalize_tool_price|].
  split; [|intros; apply ai_enrich_keeps; reflexivity].
  intros str_of_exn now use_ai client reply name link description category
         keywords price w tool w'.
  unfold add_tool.
  destruct (String.eqb name "" || String.eqb link ""); [discriminate|].
  destruct (load_db w) as [db w1].
  set (base := [("name", _); ("link", _); ("description", _); ("category", _);
                ("keywords", _); ("price_euros_1_to_5", _); ("added_at", _)]).
  set (t := if use_ai then ai_enrich str_of_exn client reply base else base).
  assert (Ht : Py.assoc "price_euros_1_to_5" t = Some (JInt price)).
  { subst t. destruct use_ai; [|reflexivity].
    rewrite ai_enrich_keeps; reflexivity. }
  destruct (tool_id (JDict t)) as [i|e]; [|discriminate].
  destruct db; try discriminate.
  match goal with
  | |- context [match ?c with _ => _ end = _] => destruct c as [[|]|]; try discriminate
  end.
  destruct (Py.append_at kv "tools" _); [|discriminate].
  intros H. inversion H; subst tool.
  rewrite assoc_assign. exact Ht.
Qed.

Lemma price_clamped_on_display_witness :
  euros (JStr " 7 ") = PyStr.repeat EURO 5
  /\ euros (JList []) = PyStr.repeat EURO 3
  /\ exists z,
       Py.int (JInt 9) = Ok z
       /\ Py.assoc "price_euros_1_to_5"
            [("name", JStr "T"); ("link", JStr "l"); ("description", JStr "");
             ("category", JStr ""); ("keywords", JList []);
             ("price_euros_1_to_5", JInt 9); ("added_at", JStr "now")]
          = Some (JInt z).
Proof.
  destruct price_clamped_on_display
    as (Hok & Hraise & _ & _ & _ & _ & _ & _ & Himport & _).
  split; [exact (proj1 (Hok (JStr " 7 ") 7 eq_refl))|].
  split; [exact (Hraise (JList []) TypeError eq_refl)|].
  apply (Himport "now" [("name", JStr "T"); ("link", JStr "l");
                        ("price_euros_1_to_5", JInt 9)]).
  reflexivity.
Defined.

(** C3 as stated fails for the import: a price of 9 is stored as 9 and a
    price of -3 as -3. *)
Lemma import_price_counterexample :
  stored_prices (snd (import_all_data fixed_clock price_9_document empty_world)) = [JInt 9]
  /\ stored_prices (snd (import_all_data fixed_clock price_9_document empty_world)) <> [JInt 5]
  /\ stored_prices (snd (import_all_data fixed_clock price_minus_3_document empty_world))
     = [JInt (-3)]
  /\ errors (fst (import_all_data fixed_clock price_9_document empty_world)) = [].
Proof.
  repeat split; try (vm_compute; reflexivity).
  vm_compute. discriminate.
Qed.

(* ===================================================================== *)
(** * Each section writes its own store *)
(* ===================================================================== *)

Lemma import_comments_frame (entries : list (string * json)) (w : World) :
  let '(_, _, w') := import_comments entries w in
  db_file w' = db_file w /\ links_file w' = links_file w
  /\ DEFAULT_DB_tools w' = DEFAULT_DB_tools w.
Proof.
  unfold import_comments, load_comments.
  destruct (comments_file w);
    destruct (merge_entries _ _ _ _) as [[e|] [c n]]; simpl; auto.
Qed.

Lemma import_links_frame (entries : list (string * json)) (w : World) :
  let '(_, _, w') := import_links entries w in
  db_file w' = db_file w /\ comments_file w' = comments_file w
  /\ DEFAULT_DB_tools w' = DEFAULT_DB_tools w.
Proof.
  unfold import_links, load_links.
  destruct (links_file w);
    destruct (merge_entries _ _ _ _) as [[e|] [c n]]; simpl; auto.
Qed.

Lemma comments_section_frame (d : list (string * json)) (w : World) :
  let '(_, _, w') := comments_section d w in
  db_file w' = db_file w /\ links_file w' = links_file w
  /\ DEFAULT_DB_tools w' = DEFAULT_DB_tools w.
Proof.
  unfold comments_section.
  destruct (Py.assoc "comments" d) as [[]|]; auto.
  apply import_comments_frame.
Qed.

Lemma links_section_frame (d : list (string * json)) (w : World) :
  let '(_, _, w') := links_section d w in
  db_file w' = db_file w /\ comments_file w' = comments_file w
  /\ DEFAULT_DB_tools w' = DEFAULT_DB_tools w.
Proof.
  unfold links_section.
  destruct (Py.assoc "external_links" d) as [[]|]; auto.
  apply import_links_frame.
Qed.

Lemma import_tools_frame (now : nat -> string) (tools : list json) (w : World) :
  let '(_, _, w') := import_tools now tools w in
  comments_file w' = comments_file w /\ links_file w' = links_file w.
Proof.
  unfold import_tools, load_db, load_db_shares_default, publish_default.
  destruct (db_file w) as [| |j]; simpl.
  - destruct (Py.id_set _); simpl; auto.
    destruct (import_tools_loop _ _ _ _) as [[e|] st]; simpl;
      destruct (Py.assoc "tools" (ts_db st)) as [[]|]; simpl; auto.
  - destruct (Py.id_set _); simpl; auto.
    destruct (import_tools_loop _ _ _ _) as [[e|] st]; simpl;
      destruct (Py.assoc "tools" (ts_db st)) as [[]|]; simpl; auto.
  - destruct j; simpl; auto.
    destruct (Py.id_set _); simpl; auto.
    destruct (import_tools_loop _ _ _ _) as [[e|] st]; simpl; auto.
Qed.

Lemma tools_section_frame (now : nat -> string) (d : list (string * json)) (w : World) :
  let '(_, _, w') := tools_section now d w in
  comments_file w' = comments_file w /\ links_file w' = links_file w.
Proof.
  unfold tools_section.
  destruct (Py.assoc "tools" d) as [[]|]; auto.
  apply import_tools_frame.
Qed.

(* ===================================================================== *)
(** * Failures of the import are reported, finished sections are kept *)
(* ===================================================================== *)

Lemma failures_version (d : list (string * json)) (tail : list import_error) (a b c : nat) :
  failures (mkResults a b c (version_errors d ++ tail))
  = failures (mkResults a b c tail).
Proof.
  unfold failures, version_errors. simpl.
  destruct (Py.is_str _ _); reflexivity.
Qed.

(** C6.  [import_all_data] returns its result for every document and every
    state of the stores: an exception met on the way ends the import and is
    the one failure listed in [errors].  What the sections that finished
    before it wrote stays written, and their counters are reported: a
    failure of the comments section keeps the catalog as the tools section
    saved it, a failure of the links section keeps catalog and comments. *)
Theorem import_partial_success :
  forall (now : nat -> string) (data : json) (w : World),
    let r := fst (import_all_data now data w) in
    let w' := snd (import_all_data now data w) in
    match data with
    | JDict d =>
        let '(o1, n1, w1) := tools_section now d w in
        tools_imported r = n1 /\
        match o1 with
        | Some e => failures r = [e] /\ w' = w1
        | None =>
            db_file w' = db_file w1
            /\ DEFAULT_DB_tools w' = DEFAULT_DB_tools w1
            /\ let '(o2, n2, w2) := comments_section d w1 in
               comments_imported r = n2 /\
               match o2 with
               | Some e => failures r = [e] /\ w' = w2
               | None =>
                   comments_file w' = comments_file w2
                   /\ let '(o3, n3, w3) := links_section d w2 in
                      links_imported r = n3 /\ w' = w3 /\
                      match o3 with
                      | Some e => failures r = [e]
                      | None => failures r = []
                      end
               end
        end
    | _ => failures r = [AttributeError] /\ w' = w
    end.
Proof.
  intros now data w. cbv zeta.
  destruct data; try (split; reflexivity).
  unfold import_all_data.
  destruct (tools_section now kv w) as [[o1 n1] w1] eqn:E1.
  destruct o1 as [e1|].
  { cbn [fst snd tools_imported]. rewrite failures_version. repeat split. }
  pose proof (comments_section_frame kv w1) as F2.
  destruct (comments_section kv w1) as [[o2 n2] w2] eqn:E2.
  destruct F2 as (F2a & F2b & F2c).
  destruct o2 as [e2|].
  { cbn [fst snd tools_imported comments_imported].
    rewrite failures_version. repeat split; assumption. }
  pose proof (links_section_frame kv w2) as F3.
  destruct (links_section kv w2) as [[o3 n3] w3] eqn:E3.
  destruct F3 as (F3a & F3b & F3c).
  destruct o3 as [e3|];
    cbn [fst snd tools_imported comments_imported links_imported].
  - rewrite failures_version. repeat split; congruence.
  - replace (version_errors kv) with (version_errors kv ++ []) by apply app_nil_r.
    rewrite failures_version. repeat split; congruence.
Qed.

(* ===================================================================== *)
(** * Records without an id in the merge of comments and links *)
(* ===================================================================== *)

Lemma mapM_app {A B : Type} (f : A -> exc B) (l : list A) (x : A) (bs : list B) (b : B) :
  mapM f l = Ok bs -> f x = Ok b -> mapM f (l ++ [x]) = Ok (bs ++ [b]).
Proof.
  revert bs. induction l as [|a l IH]; simpl; intros bs Hl Hx.
  - inversion Hl; subst. now rewrite Hx.
  - destruct (f a) as [b0|]; [|discriminate]. cbn [bind] in *.
    destruct (mapM f l) as [bs0|]; [|discriminate]. cbn [bind] in *.
    inversion Hl; subst. now rewrite (IH bs0 eq_refl Hx).
Qed.

Lemma mem_app (k : Py.key) (s t : Py.set) :
  Py.mem k (s ++ t) = Py.mem k s || Py.mem k t.
Proof. unfold Py.mem. apply existsb_app. Qed.




(* ===================================================================== *)
(** * The similarity ranking *)
(* ===================================================================== *)

Section RankingFacts.

Lemma insert_desc_perm (x : json * Q) (l : list (json * Q)) :
  Permutation (insert_desc x l) (x :: l).
Proof.
  induction l as [|y l IH]; simpl; [apply Permutation_refl|].
  destruct (Qle_bool (snd y) (snd x)); [apply Permutation_refl|].
  eapply perm_trans; [apply perm_skip, IH | apply perm_swap].
Qed.

Lemma sorted_desc_perm (l : list (json * Q)) :
  Permutation (sorted_desc l) l.
Proof.
  induction l as [|x l IH]; simpl; [constructor|].
  eapply perm_trans; [apply insert_desc_perm | now apply perm_skip].
Qed.

Lemma insert_desc_sorted (x : json * Q) (l : list (json * Q)) :
  StronglySorted decreasing l -> StronglySorted decreasing (insert_desc x l).
Proof.
  induction l as [|y l IH]; simpl; intros Hs.
  - constructor; constructor.
  - inversion Hs as [|? ? Hl Hy]; subst.
    destruct (Qle_bool (snd y) (snd x)) eqn:E.
    + apply Qle_bool_iff in E. constructor; [exact Hs|].
      constructor; [exact E|].
      eapply Forall_impl; [|exact Hy].
      intros z Hz. unfold decreasing in *. eapply Qle_trans; eassumption.
    + assert (Hlt : (snd x < snd y)%Q).
      { apply Qnot_le_lt. intros H. apply Qle_bool_iff in H. congruence. }
      constructor; [now apply IH|].
      eapply Permutation_Forall; [apply Permutation_sym, insert_desc_perm|].
      constructor; [|exact Hy].
      unfold decreasing. now apply Qlt_le_weak.
Qed.

Lemma sorted_desc_sorted (l : list (json * Q)) :
  StronglySorted decreasing (sorted_desc l).
Proof.
  induction l as [|x l IH]; simpl; [constructor|].
  now apply insert_desc_sorted.
Qed.

Lemma insert_desc_stable (q : Q) (x : json * Q) (l : list (json * Q)) :
  with_score q (insert_desc x l) = with_score q (x :: l).
Proof.
  unfold with_score.
  induction l as [|y l IH]; [reflexivity|].
  cbn [insert_desc].
  destruct (Qle_bool (snd y) (snd x)) eqn:E; [reflexivity|].
  cbn [filter] in *. rewrite IH.
  destruct (Qeq_bool (snd x) q) eqn:Ex; [|reflexivity].
  destruct (Qeq_bool (snd y) q) eqn:Ey; [|reflexivity].
  exfalso. apply Qeq_bool_iff in Ex, Ey.
  assert (H : Qle_bool (snd y) (snd x) = true).
  { apply Qle_bool_iff. rewrite Ex, Ey. apply Qle_refl. }
  congruence.
Qed.

Lemma sorted_desc_stable (q : Q) (l : list (json * Q)) :
  with_score q (sorted_desc l) = with_score q l.
Proof.
  induction l as [|x l IH]; [reflexivity|].
  cbn [sorted_desc fold_right]. rewrite insert_desc_stable.
  unfold with_score in *. cbn [filter]. fold (sorted_desc l). now rewrite IH.
Qed.

Lemma sorted_desc_ranking (l : list (json * Q)) :
  stable_ranking l (sorted_desc l).
Proof.
  split; [apply sorted_desc_perm|].
  split; [apply sorted_desc_sorted|].
  intros q. apply sorted_desc_stable.
Qed.

Lemma mapM_length {A B : Type} (f : A -> exc B) (l : list A) (bs : list B) :
  mapM f l = Ok bs -> List.length bs = List.length l.
Proof.
  revert bs. induction l as [|a l IH]; simpl; intros bs H.
  - inversion H; reflexivity.
  - destruct (f a); [|discriminate]. cbn [bind] in H.
    destruct (mapM f l) as [bs0|]; [|discriminate]. cbn [bind] in H.
    inversion H; subst. simpl. now rewrite (IH bs0 eq_refl).
Qed.

End RankingFacts.

Section SearchFacts.

Variable token_set_ratio : string -> string -> Q.
Variable py_str : json -> string.

Lemma any_keyword_miss (q : string) (kws : list json) :
  any_keyword q kws = Ok false ->
  exists ss, mapM as_str kws = Ok ss.
Proof.
  induction kws as [|kw kws IH]; simpl; intros H.
  - eexists; reflexivity.
  - destruct kw; try discriminate. cbn [Py.lower bind] in H.
    destruct (PyStr.contains (PyStr.lower s) q); [discriminate|].
    destruct (IH H) as [ss Hss]. cbn [as_str bind]. rewrite Hss.
    eexists; reflexivity.
Qed.

(** An entry the exact step could examine and reject is one the ranking
    can score. *)
Lemma exact_miss_scores (q : string) (t : json) :
  exact_match q t = Ok false ->
  exists s, score_tool token_set_ratio py_str q t = Ok s.
Proof.
  unfold exact_match, score_tool.
  destruct t; try discriminate. cbn [Py.get bind].
  destruct (Py.lower (Py.get_or kv "name" (JStr ""))) as [name|]; [|discriminate].
  cbn [bind].
  destruct (PyStr.contains name q); [discriminate|].
  destruct (Py.iter (Py.get_or kv "keywords" (JList []))) as [xs|]; [|discriminate].
  cbn [bind].
  destruct (any_keyword q xs) as [[|]|] eqn:Hany; try discriminate.
  intros _. destruct (any_keyword_miss q xs Hany) as [ss Hss].
  rewrite Hss. cbn [bind]. eexists; reflexivity.
Qed.

Lemma exact_phase_empty (q : string) (tools : list json) :
  exact_phase q tools = Ok [] ->
  Forall (fun t => exact_match q t = Ok false) tools.
Proof.
  induction tools as [|t tools IH]; simpl; intros H; [constructor|].
  destruct (exact_match q t) as [hit|] eqn:Et; [|discriminate]. cbn [bind] in H.
  destruct (exact_phase q tools) as [rest|]; [|discriminate]. cbn [bind] in H.
  destruct hit; [discriminate|].
  inversion H; subst rest. constructor; [exact Et | now apply IH].
Qed.

Lemma all_scored (q : string) (tools : list json) :
  Forall (fun t => exact_match q t = Ok false) tools ->
  exists scores, mapM (score_tool token_set_ratio py_str q) tools = Ok scores.
Proof.
  induction 1 as [|t tools Ht _ IH]; simpl; [eexists; reflexivity|].
  destruct (exact_miss_scores q t Ht) as [s Hs]. rewrite Hs.
  destruct IH as [scores Hsc]. rewrite Hsc. eexists; reflexivity.
Qed.

Lemma smart_results_length (q : string) (tools l : list json) :
  smart_results token_set_ratio py_str q tools = Ok l ->
  List.length l = Nat.min 5 (List.length tools).
Proof.
  unfold smart_results.
  destruct (mapM _ tools) as [scores|] eqn:Hs; [|discriminate].
  cbn [bind]. intros H.
  replace l with (firstn 5 (map fst (sorted_desc (combine tools scores))))
    by congruence.
  rewrite length_firstn, length_map.
  rewrite (Permutation_length (sorted_desc_perm _)), length_combine.
  rewrite (mapM_length _ _ Hs). now rewrite Nat.min_id.
Qed.

Lemma smart_results_all (q : string) (tools l : list json) :
  smart_results token_set_ratio py_str q tools = Ok l ->
  (List.length tools <= 5)%nat ->
  Permutation l tools.
Proof.
  unfold smart_results.
  destruct (mapM _ tools) as [scores|] eqn:Hs; [|discriminate].
  cbn [bind]. intros H Hlen.
  replace l with (firstn 5 (map fst (sorted_desc (combine tools scores))))
    by congruence.
  pose proof (mapM_length _ _ Hs) as Hl.
  rewrite firstn_all2.
  - eapply perm_trans; [apply Permutation_map, sorted_desc_perm|].
    clear - Hl. revert scores Hl.
    induction tools as [|t tools IH]; intros [|s scores] Hl;
      try discriminate; simpl; [constructor|].
    apply perm_skip, IH. simpl in Hl. congruence.
  - rewrite length_map, (Permutation_length (sorted_desc_perm _)), length_combine.
    rewrite Hl, Nat.min_id. exact Hlen.
Qed.

End SearchFacts.

Section SearchTheorems.

Variable token_set_ratio : string -> string -> Q.
Variable py_str : json -> string.

Lemma mapM_as_str (ks : list string) : mapM as_str (map JStr ks) = Ok ks.
Proof.
  induction ks as [|k ks IH]; simpl; [reflexivity|].
  now rewrite IH.
Qed.

(** The text an entry is scored on, for an entry whose fields are
    strings and a list of strings. *)
Lemma score_tool_text (q : string) (kv : list (string * json))
      (n d c : string) (ks : list string) :
  Py.get_or kv "name" (JStr "") = JStr n ->
  Py.get_or kv "description" (JStr "") = JStr d ->
  Py.get_or kv "keywords" (JList []) = JList (map JStr ks) ->
  Py.get_or kv "category" (JStr "") = JStr c ->
  score_tool token_set_ratio py_str q (JDict kv)
  = Ok (token_set_ratio q
          (PyStr.lower (n ++ " " ++ d ++ " " ++ PyStr.join " " ks ++ " " ++ c)%string)).
Proof.
  intros Hn Hd Hk Hc. unfold score_tool. cbn [Py.get bind].
  rewrite Hn, Hd, Hk, Hc. cbn [Py.iter bind]. rewrite mapM_as_str.
  reflexivity.
Qed.

Lemma search_smart (use_gpt have_openai : bool) (gpt : exc (list json))
      (query : string) (tools l : list json) :
  search token_set_ratio py_str use_gpt have_openai gpt query tools
  = Ok (SmartResults l) ->
  exact_phase (PyStr.lower query) tools = Ok []
  /\ smart_results token_set_ratio py_str (PyStr.lower query) tools = Ok l.
Proof.
  unfold search.
  destruct (String.eqb query ""); [discriminate|].
  destruct tools as [|t tools]; [discriminate|].
  destruct (exact_phase (PyStr.lower query) (t :: tools)) as [[|x xs]|];
    cbn [bind]; try discriminate.
  intros H. split; [reflexivity|].
  destruct (smart_results _ _ _ _) as [l0|]; cbn [bind] in H.
  - destruct (use_gpt && have_openai); [destruct gpt|]; congruence.
  - destruct (use_gpt && have_openai); [destruct gpt|]; discriminate.
Qed.

(** C4.  The similarity ranking is shown only when the exact step found
    nothing.  It scores every entry by [token_set_ratio] between the
    lowercased query and the lowercased text
    [name description keywords category], orders the entries by
    decreasing score, entries of equal score staying in catalog order, and
    keeps the first five. *)
Theorem fuzzy_fallback_ranking :
  forall (use_gpt have_openai : bool) (gpt : exc (list json))
         (query : string) (tools l : list json),
    search token_set_ratio py_str use_gpt have_openai gpt query tools
    = Ok (SmartResults l) ->
    exact_phase (PyStr.lower query) tools = Ok []
    /\ (exists scores ranked,
           mapM (score_tool token_set_ratio py_str (PyStr.lower query)) tools = Ok scores
           /\ stable_ranking (combine tools scores) ranked
           /\ l = firstn 5 (map fst ranked))
    /\ (forall kv n d c ks,
           Py.get_or kv "name" (JStr "") = JStr n ->
           Py.get_or kv "description" (JStr "") = JStr d ->
           Py.get_or kv "keywords" (JList []) = JList (map JStr ks) ->
           Py.get_or kv "category" (JStr "") = JStr c ->
           score_tool token_set_ratio py_str (PyStr.lower query) (JDict kv)
           = Ok (token_set_ratio (PyStr.lower query)
                   (PyStr.lower
                      (n ++ " " ++ d ++ " " ++ PyStr.join " " ks ++ " " ++ c)%string))).
Proof.
  intros use_gpt have_openai gpt query tools l H.
  destruct (@search_smart _ _ _ _ _ _ H) as [Hexact Hsmart].
  split; [exact Hexact|]. split.
  - unfold smart_results in Hsmart.
    destruct (mapM _ tools) as [scores|]; [|discriminate].
    cbn [bind] in Hsmart.
    exists scores, (sorted_desc (combine tools scores)).
    split; [reflexivity|]. split; [apply sorted_desc_ranking | congruence].
  - intros. now apply score_tool_text.
Qed.

(** C9.  When the exact step finds nothing and the model is not used, or
    its call fails, the ranking returns the five best entries of the
    catalog, or all of them when there are fewer: the scores order the
    entries and exclude none.  For a catalog that is not empty the result
    is not empty. *)
Theorem fuzzy_fallback_size :
  forall (use_gpt have_openai : bool) (gpt : exc (list json))
         (query : string) (tools : list json),
    query <> "" ->
    tools <> [] ->
    exact_phase (PyStr.lower query) tools = Ok [] ->
    (use_gpt && have_openai = false \/ exists e, gpt = Raise e) ->
    exists l,
      search token_set_ratio py_str use_gpt have_openai gpt query tools
      = Ok (SmartResults l)
      /\ List.length l = Nat.min 5 (List.length tools)
      /\ l <> []
      /\ ((List.length tools <= 5)%nat -> Permutation l tools).
Proof.
  intros use_gpt have_openai gpt query tools Hq Ht Hexact Hgpt.
  destruct (@all_scored token_set_ratio py_str _ _ (@exact_phase_empty _ _ Hexact))
    as [scores Hscores].
  set (l := firstn 5 (map fst (sorted_desc (combine tools scores)))).
  assert (Hsmart : smart_results token_set_ratio py_str (PyStr.lower query) tools = Ok l).
  { unfold smart_results. rewrite Hscores. reflexivity. }
  exists l. split.
  - unfold search.
    destruct (String.eqb query "") eqn:Eq;
      [apply String.eqb_eq in Eq; contradiction|].
    destruct tools as [|t tools]; [contradiction|].
    rewrite Hexact. cbn [bind]. rewrite Hsmart. cbn [bind].
    destruct Hgpt as [Hoff | [e He]].
    + now rewrite Hoff.
    + subst gpt. now destruct (use_gpt && have_openai).
  - pose proof (@smart_results_length _ _ _ _ _ Hsmart) as Hlen.
    split; [exact Hlen|]. split.
    + intros Hnil. rewrite Hnil in Hlen. simpl in Hlen.
      destruct tools; [contradiction | simpl in Hlen; lia].
    + now apply (@smart_results_all _ _ _ _ _ Hsmart).
Qed.

End SearchTheorems.

(* ===================================================================== *)
(** * The loop over the incoming tools *)
(* ===================================================================== *)

Lemma assign_assign (k : string) (v1 v2 : json) (kv : list (string * json)) :
  Py.assign k v2 (Py.assign k v1 kv) = Py.assign k v2 kv.
Proof.
  induction kv as [|[x y] kv IH]; simpl.
  - now rewrite String.eqb_refl.
  - destruct (String.eqb k x) eqn:E; simpl; rewrite E; [reflexivity|].
    now rewrite IH.
Qed.

Lemma append_at_slot (db : list (string * json)) (x : json) :
  match slot db with
  | Some e => Py.append_at db "tools" x = Raise e
  | None =>
      exists l, Py.assoc "tools" db = Some (JList l)
                /\ Py.append_at db "tools" x
                   = Ok (Py.assign "tools" (JList (l ++ [x])) db)
  end.
Proof.
  unfold slot, Py.append_at.
  destruct (Py.assoc "tools" db) as [[]|]; try reflexivity.
  eexists; split; reflexivity.
Qed.


Section ToolsLoopFacts.

(** The clock reading only fills [added_at]: it changes neither the
    exception a tool raises nor the id it gets. *)
Lemma normalize_tool_clock (now1 now2 : string) (t : list (string * json)) :
  match normalize_tool now1 t with
  | Ok n1 =>
      exists n2, normalize_tool now2 t = Ok n2
                 /\ tool_id (JDict n1) = tool_id (JDict n2)
  | Raise e => normalize_tool now2 t = Raise e
  end.
Proof.
  unfold normalize_tool. cbn [Py.get bind].
  repeat match goal with
         | |- context [bind ?c _] =>
             destruct c; cbn [bind]; cbv zeta; try reflexivity
         end.
  eexists. split; [reflexivity|].
  unfold tool_id. now rewrite !payload_normalized.
Qed.

Lemma import_tool_raise (now : string) (t : json) (st st1 : tools_state) (e : exn) :
  import_tool now t st = (Some e, st1) -> st1 = st.
Proof.
  unfold import_tool.
  destruct t; try discriminate.
  destruct (has_name_or_link kv); [|discriminate].
  destruct (normalize_tool now kv); [|congruence].
  destruct (tool_id _); [|congruence].
  destruct (Py.mem _ _); [discriminate|].
  destruct (Py.append_at _ _ _); [discriminate | congruence].
Qed.





Lemma import_tool_monotone (now : string) (t : json) (st st1 : tools_state)
      (r : option exn) :
  import_tool now t st = (r, st1) ->
  forall k, Py.mem k (ts_existing st) = true -> Py.mem k (ts_existing st1) = true.
Proof.
  unfold import_tool.
  destruct t; try (intros H; inversion H; auto).
  revert H. destruct (has_name_or_link kv); [|intros H; inversion H; auto].
  destruct (normalize_tool now kv); [|intros H; inversion H; auto].
  destruct (tool_id _); [|intros H; inversion H; auto].
  destruct (Py.mem _ _); [intros H; inversion H; auto|].
  destruct (Py.append_at _ _ _); intros H; inversion H; auto.
  intros k Hk. cbn [ts_existing]. unfold Py.add. rewrite mem_app, Hk. reflexivity.
Qed.

Lemma import_tools_loop_monotone (now : nat -> string) (tools : list json) :
  forall (i : nat) (st st1 : tools_state) (r : option exn),
    import_tools_loop now i tools st = (r, st1) ->
    forall k, Py.mem k (ts_existing st) = true -> Py.mem k (ts_existing st1) = true.
Proof.
  induction tools as [|t tools IH]; intros i st st1 r H k Hk.
  - simpl in H. inversion H; subst. exact Hk.
  - cbn [import_tools_loop] in H.
    destruct (import_tool (now i) t st) as [[e|] st'] eqn:Hstep.
    + inversion H; subst. eapply import_tool_monotone; eassumption.
    + eapply IH; [exact H|]. eapply import_tool_monotone; eassumption.
Qed.


(** The catalog in memory only grows at the end of its ["tools"] list;
    when there is no such list it does not change. *)
Lemma import_tool_db (now : string) (t : json) (st st1 : tools_state)
      (r : option exn) :
  import_tool now t st = (r, st1) ->
  ts_db st1 = ts_db st
  \/ exists l x i,
      Py.assoc "tools" (ts_db st) = Some (JList l)
      /\ Py.hash (Py.get_or x "id" JNull) = Ok i
      /\ ts_db st1 = Py.assign "tools" (JList (l ++ [JDict x])) (ts_db st)
      /\ ts_existing st1 = ts_existing st ++ [i].
Proof.
  unfold import_tool.
  destruct t; try (intros H; inversion H; auto).
  revert H. destruct (has_name_or_link kv); [|intros H; inversion H; auto].
  destruct (normalize_tool now kv) as [n|]; [|intros H; inversion H; auto].
  destruct (tool_id _) as [i|]; [|intros H; inversion H; auto].
  destruct (Py.mem _ _); [intros H; inversion H; auto|].
  pose proof (append_at_slot (ts_db st) (JDict (Py.assign "id" (JStr i) n))) as Ha.
  destruct (slot (ts_db st)).
  - rewrite Ha. intros H; inversion H; auto.
  - destruct Ha as (l & Hl & Ha). rewrite Ha. intros H; inversion H; subst.
    right. exists l, (Py.assign "id" (JStr i) n), (Py.KStr i).
    cbn [ts_db ts_existing]. unfold Py.get_or. rewrite assoc_assign_same.
    repeat split; auto.
Qed.

Lemma id_set_app (l : list json) (ids : Py.set) (x : list (string * json)) (i : Py.key) :
  Py.id_set (JList l) = Ok ids ->
  Py.hash (Py.get_or x "id" JNull) = Ok i ->
  Py.id_set (JList (l ++ [JDict x])) = Ok (ids ++ [i]).
Proof.
  unfold Py.id_set. cbn [Py.iter bind]. intros Hl Hx.
  apply mapM_app; [exact Hl|]. cbn [Py.get bind]. exact Hx.
Qed.

Lemma import_tool_ids (now : string) (t : json) (st st1 : tools_state)
      (r : option exn) :
  import_tool now t st = (r, st1) -> ids_in_step st -> ids_in_step st1.
Proof.
  intros H Hinv. destruct (import_tool_db _ _ _ H) as [Hdb | (l & x & i & Hl & Hi & Hdb & Hex)].
  - unfold ids_in_step in *. rewrite Hdb.
    destruct r as [e|].
    + now rewrite (import_tool_raise _ _ _ H).
    + assert (Hsame : ts_existing st1 = ts_existing st
                      \/ slot (ts_db st) = None /\ ts_db st1 <> ts_db st).
      { revert H. unfold import_tool.
        destruct t; try (intros H; inversion H; auto).
        revert H. destruct (has_name_or_link kv); [|intros H; inversion H; auto].
        destruct (normalize_tool now kv) as [n|]; [|discriminate].
        destruct (tool_id _) as [i|]; [|discriminate].
        destruct (Py.mem _ _); [intros H; inversion H; auto|].
        pose proof (append_at_slot (ts_db st) (JDict (Py.assign "id" (JStr i) n))) as Ha.
        destruct (slot (ts_db st)); [rewrite Ha; discriminate|].
        destruct Ha as (l & Hl & Ha). rewrite Ha. intros H. inversion H; subst.
        exfalso. cbn [ts_db] in Hdb.
        apply (f_equal (Py.assoc "tools")) in Hdb.
        rewrite assoc_assign_same, Hl in Hdb. inversion Hdb as [Hdb'].
        apply (f_equal (@List.length json)) in Hdb'.
        rewrite length_app in Hdb'. simpl in Hdb'. lia. }
      destruct Hsame as [-> | [_ Hne]]; [exact Hinv | contradiction].
  - unfold ids_in_step in *. rewrite Hdb, Hex.
    unfold Py.get_or in *. rewrite assoc_assign_same. rewrite Hl in Hinv.
    now apply id_set_app.
Qed.

Lemma import_tools_loop_ids (now : nat -> string) (tools : list json) :
  forall (i : nat) (st st1 : tools_state) (r : option exn),
    import_tools_loop now i tools st = (r, st1) ->
    ids_in_step st -> ids_in_step st1.
Proof.
  induction tools as [|t tools IH]; intros i st st1 r H Hinv.
  - simpl in H. inversion H; subst. exact Hinv.
  - cbn [import_tools_loop] in H.
    destruct (import_tool (now i) t st) as [[e|] st'] eqn:Hstep.
    + inversion H; subst. eapply import_tool_ids; eassumption.
    + eapply IH; [exact H|]. eapply import_tool_ids; eassumption.
Qed.


End ToolsLoopFacts.

(* ===================================================================== *)
(** * The tools section run twice *)
(* ===================================================================== *)

Section ToolsSectionTwice.

Lemma save_db_same (x : json) (w : World) :
  db_file w = Content x -> save_db x w = w.
Proof. destruct w; simpl. intros ->. reflexivity. Qed.




Lemma publish_default_db_file (db : list (string * json)) (w : World) :
  db_file (publish_default db w) = db_file w.
Proof.
  unfold publish_default. destruct (Py.assoc "tools" db) as [[]|]; reflexivity.
Qed.






End ToolsSectionTwice.

(* ===================================================================== *)
(** * The merge of comments and links run twice *)
(* ===================================================================== *)

Section MergeFacts.

Variables f1 f2 : string.

Lemma assoc_some_ne (k k0 : string) (kv : list (string * json)) (v : json) :
  Py.assoc k kv = Some v -> Py.assoc k0 kv = None -> k <> k0.
Proof. intros H H0 ->. congruence. Qed.

Lemma present_grows (k : string) (s s' : json) :
  grows s s' -> present k s -> present k s'.
Proof.
  induction 1 as [s | kv k0 H0 | kv k0 l c i Hl Hi | s1 s2 s3 _ IH1 _ IH2]; auto.
  - unfold present, ensure_key. rewrite assoc_assign.
    destruct (String.eqb k k0); [reflexivity|].
    destruct (Py.assoc k kv) eqn:E; [reflexivity|].
    intros H. inversion H as [H1].
    apply (f_equal (Py.assoc k)) in H1. rewrite assoc_assign_same in H1.
    congruence.
  - unfold present, ensure_key. rewrite assoc_assign.
    destruct (String.eqb k k0); [reflexivity|].
    destruct (Py.assoc k kv) eqn:E; [reflexivity|].
    intros H. inversion H as [H1].
    apply (f_equal (Py.assoc k)) in H1. rewrite assoc_assign_same in H1.
    congruence.
Qed.

Lemma settled_grows (k : string) (x : json) (s s' : json) :
  grows s s' -> settled f1 f2 k x s -> settled f1 f2 k x s'.
Proof.
  induction 1 as [s | kv k0 H0 | kv k0 l0 c0 i0 Hl Hi | s1 s2 s3 _ IH1 _ IH2]; auto.
  - intros [Hno | (c & l & ids & i & Hx & Hsub & Hids & Hi & Hm)]; [now left|].
    right. exists c, l, ids, i. repeat split; try assumption.
    unfold subscript in *.
    destruct (Py.assoc k kv) as [v|] eqn:E; [|discriminate].
    rewrite assoc_assign_other, E; [assumption|].
    eapply assoc_some_ne; eassumption.
  - intros [Hno | (c & l & ids & i & Hx & Hsub & Hids & Hi' & Hm)]; [now left|].
    right. unfold subscript in *.
    destruct (Py.assoc k kv) as [v|] eqn:E; [|discriminate].
    inversion Hsub; subst v. rewrite assoc_assign.
    destruct (String.eqb k k0) eqn:Ek.
    + apply String.eqb_eq in Ek. subst k0.
      rewrite E in Hl. inversion Hl; subst l.
      exists c, (JList (l0 ++ [JDict c0])), (ids ++ [i0]), i.
      repeat split; try assumption.
      * now apply id_set_app.
      * rewrite mem_app, Hm. reflexivity.
    + exists c, l, ids, i. rewrite E. repeat split; assumption.
Qed.


Lemma merge_item_settles (k : string) (x : json) (s s1 : json) (n n1 : nat) :
  merge_item f1 f2 k x (s, n) = (None, (s1, n1)) ->
  settled f1 f2 k x s1 /\ grows s s1.
Proof.
  unfold merge_item, settled, accepted.
  destruct x as [| | | | |c];
    try (intros H; inversion H; subst; split; [now left | constructor]).
  destruct (_ && _); [|intros H; inversion H; subst; split; [now left | constructor]].
  destruct (subscript s k) as [l|] eqn:Hsub; [|discriminate]. cbn [bind].
  destruct (Py.id_set l) as [ids|] eqn:Hids; [|discriminate].
  destruct (Py.hash (Py.lookup c "id")) as [i|] eqn:Hi; [|discriminate].
  destruct (Py.mem i ids) eqn:Hm.
  - intros H; inversion H; subst. split; [|constructor].
    right. exists c, l, ids, i. repeat split; assumption.
  - destruct s as [| | | | |kv]; try discriminate.
    unfold append_item, Py.append_at. unfold subscript in Hsub.
    destruct (Py.assoc k kv) as [v|] eqn:E; [|discriminate].
    inversion Hsub; subst v.
    destruct l as [| | | |l0|]; try discriminate. cbn [bind].
    intros H; inversion H; subst. split.
    + right. exists c, (JList (l0 ++ [JDict c])), (ids ++ [i]), i.
      unfold subscript. rewrite assoc_assign_same.
      repeat split; try assumption.
      * now apply id_set_app.
      * rewrite mem_app. unfold Py.mem at 2. simpl.
        assert (Hrefl : Py.key_eqb i i = true).
        { destruct i; simpl; [reflexivity | apply Z.eqb_refl | apply String.eqb_refl]. }
        now rewrite Hrefl, orb_true_r.
    + eapply grows_append; eassumption.
Qed.

Lemma merge_items_settles (k : string) (items : list json) :
  forall (s s1 : json) (n n1 : nat),
    merge_items f1 f2 k items (s, n) = (None, (s1, n1)) ->
    Forall (fun x => settled f1 f2 k x s1) items /\ grows s s1.
Proof.
  induction items as [|x items IH]; intros s s1 n n1 H.
  - simpl in H. inversion H; subst. split; constructor.
  - cbn [merge_items] in H.
    destruct (merge_item f1 f2 k x (s, n)) as [[e|] [s0 n0]] eqn:Hstep;
      [discriminate|].
    destruct (@merge_item_settles _ _ _ _ _ _ Hstep) as [Hx Hg].
    destruct (IH _ _ _ _ H) as [Hrest Hg'].
    split; [|eapply grows_trans; eassumption].
    constructor; [|exact Hrest].
    eapply settled_grows; eassumption.
Qed.


Lemma ensure_key_present (k : string) (s s1 : json) :
  ensure_key s k = Ok s1 -> present k s1 /\ grows s s1.
Proof.
  unfold present. destruct s as [| | |str|l|kv]; try discriminate.
  - simpl. destruct (PyStr.contains str k) eqn:E; [|discriminate].
    intros H; inversion H; subst. simpl. rewrite E. split; constructor.
  - simpl. destruct (existsb (Py.is_str k) l) eqn:E; [|discriminate].
    intros H; inversion H; subst. simpl. rewrite E. split; constructor.
  - simpl. destruct (Py.assoc k kv) eqn:E.
    + intros H; inversion H; subst. simpl. rewrite E. split; constructor.
    + intros H; inversion H; subst. simpl. rewrite assoc_assign_same.
      split; [reflexivity | now constructor].
Qed.

Lemma entries_settled_grows (entries : list (string * json)) (s s' : json) :
  grows s s' -> entries_settled f1 f2 entries s -> entries_settled f1 f2 entries s'.
Proof.
  intros Hg. unfold entries_settled. apply Forall_impl.
  intros [k v]. cbn [fst snd]. destruct v; auto.
  intros [Hp Hs]. split; [eapply present_grows; eassumption|].
  eapply Forall_impl; [|exact Hs]. intros x. now apply settled_grows.
Qed.

Lemma merge_entries_settles (entries : list (string * json)) :
  forall (s s' : json) (n n' : nat),
    merge_entries f1 f2 entries (s, n) = (None, (s', n')) ->
    entries_settled f1 f2 entries s' /\ grows s s'.
Proof.
  induction entries as [|[k v] entries IH]; intros s s' n n' H.
  - simpl in H. inversion H; subst. split; constructor.
  - cbn [merge_entries] in H.
    destruct v as [| | | |items|];
      try (destruct (IH _ _ _ _ H) as [Hs Hg]; split; [|exact Hg];
           constructor; [exact I | exact Hs]).
    cbn [fst snd] in H.
    destruct (ensure_key s k) as [s0|] eqn:Hkey; [|discriminate].
    destruct (merge_items f1 f2 k items (s0, n)) as [[e|] [s1 n1]] eqn:Hitems;
      [discriminate|].
    destruct (@ensure_key_present _ _ _ Hkey) as [Hp Hg0].
    destruct (@merge_items_settles _ _ _ _ _ _ Hitems) as [Hi Hg1].
    destruct (IH _ _ _ _ H) as [Hs Hg2].
    split; [|eapply grows_trans; [exact Hg0 | eapply grows_trans; eassumption]].
    constructor; [|exact Hs]. cbn [fst snd]. split.
    + eapply present_grows; [|exact Hp]. eapply grows_trans; eassumption.
    + eapply Forall_impl; [|exact Hi]. intros x. now apply settled_grows.
Qed.



End MergeFacts.

(* ===================================================================== *)
(** * What the loaders show, and records kept *)
(* ===================================================================== *)

Section Additivity.







Lemma catalog_depends (w w' : World) :
  db_file w' = db_file w -> DEFAULT_DB_tools w' = DEFAULT_DB_tools w ->
  catalog w' = catalog w.
Proof.
  unfold catalog, load_db, DEFAULT_DB. intros -> ->.
  destruct (db_file w); reflexivity.
Qed.









End Additivity.

(* ===================================================================== *)
(** * The import run twice *)
(* ===================================================================== *)

Section ImportTwice.





End ImportTwice.




(* ===================================================================== *)
(** * Export followed by import *)
(* ===================================================================== *)

Section RoundTrip.













(** What the loaders give is the same before and after the loaders have
    run, in any order. *)
Lemma loads_stable (w : World) :
  let w3 := snd (load_links (snd (load_comments (snd (load_db w))))) in
  fst (load_db w3) = fst (load_db w)
  /\ fst (load_comments w3) = fst (load_comments w)
  /\ fst (load_links w3) = fst (load_links w)
  /\ fst (load_comments (snd (load_db w))) = fst (load_comments w)
  /\ fst (load_links (snd (load_comments (snd (load_db w))))) = fst (load_links w).
Proof.
  destruct w as [df cf lf D].
  destruct df, cf, lf; cbn; repeat split; reflexivity.
Qed.

End RoundTrip.

Lemma load_comments_depends (a b : World) :
  comments_file a = comments_file b -> fst (load_comments a) = fst (load_comments b).
Proof. unfold load_comments. intros ->. destruct (comments_file b); reflexivity. Qed.

Lemma load_links_depends (a b : World) :
  links_file a = links_file b -> fst (load_links a) = fst (load_links b).
Proof. unfold load_links. intros ->. destruct (links_file b); reflexivity. Qed.





(* ===================================================================== *)
(** * Worked inputs *)
(* ===================================================================== *)

Lemma fuzzy_fallback_ranking_witness :
  search sample_ratio sample_str false false (Ok []) "Pictures" sample_catalog
  = Ok (SmartResults [midjourney; chatgpt])
  /\ exact_phase (PyStr.lower "Pictures") sample_catalog = Ok [].
Proof.
  assert (H : search sample_ratio sample_str false false (Ok []) "Pictures" sample_catalog
              = Ok (SmartResults [midjourney; chatgpt])) by (vm_compute; reflexivity).
  split; [exact H|].
  exact (proj1 (@fuzzy_fallback_ranking sample_ratio sample_str false false (Ok [])
                  "Pictures" sample_catalog [midjourney; chatgpt] H)).
Defined.

Lemma fuzzy_fallback_size_witness :
  exists l,
    search sample_ratio sample_str true true (Raise (ExternalError "timeout"))
           "zebra" sample_catalog = Ok (SmartResults l)
    /\ List.length l = 2%nat.
Proof.
  destruct (@fuzzy_fallback_size sample_ratio sample_str true true
              (Raise (ExternalError "timeout")) "zebra" sample_catalog)
    as (l & Hs & Hlen & _).
  - discriminate.
  - discriminate.
  - vm_compute. reflexivity.
  - right. eexists. reflexivity.
  - exists l. split; [exact Hs | exact Hlen].
Defined.


(** The same through [import_all_data]: of three comments and two links
    without id under one key, one comment and one link are stored. *)
Example import_anonymous_records :
  let doc :=
    JDict [("comments",
            JDict [("k", JList [first_anonymous; second_anonymous; third_anonymous])]);
           ("external_links",
            JDict [("k", JList [JDict [("title", JStr "t1"); ("url", JStr "u1")];
                                JDict [("title", JStr "t2"); ("url", JStr "u2")]])])] in
  let res := import_all_data fixed_clock doc empty_stores in
  fst res = mkResults 0 1 1 []
  /\ comments_of (snd res) "k" = [first_anonymous]
  /\ links_of (snd res) "k" = [JDict [("title", JStr "t1"); ("url", JStr "u1")]].
Proof. vm_compute. repeat split; reflexivity. Qed.

(** A document whose tools are fine and whose second comment has a list
    for an id: the catalog is saved, the comments section stops on
    [TypeError] with one comment counted and none saved. *)
Example import_partial_success_example :
  let doc :=
    JDict [("tools", JList [JDict [("name", JStr "A"); ("link", JStr "x")]]);
           ("comments",
            JDict [("k", JList [JDict [("id", JStr "c1"); ("author", JStr "ann");
                                       ("content", JStr "fine")];
                                JDict [("id", JList []); ("author", JStr "bob");
                                       ("content", JStr "odd")]])])] in
  let res := import_all_data fixed_clock doc empty_stores in
  fst res = mkResults 1 1 0 [ImportFailed TypeError]
  /\ List.length (catalog (snd res)) = 1%nat
  /\ comments_of (snd res) "k" = [].
Proof. vm_compute. repeat split; reflexivity. Qed.

(* ===================================================================== *)
(** * The format of the ids *)
(* ===================================================================== *)

Section IdFormat.

Lemma hex_digit_is_hex (x : Z) : 0 <= x < 16 -> is_hex (SHA1.hex_digit x) = true.
Proof.
  intros H.
  assert (Hx : x = 0 \/ x = 1 \/ x = 2 \/ x = 3 \/ x = 4 \/ x = 5 \/ x = 6 \/ x = 7
               \/ x = 8 \/ x = 9 \/ x = 10 \/ x = 11 \/ x = 12 \/ x = 13 \/ x = 14
               \/ x = 15) by lia.
  repeat (destruct Hx as [-> | Hx]; [vm_compute; reflexivity|]).
  subst x. vm_compute. reflexivity.
Qed.

Lemma all_chars_app (p : ascii -> bool) (a b : string) :
  all_chars p (a ++ b)%string = all_chars p a && all_chars p b.
Proof.
  induction a as [|c a IH]; simpl; [reflexivity|].
  rewrite IH. apply andb_assoc.
Qed.

Lemma hex32_format (x : Z) :
  String.length (SHA1.hex32 x) = 8%nat /\ all_chars is_hex (SHA1.hex32 x) = true.
Proof.
  unfold SHA1.hex32. cbn [map string_of_list_ascii String.length all_chars].
  split; [reflexivity|].
  rewrite !hex_digit_is_hex by (apply Z.mod_pos_bound; lia).
  reflexivity.
Qed.

Lemma take_app_length (a b : string) : PyStr.take (String.length a) (a ++ b) = a.
Proof. induction a as [|c a IH]; simpl; [destruct b|rewrite IH]; reflexivity. Qed.

Lemma string_length_app (a b : string) :
  String.length (a ++ b) = (String.length a + String.length b)%nat.
Proof. induction a as [|c a IH]; simpl; [|rewrite IH]; reflexivity. Qed.

(** The first 8 and the first 16 characters of a digest. *)
Lemma hexdigest_take (s : string) :
  (String.length (PyStr.take 8 (SHA1.hexdigest s)) = 8%nat
   /\ all_chars is_hex (PyStr.take 8 (SHA1.hexdigest s)) = true)
  /\ (String.length (PyStr.take 16 (SHA1.hexdigest s)) = 16%nat
      /\ all_chars is_hex (PyStr.take 16 (SHA1.hexdigest s)) = true).
Proof.
  unfold SHA1.hexdigest.
  destruct (SHA1.digest _) as [[[[h0 h1] h2] h3] h4].
  destruct (hex32_format h0) as [L0 A0], (hex32_format h1) as [L1 A1].
  split.
  - replace 8%nat with (String.length (SHA1.hex32 h0)) at 1 3 by exact L0.
    rewrite take_app_length. split; [exact L0 | exact A0].
  - rewrite <- string_app_assoc.
    replace 16%nat with (String.length (SHA1.hex32 h0 ++ SHA1.hex32 h1)) at 1 3
      by (rewrite string_length_app, L0, L1; reflexivity).
    rewrite take_app_length, string_length_app, all_chars_app, L0, L1, A0, A1.
    split; reflexivity.
Qed.

Lemma tool_id_shape (obj : json) (i : string) :
  tool_id obj = Ok i ->
  String.length i = 16%nat /\ all_chars is_hex i = true.
Proof.
  unfold tool_id. destruct (payload obj) as [p|e]; [|discriminate].
  cbn [bind]. intros H.
  replace i with (PyStr.take 16 (SHA1.hexdigest p)) by congruence.
  apply hexdigest_take.
Qed.

Lemma tool_id_truthy (obj : json) (i : string) :
  tool_id obj = Ok i -> Py.truthy (JStr i) = true.
Proof.
  intros H. destruct (tool_id_shape _ H) as [L _].
  destruct i; [discriminate|reflexivity].
Qed.

End IdFormat.

(* ===================================================================== *)
(** * Removing duplicates *)
(* ===================================================================== *)

Section DedupeFacts.

Lemma key_eqb_eq (a b : Py.key) : Py.key_eqb a b = true <-> a = b.
Proof.
  destruct a, b; simpl; split; intros H; try discriminate; try reflexivity.
  - apply Z.eqb_eq in H. congruence.
  - inversion H. apply Z.eqb_refl.
  - apply String.eqb_eq in H. congruence.
  - inversion H. apply String.eqb_refl.
Qed.

Lemma mem_in (k : Py.key) (s : Py.set) : Py.mem k s = true <-> In k s.
Proof.
  unfold Py.mem. rewrite existsb_exists. split.
  - intros (x & Hx & He). apply key_eqb_eq in He. subst x. exact Hx.
  - intros H. exists k. split; [exact H|]. apply key_eqb_eq. reflexivity.
Qed.

Lemma mem_not_in (k : Py.key) (s : Py.set) : Py.mem k s = false <-> ~ In k s.
Proof.
  rewrite <- mem_in. destruct (Py.mem k s); split; intros; congruence.
Qed.

Lemma assign_same (k : string) (v : json) (kv : list (string * json)) :
  Py.assoc k kv = Some v -> Py.assign k v kv = kv.
Proof.
  induction kv as [|[k' v'] kv IH]; simpl; [discriminate|].
  destruct (String.eqb k k') eqn:E.
  - intros H. congruence.
  - intros H. rewrite (IH H). reflexivity.
Qed.

Lemma carries_identified (t : json) (k : Py.key) :
  carries t k -> identified t = Ok (t, k).
Proof.
  intros (kv & tid & -> & Ha & Ht & Hh).
  unfold identified, id_or_computed. simpl. unfold Py.get_or. rewrite Ha, Ht.
  simpl. rewrite Hh. simpl. rewrite (assign_same _ _ Ha). reflexivity.
Qed.

Lemma identified_carries (t t' : json) (k : Py.key) :
  identified t = Ok (t', k) -> carries t' k.
Proof.
  unfold identified, id_or_computed.
  destruct t as [| | | | |kv]; try discriminate.
  cbn [Py.get bind]. destruct (Py.truthy (Py.get_or kv "id" JNull)) eqn:Ht.
  - cbn [bind]. destruct (Py.hash _) as [k0|] eqn:Hh; [|discriminate].
    cbn [bind set_item]. intros H. inversion H; subst. 
    eexists _, _. split; [reflexivity|]. rewrite assoc_assign_same. auto.
  - destruct (tool_id (JDict kv)) as [s|] eqn:Hs; [|discriminate].
    cbn [bind Py.hash set_item]. intros H. inversion H; subst.
    eexists _, _. split; [reflexivity|]. rewrite assoc_assign_same.
    split; [reflexivity|]. split; [|reflexivity].
    eapply tool_id_truthy. exact Hs.
Qed.

(** The loop in terms of [identified]. *)
Lemma dedupe_loop_step (t : json) (tools : list json) (seen : Py.set) (out : list json) :
  dedupe_loop (t :: tools) seen out
  = x <- identified t ;;
    if Py.mem (snd x) seen then dedupe_loop tools seen out
    else dedupe_loop tools (Py.add seen (snd x)) (out ++ [fst x]).
Proof.
  cbn [dedupe_loop]. unfold identified.
  destruct (id_or_computed t) as [tid|e] eqn:Hid; [|reflexivity].
  cbn [bind]. destruct (Py.hash tid) as [k|e]; [|reflexivity].
  cbn [bind].
  assert (Hd : exists kv, t = JDict kv).
  { unfold id_or_computed in Hid. destruct t; try discriminate. eauto. }
  destruct Hd as [kv ->]. cbn [set_item bind fst snd].
  destruct (Py.mem k seen); reflexivity.
Qed.

Lemma carries_id_set (out : list json) (seen : Py.set) :
  Forall2 carries out seen ->
  Py.id_set (JList out) = Ok seen /\ forallb has_id out = true.
Proof.
  unfold Py.id_set. cbn [Py.iter bind].
  induction 1 as [|t k out seen (kv & tid & -> & Ha & Ht & Hh) _ [IH1 IH2]];
    [split; reflexivity|].
  cbn [mapM Py.get bind forallb]. unfold Py.get_or. rewrite Ha. cbn [bind].
  rewrite Hh, IH1. cbn [bind]. split; [reflexivity|].
  unfold has_id at 1. simpl. unfold Py.lookup, Py.get_or. rewrite Ha, Ht, IH2.
  reflexivity.
Qed.

(** The invariant of the loop: [out] holds one entry per element of
    [seen], in the same order, and no element twice. *)
Lemma dedupe_loop_invariant (tools : list json) :
  forall (seen : Py.set) (out res : list json),
    dedupe_loop tools seen out = Ok res ->
    Forall2 carries out seen -> NoDup seen ->
    exists seen', Forall2 carries res seen' /\ NoDup seen'.
Proof.
  induction tools as [|t tools IH]; intros seen out res H Hc Hn.
  - simpl in H. inversion H; subst. eauto.
  - rewrite dedupe_loop_step in H.
    destruct (identified t) as [[t' k]|e] eqn:Hid; [|discriminate].
    cbn [bind fst snd] in H.
    destruct (Py.mem k seen) eqn:Hm.
    + eapply IH; eassumption.
    + eapply IH; [exact H| |].
      * apply Forall2_app; [exact Hc|]. constructor; [|constructor].
        eapply identified_carries. exact Hid.
      * unfold Py.add. apply NoDup_app; [exact Hn|repeat constructor; simpl; tauto|].
        intros x Hx [<-|[]]. apply mem_not_in in Hm. contradiction.
Qed.

(** On entries that carry different ids the loop keeps everything. *)
Lemma dedupe_loop_keeps (l : list json) :
  forall (ks seen : Py.set) (out : list json),
    Forall2 carries l ks -> NoDup (seen ++ ks) ->
    dedupe_loop l seen out = Ok (out ++ l).
Proof.
  induction l as [|t l IH]; intros ks seen out Hc Hn.
  - simpl. rewrite app_nil_r. reflexivity.
  - inversion Hc as [|t0 k l0 ks' Ht Hl]; subst.
    rewrite dedupe_loop_step, (carries_identified Ht). cbn [bind fst snd].
    assert (Hm : Py.mem k seen = false).
    { apply mem_not_in. intros Hin.
      apply NoDup_remove_2 in Hn. apply Hn. apply in_or_app. left. exact Hin. }
    rewrite Hm. unfold Py.add.
    rewrite (IH ks' (seen ++ [k]) (out ++ [t]) Hl).
    + rewrite <- app_assoc. reflexivity.
    + rewrite <- app_assoc. exact Hn.
Qed.

Lemma dedupe_tools_carries (l out : list json) :
  dedupe_tools l = Ok out ->
  exists seen, Forall2 carries out seen /\ NoDup seen.
Proof.
  intros H. eapply dedupe_loop_invariant; [exact H| constructor | constructor].
Qed.

Lemma filter_filter {A : Type} (f g : A -> bool) (l : list A) :
  filter f (filter g l) = filter (fun x => g x && f x) l.
Proof.
  induction l as [|a l IH]; simpl; [reflexivity|].
  destruct (g a); simpl; [destruct (f a)|]; rewrite IH; reflexivity.
Qed.

Lemma key_eqb_sym (a b : Py.key) : Py.key_eqb a b = Py.key_eqb b a.
Proof.
  destruct a, b; simpl; try reflexivity; [apply Z.eqb_sym | apply String.eqb_sym].
Qed.

(** What the loop returns, from any state. *)
Lemma dedupe_loop_first (l : list json) :
  forall (seen : Py.set) (out res : list json),
    dedupe_loop l seen out = Ok res ->
    exists xs,
      mapM identified l = Ok xs
      /\ res = out ++ map fst (filter (fun y => negb (Py.mem (snd y) seen))
                                      (first_occurrences xs)).
Proof.
  induction l as [|t l IH]; intros seen out res H.
  - simpl in H. inversion H; subst. exists []. simpl. rewrite app_nil_r. auto.
  - rewrite dedupe_loop_step in H.
    destruct (identified t) as [[t' k]|e] eqn:Hid; [|discriminate].
    cbn [bind fst snd] in H.
    destruct (Py.mem k seen) eqn:Hm.
    + destruct (IH _ _ _ H) as (xs & Hxs & Hres).
      exists ((t', k) :: xs). cbn [mapM bind]. rewrite Hid, Hxs. cbn [bind].
      split; [reflexivity|]. rewrite Hres. f_equal. f_equal.
      cbn [first_occurrences filter snd]. rewrite Hm. cbn [negb].
      rewrite filter_filter. apply filter_ext_in. intros [y ky] _. cbn [snd].
      destruct (Py.key_eqb ky k) eqn:E; [|reflexivity].
      apply key_eqb_eq in E. subst ky. rewrite Hm. reflexivity.
    + destruct (IH _ _ _ H) as (xs & Hxs & Hres).
      exists ((t', k) :: xs). cbn [mapM bind]. rewrite Hid, Hxs. cbn [bind].
      split; [reflexivity|]. rewrite Hres, <- app_assoc. f_equal.
      cbn [first_occurrences filter snd]. rewrite Hm. cbn [negb map fst app].
      f_equal. f_equal. rewrite filter_filter. apply filter_ext. intros [y ky].
      cbn [snd]. unfold Py.add. rewrite mem_app. simpl.
      rewrite orb_false_r, negb_orb, andb_comm. reflexivity.
Qed.

End DedupeFacts.

(** X1.  [dedupe_tools] is idempotent: a list it returned is
    returned unchanged when passed to it again. *)
Theorem dedupe_tools_idempotent (tools out : list json) :
  dedupe_tools tools = Ok out -> dedupe_tools out = Ok out.
Proof.
  intros H. destruct (dedupe_tools_carries _ H) as (seen & Hc & Hn).
  unfold dedupe_tools. apply (@dedupe_loop_keeps out seen [] [] Hc Hn).
Qed.

Lemma dedupe_tools_idempotent_witness :
  exists out,
    dedupe_tools catalog_with_duplicate = Ok out
    /\ List.length out = 2%nat
    /\ dedupe_tools out = Ok out.
Proof.
  eexists.
  assert (H : dedupe_tools catalog_with_duplicate = Ok _) by (vm_compute; reflexivity).
  split; [exact H|]. split; [reflexivity|].
  apply (dedupe_tools_idempotent catalog_with_duplicate H).
Defined.

(** X2.  The list [dedupe_tools] returns has no two entries with the
    same id, and every entry of it carries an id that counts as true: it
    is neither missing, nor null, nor empty. *)
Theorem dedupe_tools_distinct_ids (tools out : list json) :
  dedupe_tools tools = Ok out ->
  distinct_ids out /\ forallb has_id out = true.
Proof.
  intros H. destruct (dedupe_tools_carries _ H) as (seen & Hc & Hn).
  destruct (carries_id_set Hc) as [Hs Hi].
  split; [exists seen; auto | exact Hi].
Qed.

Lemma dedupe_tools_distinct_ids_witness :
  dedupe_tools catalog_with_duplicate
  = Ok [JDict [("name", JStr "ChatGPT"); ("link", JStr "https://chat.openai.com");
               ("id", JStr "6f8255065a2a2a73")];
        JDict [("id", JStr "legacy-1"); ("name", JStr "Other"); ("link", JStr "x")]]
  /\ distinct_ids
       [JDict [("name", JStr "ChatGPT"); ("link", JStr "https://chat.openai.com");
               ("id", JStr "6f8255065a2a2a73")];
        JDict [("id", JStr "legacy-1"); ("name", JStr "Other"); ("link", JStr "x")]].
Proof.
  assert (H : dedupe_tools catalog_with_duplicate
              = Ok [JDict [("name", JStr "ChatGPT"); ("link", JStr "https://chat.openai.com");
                           ("id", JStr "6f8255065a2a2a73")];
                    JDict [("id", JStr "legacy-1"); ("name", JStr "Other");
                           ("link", JStr "x")]])
    by (vm_compute; reflexivity).
  split; [exact H|].
  apply (dedupe_tools_distinct_ids catalog_with_duplicate H).
Defined.

(** X3.  [dedupe_tools] keeps the first entry of every id, in the
    order of the input: the id of an entry being the one it carries or,
    when it carries none, the one [tool_id] computes, the list returned
    holds the entries whose id no earlier entry has, each with its id
    written. *)
Theorem dedupe_tools_first_occurrences (tools out : list json) :
  dedupe_tools tools = Ok out ->
  exists xs,
    mapM identified tools = Ok xs
    /\ out = map fst (first_occurrences xs).
Proof.
  intros H. destruct (dedupe_loop_first _ _ _ H) as (xs & Hxs & Hres).
  exists xs. split; [exact Hxs|]. rewrite Hres. simpl.
  f_equal. clear. induction (first_occurrences xs) as [|y l IH]; simpl; congruence.
Qed.

Lemma dedupe_tools_first_occurrences_witness :
  exists out xs,
    dedupe_tools catalog_with_duplicate = Ok out
    /\ mapM identified catalog_with_duplicate = Ok xs
    /\ List.length xs = 3%nat
    /\ out = map fst (first_occurrences xs).
Proof.
  assert (H : dedupe_tools catalog_with_duplicate
              = Ok [JDict [("name", JStr "ChatGPT"); ("link", JStr "https://chat.openai.com");
                           ("id", JStr "6f8255065a2a2a73")];
                    JDict [("id", JStr "legacy-1"); ("name", JStr "Other");
                           ("link", JStr "x")]])
    by (vm_compute; reflexivity).
  destruct (dedupe_tools_first_occurrences catalog_with_duplicate H) as (xs & Hxs & Hout).
  eexists _, xs. split; [exact H|]. split; [exact Hxs|]. split; [|exact Hout].
  rewrite (mapM_length _ _ Hxs). reflexivity.
Defined.

(** X5.  The id [tool_id] returns is made of 16 lowercase hexadecimal
    digits, whatever the entry. *)
Theorem tool_id_format (obj : json) (i : string) :
  tool_id obj = Ok i ->
  String.length i = 16%nat /\ all_chars is_hex i = true.
Proof. apply tool_id_shape. Qed.

Lemma tool_id_format_witness :
  tool_id chatgpt = Ok "3de647d38803769b"
  /\ String.length "3de647d38803769b" = 16%nat.
Proof.
  assert (H : tool_id chatgpt = Ok "3de647d38803769b") by (vm_compute; reflexivity).
  split; [exact H|].
  apply (tool_id_format chatgpt H).
Defined.

Section DedupeFixedPoints.

Lemma ids_carries (l : list json) :
  forall ids : Py.set,
    Py.id_set (JList l) = Ok ids ->
    forallb has_id l = true ->
    Forall2 carries l ids.
Proof.
  unfold Py.id_set. cbn [Py.iter bind].
  induction l as [|t l IH]; intros ids Hids Hall.
  - simpl in Hids. inversion Hids. constructor.
  - cbn [mapM forallb] in *. apply andb_true_iff in Hall. destruct Hall as [Ht Hl].
    destruct t as [| | | | |kv]; try discriminate.
    cbn [Py.get bind] in Hids.
    destruct (Py.hash (Py.get_or kv "id" JNull)) as [k|] eqn:Hk; [|discriminate].
    cbn [bind] in Hids.
    destruct (mapM _ l) as [ids0|]; [|discriminate]. cbn [bind] in Hids.
    replace ids with (k :: ids0) by congruence.
    constructor; [|apply IH; [reflexivity | exact Hl]].
    unfold has_id, field, Py.lookup, Py.get_or in Ht. unfold Py.get_or in Hk.
    destruct (Py.assoc "id" kv) as [tid|] eqn:Ha; [|discriminate].
    exists kv, tid. auto.
Qed.

End DedupeFixedPoints.

(** X4.  The lists [dedupe_tools] returns unchanged are exactly those
    whose entries carry ids that count as true and are pairwise
    different. *)
Theorem dedupe_tools_fixed_points (l : list json) :
  dedupe_tools l = Ok l <-> distinct_ids l /\ forallb has_id l = true.
Proof.
  split.
  - intros H. destruct (dedupe_tools_carries _ H) as (seen & Hc & Hn).
    destruct (carries_id_set Hc) as [Hs Hi].
    split; [exists seen; auto | exact Hi].
  - intros [(ids & Hids & Hn) Hall].
    unfold dedupe_tools.
    apply (@dedupe_loop_keeps l ids [] [] (ids_carries _ Hids Hall) Hn).
Qed.

(* ===================================================================== *)
(** * Comments and links: add, read, delete *)
(* ===================================================================== *)

Section AnnotationFacts.

Lemma get_assign_same (kv : list (string * json)) (k : string) (v d : json) :
  Py.get_or (Py.assign k v kv) k d = v.
Proof. unfold Py.get_or. rewrite assoc_assign_same. reflexivity. Qed.





Lemma load_comments_view (w : World) :
  fst (load_comments (snd (load_comments w))) = fst (load_comments w)
  /\ same_but_comments w (snd (load_comments w)).
Proof.
  unfold load_comments, same_but_comments.
  destruct (comments_file w) eqn:Hf; simpl; try rewrite Hf; auto.
Qed.

Lemma load_links_view (w : World) :
  fst (load_links (snd (load_links w))) = fst (load_links w)
  /\ same_but_links w (snd (load_links w)).
Proof.
  unfold load_links, same_but_links.
  destruct (links_file w) eqn:Hf; simpl; try rewrite Hf; auto.
Qed.



Lemma load_saved_comments (s : json) (w : World) :
  fst (load_comments (save_comments s w)) = s
  /\ same_but_comments w (save_comments s w).
Proof. unfold same_but_comments. simpl. auto. Qed.

Lemma load_saved_links (s : json) (w : World) :
  fst (load_links (save_links s w)) = s
  /\ same_but_links w (save_links s w).
Proof. unfold same_but_links. simpl. auto. Qed.

Lemma same_but_comments_trans (w1 w2 w3 : World) :
  same_but_comments w1 w2 -> same_but_comments w2 w3 -> same_but_comments w1 w3.
Proof. unfold same_but_comments. intuition congruence. Qed.

Lemma same_but_links_trans (w1 w2 w3 : World) :
  same_but_links w1 w2 -> same_but_links w2 w3 -> same_but_links w1 w3.
Proof. unfold same_but_links. intuition congruence. Qed.








End AnnotationFacts.












(** X25.  The id given to a new comment and to a new link is made of 8
    lowercase hexadecimal digits. *)
Theorem new_record_id_format (now_id now_other key a b c d : string) (rating : Z) :
  (exists i,
      field (new_comment now_id now_other key a b rating) "id" = JStr i
      /\ String.length i = 8%nat /\ all_chars is_hex i = true)
  /\ (exists i,
         field (new_link now_id now_other key a b c d) "id" = JStr i
         /\ String.length i = 8%nat /\ all_chars is_hex i = true).
Proof.
  split; eexists; (split; [reflexivity|]); unfold short_id; apply hexdigest_take.
Qed.



(* ===================================================================== *)
(** * What the import appends, and how it counts *)
(* ===================================================================== *)

Section ImportedEntries.

Lemma normalize_normalized (a b d c : string) (l : list json) (p : Z) (added : json)
      (i : string) :
  normalize_tool ""
    [("name", JStr a); ("link", JStr b); ("description", JStr d);
     ("category", JStr c); ("keywords", JList l); ("price_euros_1_to_5", JInt p);
     ("added_at", added); ("id", JStr i)]
  = Ok [("name", JStr (PyStr.strip a)); ("link", JStr (PyStr.strip b));
        ("description", JStr (PyStr.strip d)); ("category", JStr (PyStr.strip c));
        ("keywords", JList l); ("price_euros_1_to_5", JInt p);
        ("added_at", if Py.truthy added then added else JStr "")].
Proof. reflexivity. Qed.

(** The entry the import appends is one the import would normalize to
    itself: it is canonical. *)
Lemma normalized_canonical (now : string) (t n : list (string * json)) (i : string) :
  normalize_tool now t = Ok n ->
  tool_id (JDict n) = Ok i ->
  canonical_tool (JDict (Py.assign "id" (JStr i) n)) = true.
Proof.
  unfold normalize_tool. cbn [Py.get bind].
  destruct (Py.strip (Py.get_or t "name" (JStr ""))) as [a|] eqn:Ha; [|discriminate].
  destruct (Py.strip (Py.get_or t "link" (JStr ""))) as [b|] eqn:Hb; [|discriminate].
  destruct (Py.strip (Py.get_or t "description" (JStr ""))) as [d|] eqn:Hd; [|discriminate].
  destruct (Py.strip (Py.get_or t "category" (JStr ""))) as [c|] eqn:Hc; [|discriminate].
  cbn [bind]. cbv zeta.
  destruct (Py.int (Py.get_or t "price_euros_1_to_5" (JInt 3))) as [p|]; [|discriminate].
  cbn [bind]. intros Hn Hi.
  assert (Hsa : PyStr.strip a = a).
  { destruct (Py.get_or t "name" (JStr "")); try discriminate.
    simpl in Ha. inversion Ha. apply strip_strip. }
  assert (Hsb : PyStr.strip b = b).
  { destruct (Py.get_or t "link" (JStr "")); try discriminate.
    simpl in Hb. inversion Hb. apply strip_strip. }
  remember (match Py.lookup t "keywords" with JList l => JList l | _ => JList [] end)
    as kws eqn:Hk.
  remember (if Py.truthy (Py.lookup t "added_at") then Py.lookup t "added_at" else JStr now)
    as added eqn:Hadd.
  assert (Hkl : exists l, kws = JList l).
  { subst kws. destruct (Py.lookup t "keywords"); eauto. }
  destruct Hkl as [l Hl]. clear Hk Hadd. subst kws.
  inversion Hn; subst n. clear Hn.
  change (Py.assign "id" (JStr i)
            [("name", JStr a); ("link", JStr b); ("description", JStr d);
             ("category", JStr c); ("keywords", JList l);
             ("price_euros_1_to_5", JInt p); ("added_at", added)])
    with [("name", JStr a); ("link", JStr b); ("description", JStr d);
          ("category", JStr c); ("keywords", JList l);
          ("price_euros_1_to_5", JInt p); ("added_at", added); ("id", JStr i)].
  unfold canonical_tool. rewrite normalize_normalized.
  destruct (has_name_or_link _); [|reflexivity].
  unfold tool_id in *. rewrite payload_normalized in *. cbn [bind] in *.
  rewrite Hsa, Hsb.
  change (Py.lookup _ "id") with (JStr i). cbn [Py.is_str].
  apply String.eqb_eq. congruence.
Qed.

(** One turn of the tools loop leaves its state as it is, or appends one
    canonical entry whose id is new, and counts it. *)
Lemma import_tool_added (now : string) (t : json) (st st1 : tools_state)
      (r : option exn) :
  import_tool now t st = (r, st1) ->
  st1 = st
  \/ (r = None
      /\ exists l x i,
          Py.assoc "tools" (ts_db st) = Some (JList l)
          /\ canonical_tool (JDict x) = true
          /\ Py.hash (Py.get_or x "id" JNull) = Ok i
          /\ Py.mem i (ts_existing st) = false
          /\ ts_db st1 = Py.assign "tools" (JList (l ++ [JDict x])) (ts_db st)
          /\ ts_existing st1 = ts_existing st ++ [i]
          /\ ts_imported st1 = S (ts_imported st)).
Proof.
  unfold import_tool.
  destruct t; try (intros H; inversion H; auto).
  revert H. destruct (has_name_or_link kv); [|intros H; inversion H; auto].
  destruct (normalize_tool now kv) as [n|] eqn:Hn; [|intros H; inversion H; auto].
  destruct (tool_id _) as [i|] eqn:Hi; [|intros H; inversion H; auto].
  destruct (Py.mem _ _) eqn:Hm; [intros H; inversion H; auto|].
  pose proof (append_at_slot (ts_db st) (JDict (Py.assign "id" (JStr i) n))) as Ha.
  destruct (slot (ts_db st)).
  - rewrite Ha. intros H; inversion H; auto.
  - destruct Ha as (l & Hl & Ha). rewrite Ha. intros H; inversion H; subst.
    right. split; [reflexivity|].
    exists l, (Py.assign "id" (JStr i) n), (Py.KStr i).
    cbn [ts_db ts_existing ts_imported]. unfold Py.get_or. rewrite assoc_assign_same.
    repeat split; auto.
    eapply normalized_canonical; eassumption.
Qed.

(** The list under ["tools"] of the catalog in memory. *)
Lemma tools_of_assign (l : list json) (db : list (string * json)) :
  tools_of (JDict (Py.assign "tools" (JList l) db)) = l.
Proof. simpl. rewrite assoc_assign_same. reflexivity. Qed.

(** The loop appends canonical entries with new, different ids, and counts
    each of them. *)
Lemma import_tools_loop_added (now : nat -> string) (tools : list json) :
  forall (i : nat) (st st1 : tools_state) (r : option exn),
    import_tools_loop now i tools st = (r, st1) ->
    exists added ids,
      tools_of (JDict (ts_db st1)) = tools_of (JDict (ts_db st)) ++ added
      /\ (ts_imported st1 = ts_imported st + List.length added)%nat
      /\ forallb canonical_tool added = true
      /\ ts_existing st1 = ts_existing st ++ ids
      /\ (NoDup (ts_existing st) -> NoDup (ts_existing st1))
      /\ (added = [] /\ ts_db st1 = ts_db st
          \/ exists l, Py.assoc "tools" (ts_db st) = Some (JList l)
                       /\ ts_db st1 = Py.assign "tools" (JList (l ++ added)) (ts_db st)).
Proof.
  induction tools as [|t tools IH]; intros i st st1 r H.
  - simpl in H. inversion H; subst. exists [], [].
    rewrite !app_nil_r, Nat.add_0_r. repeat split; auto.
  - cbn [import_tools_loop] in H.
    destruct (import_tool (now i) t st) as [ro st'] eqn:Hstep.
    destruct (import_tool_added _ _ _ Hstep)
      as [-> | (-> & l & x & k & Hl & Hx & Hk & Hm & Hdb & Hex & Hn)].
    + destruct ro; [|eapply IH; exact H].
      inversion H; subst. exists [], [].
      rewrite !app_nil_r, Nat.add_0_r. repeat split; auto.
    + destruct (IH _ _ _ _ H) as (added & ids & Ht & Hc & Hcan & Hids & Hnd & Hshape).
      exists (JDict x :: added), (k :: ids).
      rewrite Hdb, tools_of_assign in Ht.
      split; [|split; [|split; [|split; [|split]]]].
      * rewrite Ht. simpl. rewrite Hl, <- app_assoc. reflexivity.
      * rewrite Hc, Hn. simpl. lia.
      * cbn [forallb]. rewrite Hx, Hcan. reflexivity.
      * rewrite Hids, Hex, <- app_assoc. reflexivity.
      * intros Hno. apply Hnd. rewrite Hex.
        apply NoDup_app; [exact Hno|repeat constructor; simpl; tauto|].
        intros y Hy [<-|[]]. apply mem_not_in in Hm. contradiction.
      * right. exists l. split; [exact Hl|].
        destruct Hshape as [[-> ->] | (l' & Hl' & ->)].
        -- exact Hdb.
        -- rewrite Hdb, assoc_assign_same in Hl'. inversion Hl'; subst l'.
           rewrite Hdb, assign_assign, <- app_assoc. reflexivity.
Qed.

(** What [load_db] gives after the tools section: what it gave before, the
    section having failed, or the catalog the loop left in memory. *)
Lemma import_tools_outcome (now : nat -> string) (tools : list json) (w w1 : World)
      (r : option exn) (n : nat) :
  import_tools now tools w = (r, n, w1) ->
  (r <> None /\ fst (load_db w1) = fst (load_db w))
  \/ exists kv existing st,
       fst (load_db w) = JDict kv
       /\ Py.id_set (Py.get_or kv "tools" (JList [])) = Ok existing
       /\ import_tools_loop now 0 tools (mkToolsState kv existing 0) = (r, st)
       /\ n = ts_imported st
       /\ fst (load_db w1) = JDict (ts_db st).
Proof.
  unfold import_tools, load_db, load_db_shares_default, DEFAULT_DB.
  destruct (db_file w) as [| |j] eqn:Hw.
  - destruct (Py.id_set _) as [ids|e] eqn:Hids.
    + destruct (import_tools_loop now 0 tools _) as [ro st] eqn:Hloop.
      destruct ro; intros H; inversion H; subst; clear H.
      * left. split; [discriminate|]. rewrite publish_default_db_file. reflexivity.
      * right. eexists _, _, _. repeat split; try eassumption; reflexivity.
    + intros H; inversion H; subst. left. split; [discriminate|reflexivity].
  - destruct (Py.id_set _) as [ids|e] eqn:Hids.
    + destruct (import_tools_loop now 0 tools _) as [ro st] eqn:Hloop.
      destruct ro; intros H; inversion H; subst; clear H.
      * right. eexists _, _, _. repeat split; try eassumption; try reflexivity.
        rewrite publish_default_db_file, Hw.
        destruct (import_tools_loop_added _ _ _ _ Hloop)
          as (added & ids' & _ & _ & _ & _ & _ & [[_ Hdb] | (l & Hl & Hdb)]).
        -- rewrite Hdb. cbn [ts_db]. unfold publish_default. simpl.
           destruct w; reflexivity.
        -- rewrite Hdb. cbn [ts_db]. unfold publish_default. simpl. reflexivity.
      * right. eexists _, _, _. repeat split; try eassumption; reflexivity.
    + intros H; inversion H; subst. left. split; [discriminate|].
      rewrite Hw. reflexivity.
  - destruct j as [| | | | |kv];
      try (intros H; inversion H; subst; left; split; [discriminate|];
           rewrite Hw; reflexivity).
    destruct (Py.id_set _) as [ids|e] eqn:Hids.
    + destruct (import_tools_loop now 0 tools _) as [ro st] eqn:Hloop.
      destruct ro; intros H; inversion H; subst; clear H.
      * left. split; [discriminate|]. rewrite Hw. reflexivity.
      * right. eexists _, _, _. repeat split; try eassumption; reflexivity.
    + intros H; inversion H; subst. left. split; [discriminate|].
      rewrite Hw. reflexivity.
Qed.

Lemma load_db_depends (a b : World) :
  db_file a = db_file b -> DEFAULT_DB_tools a = DEFAULT_DB_tools b ->
  fst (load_db a) = fst (load_db b).
Proof.
  unfold load_db, DEFAULT_DB. intros -> ->. destruct (db_file b); reflexivity.
Qed.

(** The tools section keeps the ids of the catalog different. *)
Lemma import_tools_distinct (now : nat -> string) (tools : list json) (w w1 : World)
      (r : option exn) (n : nat) :
  import_tools now tools w = (r, n, w1) ->
  distinct_ids (catalog w) -> distinct_ids (catalog w1).
Proof.
  intros H Hd. unfold catalog in *.
  destruct (import_tools_outcome _ _ _ H)
    as [[_ ->] | (kv & existing & st & Hkv & Hex & Hloop & _ & ->)]; [exact Hd|].
  rewrite Hkv in Hd.
  pose proof (@import_tools_loop_ids now tools 0%nat _ st r Hloop) as Hids.
  unfold ids_in_step in Hids. cbn [ts_db ts_existing] in Hids.
  specialize (Hids Hex).
  destruct (import_tools_loop_added _ _ _ _ Hloop)
    as (added & ids & _ & _ & _ & _ & Hnd & [[_ Hdb] | (l & Hl & Hdb)]).
  - rewrite Hdb. exact Hd.
  - cbn [ts_db ts_existing] in *. rewrite Hdb in *.
    rewrite tools_of_assign. unfold Py.get_or in Hids, Hex.
    rewrite assoc_assign_same in Hids. rewrite Hl in Hex.
    exists (ts_existing st). split; [exact Hids|]. apply Hnd.
    destruct Hd as (ids0 & Hids0 & Hn0). simpl in Hids0. rewrite Hl in Hids0.
    replace existing with ids0 by congruence. exact Hn0.
Qed.

(** The tools section, when it completes, counts what the catalog
    gained. *)
Lemma import_tools_count (now : nat -> string) (tools : list json) (w w1 : World)
      (n : nat) :
  import_tools now tools w = (None, n, w1) ->
  List.length (catalog w1) = (List.length (catalog w) + n)%nat.
Proof.
  intros H. unfold catalog.
  destruct (import_tools_outcome _ _ _ H)
    as [[Hr _] | (kv & existing & st & Hkv & Hex & Hloop & -> & ->)]; [congruence|].
  rewrite Hkv.
  destruct (import_tools_loop_added _ _ _ _ Hloop) as (added & ids & Ht & Hc & _).
  cbn [ts_db ts_imported] in *. rewrite Ht, Hc, length_app. reflexivity.
Qed.


End ImportedEntries.

Section MergeCounts.

Variables f1 f2 : string.

Lemma total_assign_new (k : string) (kv : list (string * json)) :
  Py.assoc k kv = None ->
  total_records (JDict (Py.assign k (JList []) kv)) = total_records (JDict kv).
Proof.
  unfold total_records. induction kv as [|[k' v'] kv IH]; simpl; [reflexivity|].
  destruct (String.eqb k k'); [discriminate|]. intros H. simpl.
  rewrite (IH H). reflexivity.
Qed.

Lemma total_assign_append (k : string) (kv : list (string * json)) (l : list json)
      (x : json) :
  Py.assoc k kv = Some (JList l) ->
  total_records (JDict (Py.assign k (JList (l ++ [x])) kv))
  = S (total_records (JDict kv)).
Proof.
  unfold total_records. induction kv as [|[k' v'] kv IH]; simpl; [discriminate|].
  destruct (String.eqb k k').
  - intros H. inversion H; subst. simpl. rewrite length_app. simpl. lia.
  - intros H. simpl. rewrite (IH H). lia.
Qed.

Lemma ensure_key_total (s s1 : json) (k : string) :
  ensure_key s k = Ok s1 -> total_records s1 = total_records s.
Proof.
  destruct s as [| | |str|l|kv]; try discriminate; simpl.
  - destruct (PyStr.contains str k); [|discriminate]. intros H; inversion H; reflexivity.
  - destruct (existsb (Py.is_str k) l); [|discriminate]. intros H; inversion H; reflexivity.
  - destruct (Py.assoc k kv) eqn:E; intros H; inversion H; subst; [reflexivity|].
    apply (@total_assign_new k kv E).
Qed.

Lemma merge_item_count (k : string) (x : json) (s s1 : json) (n n1 : nat)
      (r : option exn) :
  merge_item f1 f2 k x (s, n) = (r, (s1, n1)) ->
  (total_records s1 + n = total_records s + n1)%nat.
Proof.
  unfold merge_item.
  destruct x as [| | | | |c]; try (intros H; inversion H; subst; lia).
  destruct (_ && _); [|intros H; inversion H; subst; lia].
  destruct (bind (subscript s k) _) as [ids|]; [|intros H; inversion H; subst; lia].
  destruct (Py.hash _) as [i|]; [|intros H; inversion H; subst; lia].
  destruct (Py.mem i ids); [intros H; inversion H; subst; lia|].
  destruct (append_item s k (JDict c)) as [s'|] eqn:Ha;
    [|intros H; inversion H; subst; lia].
  intros H; inversion H; subst. clear H.
  destruct s as [| | | | |kv]; try discriminate.
  simpl in Ha. unfold Py.append_at in Ha.
  destruct (Py.assoc k kv) as [[| | | |l|]|] eqn:E; try discriminate.
  simpl in Ha. inversion Ha; subst.
  rewrite (@total_assign_append k kv l (JDict c) E). lia.
Qed.

Lemma merge_items_count (k : string) (items : list json) :
  forall (s s1 : json) (n n1 : nat) (r : option exn),
    merge_items f1 f2 k items (s, n) = (r, (s1, n1)) ->
    (total_records s1 + n = total_records s + n1)%nat.
Proof.
  induction items as [|x items IH]; intros s s1 n n1 r H.
  - simpl in H. inversion H; subst. lia.
  - cbn [merge_items] in H.
    destruct (merge_item f1 f2 k x (s, n)) as [[e|] [s0 n0]] eqn:Hstep.
    + inversion H; subst. eapply merge_item_count; eassumption.
    + pose proof (@merge_item_count _ _ _ _ _ _ _ Hstep).
      pose proof (IH _ _ _ _ _ H). lia.
Qed.

Lemma merge_entries_count (entries : list (string * json)) :
  forall (s s1 : json) (n n1 : nat) (r : option exn),
    merge_entries f1 f2 entries (s, n) = (r, (s1, n1)) ->
    (total_records s1 + n = total_records s + n1)%nat.
Proof.
  induction entries as [|[k v] entries IH]; intros s s1 n n1 r H.
  - simpl in H. inversion H; subst. lia.
  - cbn [merge_entries] in H.
    destruct v as [| | | |items|]; try (eapply IH; exact H).
    cbn [fst snd] in H.
    destruct (ensure_key s k) as [s0|] eqn:Hkey; [|inversion H; subst; lia].
    pose proof (@ensure_key_total s s0 k Hkey) as Hk.
    destruct (merge_items f1 f2 k items (s0, n)) as [[e|] [s2 n2]] eqn:Hitems.
    + inversion H; subst. pose proof (@merge_items_count _ _ _ _ _ _ _ Hitems). lia.
    + pose proof (@merge_items_count _ _ _ _ _ _ _ Hitems).
      pose proof (IH _ _ _ _ _ H). lia.
Qed.

End MergeCounts.

Section StoresStayWellFormed.

Lemma distinct_assign (k : string) (v : json) (kv : list (string * json)) :
  distinct_keys kv = true -> distinct_keys (Py.assign k v kv) = true.
Proof.
  induction kv as [|[k' v'] kv IH]; simpl; [reflexivity|].
  destruct (Py.assoc k' kv) eqn:E; [discriminate|]. intros Hd.
  destruct (String.eqb k k') eqn:Ek; simpl.
  - rewrite E. exact Hd.
  - rewrite assoc_assign_other, E; [apply IH; exact Hd|].
    intros ->. rewrite String.eqb_refl in Ek. discriminate.
Qed.

Lemma forallb_assign (q : json -> bool) (k : string) (v : json)
      (kv : list (string * json)) :
  q v = true ->
  forallb (fun p => q (snd p)) kv = true ->
  forallb (fun p => q (snd p)) (Py.assign k v kv) = true.
Proof.
  intros Hv. induction kv as [|[k' v'] kv IH]; simpl; [rewrite Hv; reflexivity|].
  intros H. apply andb_true_iff in H. destruct H as [H1 H2].
  destruct (String.eqb k k'); simpl.
  - rewrite Hv, H2. reflexivity.
  - rewrite H1, (IH H2). reflexivity.
Qed.

Lemma assoc_forallb (q : json -> bool) (k : string) (v : json)
      (kv : list (string * json)) :
  Py.assoc k kv = Some v ->
  forallb (fun p => q (snd p)) kv = true -> q v = true.
Proof.
  induction kv as [|[k' v'] kv IH]; simpl; [discriminate|].
  intros Ha H. apply andb_true_iff in H. destruct H as [H1 H2].
  destruct (String.eqb k k'); [congruence | auto].
Qed.

(** A merge keeps a well-formed store well-formed. *)
Lemma grows_annotations_ok (s s' : json) :
  grows s s' -> annotations_ok s = true -> annotations_ok s' = true.
Proof.
  induction 1 as [s | kv k0 H0 | kv k0 l c i Hl Hi | s1 s2 s3 _ IH1 _ IH2]; auto.
  - unfold annotations_ok. intros H. apply andb_true_iff in H. destruct H as [Hd Hv].
    rewrite (distinct_assign _ _ _ Hd). simpl.
    apply (forallb_assign
             (fun v => match v with JList items => forallb record_ok items | _ => false end));
      [reflexivity | exact Hv].
  - unfold annotations_ok. intros H. apply andb_true_iff in H. destruct H as [Hd Hv].
    rewrite (distinct_assign _ _ _ Hd). simpl.
    apply (forallb_assign
             (fun v => match v with JList items => forallb record_ok items | _ => false end));
      [|exact Hv].
    pose proof (assoc_forallb
                  (fun v => match v with JList items => forallb record_ok items | _ => false end)
                  _ _ Hl Hv) as Hitems.
    simpl in Hitems. rewrite forallb_app, Hitems. simpl.
    unfold Py.lookup in Hi. unfold Py.lookup. rewrite Hi. reflexivity.
Qed.

(** What [load_comments] gives after the comments section, and what
    [load_links] gives after the links section. *)
Lemma import_comments_outcome (entries : list (string * json)) (w w1 : World)
      (r : option exn) (n : nat) :
  import_comments entries w = (r, n, w1) ->
  exists s',
    merge_entries "author" "content" entries (fst (load_comments w), O) = (r, (s', n))
    /\ fst (load_comments w1)
       = match r with None => s' | Some _ => fst (load_comments w) end.
Proof.
  unfold import_comments.
  destruct (load_comments_view w) as [Hview _].
  destruct (load_comments w) as [comments w0]. cbn [fst snd] in *.
  destruct (merge_entries _ _ _ _) as [[e|] [s' n']];
    intros H; inversion H; subst; exists s'; split; auto.
Qed.

Lemma import_links_outcome (entries : list (string * json)) (w w1 : World)
      (r : option exn) (n : nat) :
  import_links entries w = (r, n, w1) ->
  exists s',
    merge_entries "title" "url" entries (fst (load_links w), O) = (r, (s', n))
    /\ fst (load_links w1)
       = match r with None => s' | Some _ => fst (load_links w) end.
Proof.
  unfold import_links.
  destruct (load_links_view w) as [Hview _].
  destruct (load_links w) as [links w0]. cbn [fst snd] in *.
  destruct (merge_entries _ _ _ _) as [[e|] [s' n']];
    intros H; inversion H; subst; exists s'; split; auto.
Qed.

Lemma tools_section_views (now : nat -> string) (d : list (string * json))
      (w w1 : World) (r : option exn) (n : nat) :
  tools_section now d w = (r, n, w1) ->
  fst (load_comments w1) = fst (load_comments w)
  /\ fst (load_links w1) = fst (load_links w).
Proof.
  intros H. pose proof (tools_section_frame now d w) as F. rewrite H in F.
  destruct F as [Fc Fl].
  split; [apply load_comments_depends | apply load_links_depends]; assumption.
Qed.

Lemma comments_section_views (d : list (string * json)) (w w1 : World)
      (r : option exn) (n : nat) :
  comments_section d w = (r, n, w1) ->
  fst (load_db w1) = fst (load_db w)
  /\ fst (load_links w1) = fst (load_links w).
Proof.
  intros H. pose proof (comments_section_frame d w) as F. rewrite H in F.
  destruct F as (Fd & Fl & Ft).
  split; [apply load_db_depends | apply load_links_depends]; assumption.
Qed.

Lemma links_section_views (d : list (string * json)) (w w1 : World)
      (r : option exn) (n : nat) :
  links_section d w = (r, n, w1) ->
  fst (load_db w1) = fst (load_db w)
  /\ fst (load_comments w1) = fst (load_comments w).
Proof.
  intros H. pose proof (links_section_frame d w) as F. rewrite H in F.
  destruct F as (Fd & Fc & Ft).
  split; [apply load_db_depends | apply load_comments_depends]; assumption.
Qed.

(** A property of the stores that each section keeps is kept by the
    import. *)
Lemma import_all_data_keeps (P : World -> Prop) :
  (forall now d w r n w1, tools_section now d w = (r, n, w1) -> P w -> P w1) ->
  (forall d w r n w1, comments_section d w = (r, n, w1) -> P w -> P w1) ->
  (forall d w r n w1, links_section d w = (r, n, w1) -> P w -> P w1) ->
  forall now data w, P w -> P (snd (import_all_data now data w)).
Proof.
  intros Ht Hc Hl now data w Hw. unfold import_all_data.
  destruct data as [| | | | |d]; try exact Hw.
  destruct (tools_section now d w) as [[r1 n1] w1] eqn:H1.
  pose proof (Ht _ _ _ _ _ _ H1 Hw) as P1.
  destruct r1; [exact P1|].
  destruct (comments_section d w1) as [[r2 n2] w2] eqn:H2.
  pose proof (Hc _ _ _ _ _ H2 P1) as P2.
  destruct r2; [exact P2|].
  destruct (links_section d w2) as [[r3 n3] w3] eqn:H3.
  pose proof (Hl _ _ _ _ _ H3 P2) as P3.
  destruct r3; exact P3.
Qed.

(** An import that lists no failure ran its three sections to the end. *)
Lemma import_no_failure (now : nat -> string) (data : json) (w : World) :
  failures (fst (import_all_data now data w)) = [] ->
  exists d nt nc nl w1 w2 w3,
    data = JDict d
    /\ tools_section now d w = (None, nt, w1)
    /\ comments_section d w1 = (None, nc, w2)
    /\ links_section d w2 = (None, nl, w3)
    /\ import_all_data now data w = (mkResults nt nc nl (version_errors d), w3).
Proof.
  unfold import_all_data.
  destruct data as [| | | | |d]; try discriminate.
  destruct (tools_section now d w) as [[[e1|] n1] w1] eqn:H1.
  { cbn [fst]. rewrite failures_version. discriminate. }
  destruct (comments_section d w1) as [[[e2|] n2] w2] eqn:H2.
  { cbn [fst]. rewrite failures_version. discriminate. }
  destruct (links_section d w2) as [[[e3|] n3] w3] eqn:H3.
  { cbn [fst]. rewrite failures_version. discriminate. }
  intros _. exists d, n1, n2, n3, w1, w2, w3. repeat split; assumption.
Qed.

Lemma tools_section_distinct (now : nat -> string) (d : list (string * json))
      (w w1 : World) (r : option exn) (n : nat) :
  tools_section now d w = (r, n, w1) ->
  distinct_ids (catalog w) -> distinct_ids (catalog w1).
Proof.
  unfold tools_section.
  destruct (Py.assoc "tools" d) as [[]|];
    try solve [intros H; inversion H; subst; auto].
  intros H. eapply import_tools_distinct. exact H.
Qed.

Lemma tools_section_count (now : nat -> string) (d : list (string * json))
      (w w1 : World) (n : nat) :
  tools_section now d w = (None, n, w1) ->
  List.length (catalog w1) = (List.length (catalog w) + n)%nat.
Proof.
  unfold tools_section.
  destruct (Py.assoc "tools" d) as [[]|];
    try solve [intros H; inversion H; subst; lia].
  apply import_tools_count.
Qed.

Lemma comments_section_count (d : list (string * json)) (w w1 : World) (n : nat) :
  comments_section d w = (None, n, w1) ->
  total_records (fst (load_comments w1))
  = (total_records (fst (load_comments w)) + n)%nat.
Proof.
  unfold comments_section.
  destruct (Py.assoc "comments" d) as [[]|];
    try solve [intros H; inversion H; subst; lia].
  intros H. destruct (import_comments_outcome _ _ H) as (s' & Hm & ->).
  pose proof (@merge_entries_count _ _ _ _ _ _ _ _ Hm). lia.
Qed.

Lemma links_section_count (d : list (string * json)) (w w1 : World) (n : nat) :
  links_section d w = (None, n, w1) ->
  total_records (fst (load_links w1))
  = (total_records (fst (load_links w)) + n)%nat.
Proof.
  unfold links_section.
  destruct (Py.assoc "external_links" d) as [[]|];
    try solve [intros H; inversion H; subst; lia].
  intros H. destruct (import_links_outcome _ _ H) as (s' & Hm & ->).
  pose proof (@merge_entries_count _ _ _ _ _ _ _ _ Hm). lia.
Qed.

Lemma stores_ok_parts (w : World) :
  stores_ok w = true
  <-> catalog_ok (fst (load_db w)) = true
      /\ annotations_ok (fst (load_comments w)) = true
      /\ annotations_ok (fst (load_links w)) = true.
Proof.
  unfold stores_ok. rewrite !andb_true_iff. tauto.
Qed.




End StoresStayWellFormed.

(** X6.  The import keeps the ids of the catalog different: when the
    ids of the catalog can be put in a set and no two entries have the
    same id before [import_all_data], this still holds after it, whatever
    the document and whether or not the import met a failure. *)
Theorem import_keeps_ids_distinct (now : nat -> string) (data : json) (w : World) :
  distinct_ids (catalog w) ->
  distinct_ids (catalog (snd (import_all_data now data w))).
Proof.
  apply (import_all_data_keeps (fun w => distinct_ids (catalog w))).
  - intros now0 d w0 r n w1 H. exact (tools_section_distinct _ _ _ H).
  - intros d w0 r n w1 H. pose proof (comments_section_frame d w0) as F.
    rewrite H in F. destruct F as (Fd & _ & Ft).
    rewrite (catalog_depends _ _ Fd Ft). auto.
  - intros d w0 r n w1 H. pose proof (links_section_frame d w0) as F.
    rewrite H in F. destruct F as (Fd & _ & Ft).
    rewrite (catalog_depends _ _ Fd Ft). auto.
Qed.

Lemma import_keeps_ids_distinct_witness :
  distinct_ids (catalog sample_stores)
  /\ List.length (catalog (snd (import_all_data fixed_clock mixed_document sample_stores)))
     = 2%nat
  /\ distinct_ids (catalog (snd (import_all_data fixed_clock mixed_document sample_stores))).
Proof.
  assert (H : distinct_ids (catalog sample_stores)).
  { exists [Py.KStr "e4fef98d862ee147"]. split; [vm_compute; reflexivity|].
    constructor; [simpl; tauto | constructor]. }
  split; [exact H|]. split; [vm_compute; reflexivity|].
  apply (import_keeps_ids_distinct fixed_clock mixed_document sample_stores H).
Defined.

(** X7.  When [import_all_data] lists no failure, its counters are what
    the stores gained: the catalog is longer by [tools_imported], the
    comments store holds [comments_imported] more comments and the links
    store [links_imported] more links. *)
Theorem import_counts_what_was_added (now : nat -> string) (data : json) (w : World) :
  let res := import_all_data now data w in
  failures (fst res) = [] ->
  List.length (catalog (snd res))
  = (List.length (catalog w) + tools_imported (fst res))%nat
  /\ total_records (fst (load_comments (snd res)))
     = (total_records (fst (load_comments w)) + comments_imported (fst res))%nat
  /\ total_records (fst (load_links (snd res)))
     = (total_records (fst (load_links w)) + links_imported (fst res))%nat.
Proof.
  intros res Hf.
  destruct (import_no_failure now data w Hf)
    as (d & nt & nc & nl & w1 & w2 & w3 & -> & H1 & H2 & H3 & Hres).
  unfold res. rewrite Hres. cbn [fst snd tools_imported comments_imported links_imported].
  destruct (tools_section_views _ _ _ H1) as [V1c V1l].
  destruct (comments_section_views _ _ H2) as [V2d V2l].
  destruct (links_section_views _ _ H3) as [V3d V3c].
  split; [|split].
  - unfold catalog. rewrite V3d, V2d. apply (tools_section_count _ _ _ H1).
  - rewrite V3c, (comments_section_count _ _ H2), V1c. reflexivity.
  - rewrite (links_section_count _ _ H3), V2l, V1l. reflexivity.
Qed.

Lemma import_counts_what_was_added_witness :
  fst (import_all_data fixed_clock mixed_document sample_stores) = mkResults 1 1 1 []
  /\ List.length (catalog (snd (import_all_data fixed_clock mixed_document sample_stores)))
     = (List.length (catalog sample_stores) + 1)%nat.
Proof.
  assert (H : fst (import_all_data fixed_clock mixed_document sample_stores)
              = mkResults 1 1 1 []) by (vm_compute; reflexivity).
  split; [exact H|].
  destruct (import_counts_what_was_added fixed_clock mixed_document sample_stores)
    as (Ht & _ & _).
  - rewrite H. reflexivity.
  - rewrite Ht, H. reflexivity.
Defined.

(** X8.  The version of a document only adds a report: with any value
    under ["version"], [import_all_data] leaves the stores and returns the
    counters that it does with ["1.0"] there, and its errors are those it
    lists with ["1.0"], preceded by one entry naming the version when the
    value is not the string ["1.0"]. *)
Theorem import_version_only_reports (now : nat -> string)
  (d : list (string * json)) (v : json) (w : World) :
  let res := import_all_data now (JDict (Py.assign "version" v d)) w in
  let ref := import_all_data now (JDict (Py.assign "version" (JStr "1.0") d)) w in
  snd res = snd ref
  /\ tools_imported (fst res) = tools_imported (fst ref)
  /\ comments_imported (fst res) = comments_imported (fst ref)
  /\ links_imported (fst res) = links_imported (fst ref)
  /\ errors (fst res)
     = (if Py.is_str "1.0" v then [] else [UnsupportedVersion v]) ++ errors (fst ref).
Proof.
  intros res ref. unfold res, ref, import_all_data.
  assert (Hs : forall x,
             tools_section now (Py.assign "version" x d) w = tools_section now d w
             /\ (forall w', comments_section (Py.assign "version" x d) w'
                            = comments_section d w')
             /\ (forall w', links_section (Py.assign "version" x d) w'
                            = links_section d w')
             /\ version_errors (Py.assign "version" x d)
                = if Py.is_str "1.0" x then [] else [UnsupportedVersion x]).
  { intros x. unfold tools_section, comments_section, links_section, version_errors.
    rewrite !assoc_assign_other by discriminate.
    rewrite get_assign_same. auto. }
  destruct (Hs v) as (T1 & C1 & L1 & V1).
  destruct (Hs (JStr "1.0")) as (T2 & C2 & L2 & V2).
  rewrite T1, T2, V1, V2. simpl (if Py.is_str _ (JStr _) then _ else _).
  destruct (tools_section now d w) as [[[e1|] n1] w1].
  { cbn. auto. }
  rewrite C1, C2.
  destruct (comments_section d w1) as [[[e2|] n2] w2].
  { cbn. auto. }
  rewrite L1, L2.
  destruct (links_section d w2) as [[[e3|] n3] w3]; cbn; rewrite ?app_nil_r; auto.
Qed.



(* ===================================================================== *)
(** * Nothing importable is left out *)
(* ===================================================================== *)

Section ImportCompleteness.

(** Only a list can give a set of ids that is not empty: the characters of
    a string and the keys of a dict have no [get]. *)
Lemma id_set_list (v : json) (ids : Py.set) (k : Py.key) :
  Py.id_set v = Ok ids -> Py.mem k ids = true -> exists l, v = JList l.
Proof.
  unfold Py.id_set.
  destruct v as [| | |s|l|kv]; try discriminate; cbn [Py.iter bind].
  - destruct (PyStr.chars s); simpl; [|discriminate].
    intros H; inversion H; subst. discriminate.
  - eauto.
  - destruct kv as [|[k0 v0] kv]; simpl; [|discriminate].
    intros H; inversion H; subst. discriminate.
Qed.

(** After a loop that completed, the id of every tool of the document
    that has a name or a link is in the set. *)
Lemma import_tools_loop_all (now : nat -> string) (tools : list json) :
  forall (i : nat) (st st1 : tools_state),
    import_tools_loop now i tools st = (None, st1) ->
    forall kv, In (JDict kv) tools -> has_name_or_link kv = true ->
      exists n id,
        normalize_tool "" kv = Ok n
        /\ tool_id (JDict n) = Ok id
        /\ Py.mem (Py.KStr id) (ts_existing st1) = true.
Proof.
  induction tools as [|t tools IH]; intros i st st1 H kv Hin Hname; [contradiction|].
  cbn [import_tools_loop] in H.
  destruct (import_tool (now i) t st) as [[e|] st'] eqn:Hstep; [discriminate|].
  destruct Hin as [-> | Hin]; [|eapply IH; eassumption].
  assert (Hhere : exists n id,
             normalize_tool "" kv = Ok n /\ tool_id (JDict n) = Ok id
             /\ Py.mem (Py.KStr id) (ts_existing st') = true).
  { revert Hstep. unfold import_tool. rewrite Hname.
    pose proof (normalize_tool_clock (now i) "" kv) as Hclock.
    destruct (normalize_tool (now i) kv) as [n|]; [|discriminate].
    destruct Hclock as (n2 & Hn2 & Hid). rewrite Hid.
    destruct (tool_id (JDict n2)) as [id|] eqn:Hi; [|discriminate].
    destruct (Py.mem (Py.KStr id) (ts_existing st)) eqn:Hm.
    - intros Hs. inversion Hs; subst. exists n2, id. auto.
    - destruct (Py.append_at _ _ _); [|discriminate].
      intros Hs. inversion Hs; subst. exists n2, id.
      split; [exact Hn2|]. split; [exact Hi|].
      cbn [ts_existing]. unfold Py.add. rewrite mem_app. simpl.
      rewrite String.eqb_refl. rewrite orb_true_r. reflexivity. }
  destruct Hhere as (n & id & Hn & Hi & Hm).
  exists n, id. split; [exact Hn|]. split; [exact Hi|].
  eapply import_tools_loop_monotone; eassumption.
Qed.

Lemma import_tools_all (now : nat -> string) (tools : list json) (w w1 : World)
      (nt : nat) :
  import_tools now tools w = (None, nt, w1) ->
  exists ids,
    Py.id_set (JList (tools_of (fst (load_db w1)))) = Ok ids
    /\ forall kv, In (JDict kv) tools -> has_name_or_link kv = true ->
         exists n id,
           normalize_tool "" kv = Ok n
           /\ tool_id (JDict n) = Ok id
           /\ Py.mem (Py.KStr id) ids = true.
Proof.
  intros H.
  destruct (import_tools_outcome _ _ _ H)
    as [[Hr _] | (kv0 & existing & st & Hkv & Hex & Hloop & _ & ->)]; [congruence|].
  pose proof (@import_tools_loop_ids now tools 0%nat _ st None Hloop) as Hids.
  unfold ids_in_step in Hids. cbn [ts_db ts_existing] in Hids. specialize (Hids Hex).
  exists (ts_existing st). split; [|exact (@import_tools_loop_all now tools 0%nat _ st Hloop)].
  cbn [tools_of]. unfold Py.get_or in Hids.
  destruct (Py.assoc "tools" (ts_db st)) as [v|]; [|exact Hids].
  destruct v as [| | |s|l|kv]; try discriminate; try exact Hids.
  - unfold Py.id_set in Hids. cbn [Py.iter bind] in Hids.
    destruct (PyStr.chars s); simpl in Hids; [exact Hids | discriminate].
  - unfold Py.id_set in Hids. cbn [Py.iter bind] in Hids.
    destruct kv as [|[k0 v0] kv]; simpl in Hids; [exact Hids | discriminate].
Qed.

(** After a merge that completed, every accepted record of the document
    has its id among those of its key. *)
Lemma merge_entries_all (f1 f2 : string) (entries : list (string * json))
      (s s' : json) (n n' : nat) :
  merge_entries f1 f2 entries (s, n) = (None, (s', n')) ->
  forall k items x,
    In (k, JList items) entries -> In x items -> accepted f1 f2 x = true ->
    exists ids i,
      Py.id_set (JList (items_at s' k)) = Ok ids
      /\ Py.hash (field x "id") = Ok i
      /\ Py.mem i ids = true.
Proof.
  intros H k items x Hin Hx Hacc.
  destruct (@merge_entries_settles f1 f2 entries s s' n n' H) as [Hs _].
  unfold entries_settled in Hs. rewrite Forall_forall in Hs.
  specialize (Hs _ Hin). cbn [fst snd] in Hs. destruct Hs as [_ Hitems].
  rewrite Forall_forall in Hitems.
  destruct (Hitems _ Hx) as [Hno | (c & l & ids & i & -> & Hsub & Hids & Hi & Hm)];
    [congruence|].
  destruct (@id_set_list l ids i Hids Hm) as [l0 ->].
  exists ids, i. split; [|split; [exact Hi | exact Hm]].
  unfold subscript in Hsub. destruct s' as [| | | | |kv]; try discriminate.
  simpl. destruct (Py.assoc k kv) as [v|]; [|discriminate].
  inversion Hsub; subst. exact Hids.
Qed.

End ImportCompleteness.

(** X10.  A completed import leaves out no tool: when
    [import_all_data] lists no failure, every tool of the document that is
    an object with a name or a link can be normalized, and the id
    [tool_id] gives its normalized form is the id of an entry of the
    catalog afterwards. *)
Theorem import_misses_no_tool (now : nat -> string) (d : list (string * json))
  (tools : list json) (w : World) :
  let res := import_all_data now (JDict d) w in
  failures (fst res) = [] ->
  Py.assoc "tools" d = Some (JList tools) ->
  exists ids,
    Py.id_set (JList (catalog (snd res))) = Ok ids
    /\ forall kv, In (JDict kv) tools -> has_name_or_link kv = true ->
         exists n id,
           normalize_tool "" kv = Ok n
           /\ tool_id (JDict n) = Ok id
           /\ Py.mem (Py.KStr id) ids = true.
Proof.
  intros res Hf Ht.
  destruct (import_no_failure now (JDict d) w Hf)
    as (d0 & nt & nc & nl & w1 & w2 & w3 & Hd & H1 & H2 & H3 & Hres).
  inversion Hd; subst d0. unfold res. rewrite Hres. cbn [snd].
  destruct (comments_section_views _ _ H2) as [V2d _].
  destruct (links_section_views _ _ H3) as [V3d _].
  unfold catalog. rewrite V3d, V2d.
  unfold tools_section in H1. rewrite Ht in H1.
  exact (@import_tools_all now tools w w1 nt H1).
Qed.

Lemma import_misses_no_tool_witness :
  failures (fst (import_all_data fixed_clock mixed_document sample_stores)) = []
  /\ exists ids,
       Py.id_set (JList (catalog (snd (import_all_data fixed_clock mixed_document
                                                       sample_stores)))) = Ok ids
       /\ Py.mem (Py.KStr "7912fccaa22d497f") ids = true.
Proof.
  assert (H : failures (fst (import_all_data fixed_clock mixed_document sample_stores)) = [])
    by (vm_compute; reflexivity).
  split; [exact H|].
  destruct (@import_misses_no_tool fixed_clock _ _ sample_stores H eq_refl)
    as (ids & Hids & Hall).
  exists ids. split; [exact Hids|].
  destruct (Hall [("name", JStr "B"); ("link", JStr "y"); ("price_euros_1_to_5", JStr "4")]
                 (or_intror (or_introl eq_refl)) eq_refl) as (n & id & Hn & Hi & Hm).
  assert (E : id = "7912fccaa22d497f").
  { vm_compute in Hn. inversion Hn; subst n. vm_compute in Hi. congruence. }
  rewrite <- E. exact Hm.
Defined.

(** X11.  A completed import leaves out no comment and no link: when
    [import_all_data] lists no failure, every comment of the document that
    has an author and a content, and every link that has a title and a
    url, has its id among the ids of the records stored afterwards under
    the same entry. *)
Theorem import_misses_no_record (now : nat -> string) (d : list (string * json))
  (w : World) :
  let res := import_all_data now (JDict d) w in
  failures (fst res) = [] ->
  (forall entries k items x,
      Py.assoc "comments" d = Some (JDict entries) ->
      In (k, JList items) entries -> In x items ->
      accepted "author" "content" x = true ->
      exists ids i,
        Py.id_set (JList (comments_of (snd res) k)) = Ok ids
        /\ Py.hash (field x "id") = Ok i
        /\ Py.mem i ids = true)
  /\ (forall entries k items x,
         Py.assoc "external_links" d = Some (JDict entries) ->
         In (k, JList items) entries -> In x items ->
         accepted "title" "url" x = true ->
         exists ids i,
           Py.id_set (JList (links_of (snd res) k)) = Ok ids
           /\ Py.hash (field x "id") = Ok i
           /\ Py.mem i ids = true).
Proof.
  intros res Hf.
  destruct (import_no_failure now (JDict d) w Hf)
    as (d0 & nt & nc & nl & w1 & w2 & w3 & Hd & H1 & H2 & H3 & Hres).
  inversion Hd; subst d0. unfold res. rewrite Hres. cbn [snd].
  destruct (links_section_views _ _ H3) as [_ V3c].
  split.
  - intros entries k items x He Hin Hx Hacc.
    unfold comments_of. rewrite V3c.
    unfold comments_section in H2. rewrite He in H2.
    destruct (import_comments_outcome _ _ H2) as (s' & Hm & ->).
    exact (@merge_entries_all _ _ _ _ _ _ _ Hm k items x Hin Hx Hacc).
  - intros entries k items x He Hin Hx Hacc.
    unfold links_of.
    unfold links_section in H3. rewrite He in H3.
    destruct (import_links_outcome _ _ H3) as (s' & Hm & ->).
    exact (@merge_entries_all _ _ _ _ _ _ _ Hm k items x Hin Hx Hacc).
Qed.

Lemma import_misses_no_record_witness :
  failures (fst (import_all_data fixed_clock mixed_document sample_stores)) = []
  /\ exists ids,
       Py.id_set (JList (comments_of (snd (import_all_data fixed_clock mixed_document
                                                           sample_stores))
                                     "e4fef98d862ee147")) = Ok ids
       /\ Py.mem (Py.KStr "c9") ids = true.
Proof.
  assert (H : failures (fst (import_all_data fixed_clock mixed_document sample_stores)) = [])
    by (vm_compute; reflexivity).
  split; [exact H|].
  destruct (@import_misses_no_record fixed_clock _ sample_stores H) as [Hc _].
  destruct (Hc _ "e4fef98d862ee147" _
               (JDict [("id", JStr "c9"); ("author", JStr "dan"); ("content", JStr "new")])
               eq_refl (or_introl eq_refl) (or_intror (or_introl eq_refl)) eq_refl)
    as (ids & i & Hids & Hi & Hm).
  exists ids. split; [exact Hids|].
  simpl in Hi. inversion Hi; subst i. exact Hm.
Defined.

(* ===================================================================== *)
(** * The form that adds a tool *)
(* ===================================================================== *)

Section AddToolFacts.

Variable str_of_exn : exn -> string.

Lemma id_in_list_app (i : string) (l : list json) (x : list (string * json)) (b : bool) :
  id_in_list i l = Ok b ->
  id_in_list i (l ++ [JDict x]) = Ok (b || Py.is_str i (Py.get_or x "id" JNull)).
Proof.
  revert b. induction l as [|t l IH]; intros b H.
  - simpl in H. inversion H; subst. simpl. rewrite orb_false_r. reflexivity.
  - cbn [id_in_list app] in *.
    destruct (Py.get t "id" JNull) as [v|]; [|discriminate]. cbn [bind] in *.
    destruct (id_in_list i l) as [b0|]; [|discriminate]. cbn [bind] in *.
    rewrite (IH b0 eq_refl). cbn [bind]. inversion H; subst.
    rewrite orb_assoc. reflexivity.
Qed.

Lemma publish_default_frame (db : list (string * json)) (w : World) :
  comments_file (publish_default db w) = comments_file w
  /\ links_file (publish_default db w) = links_file w.
Proof.
  unfold publish_default. destruct (Py.assoc "tools" db) as [[]|]; split; reflexivity.
Qed.

(** The entry the form builds, before its id is written: its name and its
    link are the trimmed inputs, with or without enrichment, and so is the
    id computed from them. *)
Lemma form_tool_id (use_ai client : bool) (reply : exc json)
      (now name link description category keywords : string) (price : Z) :
  let tool :=
    [("name", JStr (PyStr.strip name));
     ("link", JStr (PyStr.strip link));
     ("description", JStr (PyStr.strip description));
     ("category", JStr (PyStr.strip category));
     ("keywords", JList (map JStr (normalize_kw keywords)));
     ("price_euros_1_to_5", JInt price);
     ("added_at", JStr now)] in
  let tool' := if use_ai then ai_enrich str_of_exn client reply tool else tool in
  Py.assoc "name" tool' = Some (JStr (PyStr.strip name))
  /\ Py.assoc "link" tool' = Some (JStr (PyStr.strip link))
  /\ Py.assoc "price_euros_1_to_5" tool' = Some (JInt price)
  /\ Py.assoc "added_at" tool' = Some (JStr now)
  /\ tool_id (JDict tool')
     = Ok (PyStr.take 16
             (SHA1.hexdigest
                (PyStr.lower (PyStr.strip name) ++ "|"
                 ++ PyStr.lower (PyStr.strip link))%string)).
Proof.
  intros tool tool'.
  assert (Hk : forall k, enriched_field k = false -> Py.assoc k tool' = Py.assoc k tool).
  { intros k Hk. unfold tool'. destruct use_ai; [|reflexivity].
    apply ai_enrich_keeps. exact Hk. }
  assert (Hn : Py.assoc "name" tool' = Some (JStr (PyStr.strip name)))
    by (rewrite Hk; reflexivity).
  assert (Hl : Py.assoc "link" tool' = Some (JStr (PyStr.strip link)))
    by (rewrite Hk; reflexivity).
  split; [exact Hn|]. split; [exact Hl|].
  split; [rewrite Hk; reflexivity|]. split; [rewrite Hk; reflexivity|].
  unfold tool_id.
  rewrite (@payload_of_strings (JDict tool') (PyStr.strip name) (PyStr.strip link)).
  - cbn [bind]. rewrite lstrip_strip, rstrip_strip. reflexivity.
  - simpl. unfold Py.get_or. rewrite Hn. reflexivity.
  - simpl. unfold Py.get_or. rewrite Hl. reflexivity.
Qed.

(** What [add_tool] did when it reports a new entry. *)
Lemma add_tool_added (now : string) (use_ai client : bool) (reply : exc json)
      (name link description category keywords : string) (price : Z) (w w' : World)
      (tool : list (string * json)) :
  add_tool str_of_exn now use_ai client reply name link description category keywords
           price w = (Ok (Added tool), w') ->
  exists kv l,
    fst (load_db w) = JDict kv
    /\ Py.assoc "tools" kv = Some (JList l)
    /\ id_in_list (PyStr.take 16
                     (SHA1.hexdigest
                        (PyStr.lower (PyStr.strip name) ++ "|"
                         ++ PyStr.lower (PyStr.strip link))%string)) l = Ok false
    /\ db_file w' = Content (JDict (Py.assign "tools" (JList (l ++ [JDict tool])) kv))
    /\ comments_file w' = comments_file w /\ links_file w' = links_file w
    /\ Py.lookup tool "name" = JStr (PyStr.strip name)
    /\ Py.lookup tool "link" = JStr (PyStr.strip link)
    /\ Py.lookup tool "price_euros_1_to_5" = JInt price
    /\ Py.lookup tool "added_at" = JStr now
    /\ Py.lookup tool "id"
       = JStr (PyStr.take 16
                 (SHA1.hexdigest
                    (PyStr.lower (PyStr.strip name) ++ "|"
                     ++ PyStr.lower (PyStr.strip link))%string)).
Proof.
  unfold add_tool.
  destruct (String.eqb name "" || String.eqb link ""); [discriminate|].
  destruct (form_tool_id use_ai client reply now name link description category
                         keywords price) as (Hn & Hl & Hp & Hd & Hi).
  cbv zeta in Hn, Hl, Hp, Hd, Hi.
  assert (Hfiles : comments_file (snd (load_db w)) = comments_file w
                   /\ links_file (snd (load_db w)) = links_file w).
  { unfold load_db. destruct (db_file w); split; reflexivity. }
  destruct (load_db w) as [db w1]. cbn [fst snd] in *.
  rewrite Hi.
  destruct db as [| | | | |kv]; try discriminate.
  destruct (Py.iter (Py.get_or kv "tools" (JList []))) as [xs|] eqn:Hxs; [|discriminate].
  cbn [bind].
  destruct (id_in_list _ xs) as [[|]|] eqn:Hin; try discriminate.
  unfold Py.append_at.
  destruct (Py.assoc "tools" kv) as [[| | | |l|]|] eqn:Ht; try discriminate.
  unfold Py.get_or in Hxs. rewrite Ht in Hxs. simpl in Hxs. inversion Hxs; subst xs.
  intros H. inversion H; subst. clear H.
  exists kv, l. unfold Py.lookup, Py.get_or.
  rewrite !assoc_assign_other by discriminate. rewrite assoc_assign_same.
  rewrite Hn, Hl, Hp, Hd.
  destruct Hfiles as [Fc Fl].
  repeat split; try reflexivity; try assumption.
  - destruct (load_db_shares_default w); simpl; [|assumption].
    rewrite (proj1 (publish_default_frame _ _)). assumption.
  - destruct (load_db_shares_default w); simpl; [|assumption].
    rewrite (proj2 (publish_default_frame _ _)). assumption.
Qed.

(** When [add_tool] reports anything but a new entry, [load_db] gives what
    it gave. *)
Lemma add_tool_otherwise (now : string) (use_ai client : bool) (reply : exc json)
      (name link description category keywords : string) (price : Z) (w : World) :
  (exists tool,
      fst (add_tool str_of_exn now use_ai client reply name link description category
                    keywords price w) = Ok (Added tool))
  \/ fst (load_db (snd (add_tool str_of_exn now use_ai client reply name link
                                 description category keywords price w)))
     = fst (load_db w).
Proof.
  unfold add_tool.
  destruct (String.eqb name "" || String.eqb link ""); [right; reflexivity|].
  assert (Hview : fst (load_db (snd (load_db w))) = fst (load_db w)).
  { unfold load_db. destruct (db_file w) eqn:E; simpl; rewrite ?E; reflexivity. }
  destruct (load_db w) as [db w1]. cbn [fst snd] in *.
  destruct (tool_id _) as [i|]; [|right; exact Hview].
  destruct db as [| | | | |kv]; try (right; exact Hview).
  destruct (bind _ _) as [[|]|]; try (right; exact Hview).
  destruct (Py.append_at _ _ _); [|right; exact Hview].
  left. eexists. reflexivity.
Qed.

(** No entry of [l] has the string [i] for id, in the terms of the set of
    ids. *)
Lemma id_in_list_mem (i : string) (l : list json) (ids : Py.set) :
  id_in_list i l = Ok false ->
  Py.id_set (JList l) = Ok ids ->
  Py.mem (Py.KStr i) ids = false.
Proof.
  unfold Py.id_set. cbn [Py.iter bind].
  revert ids. induction l as [|t l IH]; intros ids Hin Hids.
  - simpl in Hids. inversion Hids. reflexivity.
  - cbn [id_in_list mapM] in *.
    destruct (Py.get t "id" JNull) as [v|]; [|discriminate]. cbn [bind] in *.
    destruct (id_in_list i l) as [b|]; [|discriminate]. cbn [bind] in *.
    destruct (Py.hash v) as [k|] eqn:Hk; [|discriminate]. cbn [bind] in *.
    destruct (mapM _ l) as [ids0|]; [|discriminate]. cbn [bind] in *.
    replace ids with (k :: ids0) by congruence.
    assert (Hor : Py.is_str i v || b = false) by congruence.
    apply orb_false_iff in Hor. destruct Hor as [Hv Hb]. subst b.
    assert (Hne : Py.key_eqb (Py.KStr i) k = false).
    { destruct v; simpl in Hk; inversion Hk; subst; simpl; try reflexivity.
      exact Hv. }
    unfold Py.mem. cbn [existsb]. rewrite Hne. cbn [orb].
    apply (IH ids0 eq_refl eq_refl).
Qed.

End AddToolFacts.

(** X12.  When the form reports a new entry, the catalog is the catalog
    as it was with that entry at its end, and the comments and links files
    are untouched.  The entry stored has the trimmed name and link, the
    price of the slider and the clock reading, with or without enrichment;
    its id is the one [tool_id] gives it, and no entry of the catalog had
    that id. *)
Theorem add_tool_appends_entry (str_of_exn : exn -> string) (now : string)
  (use_ai client : bool) (reply : exc json)
  (name link description category keywords : string) (price : Z) (w w' : World)
  (tool : list (string * json)) :
  add_tool str_of_exn now use_ai client reply name link description category keywords
           price w = (Ok (Added tool), w') ->
  catalog w' = catalog w ++ [JDict tool]
  /\ comments_file w' = comments_file w /\ links_file w' = links_file w
  /\ field (JDict tool) "name" = JStr (PyStr.strip name)
  /\ field (JDict tool) "link" = JStr (PyStr.strip link)
  /\ field (JDict tool) "price_euros_1_to_5" = JInt price
  /\ field (JDict tool) "added_at" = JStr now
  /\ exists i,
       tool_id (JDict tool) = Ok i
       /\ field (JDict tool) "id" = JStr i
       /\ id_in_list i (catalog w) = Ok false.
Proof.
  intros H.
  destruct (@add_tool_added _ _ _ _ _ _ _ _ _ _ _ _ _ _ H)
    as (kv & l & Hdb & Ht & Hin & Hfile & Fc & Fl & Hn & Hl & Hp & Hd & Hi).
  assert (Hcat : catalog w = l).
  { unfold catalog. rewrite Hdb. simpl. rewrite Ht. reflexivity. }
  split.
  - rewrite Hcat. unfold catalog, load_db. rewrite Hfile. apply tools_of_assign.
  - split; [exact Fc|]. split; [exact Fl|].
    cbn [field]. split; [exact Hn|]. split; [exact Hl|]. split; [exact Hp|].
    split; [exact Hd|].
    eexists. split; [|split; [exact Hi | rewrite Hcat; exact Hin]].
    unfold tool_id.
    rewrite (@payload_of_strings (JDict tool) (PyStr.strip name) (PyStr.strip link)).
    + cbn [bind]. rewrite lstrip_strip, rstrip_strip. reflexivity.
    + unfold Py.lookup, Py.get_or in Hn. simpl. unfold Py.get_or.
      destruct (Py.assoc "name" tool); [congruence | discriminate].
    + unfold Py.lookup, Py.get_or in Hl. simpl. unfold Py.get_or.
      destruct (Py.assoc "link" tool); [congruence | discriminate].
Qed.

Lemma add_tool_appends_entry_witness :
  exists tool w',
    add_tool (fun _ => "") "2024-03-01T00:00:00Z" false false (Raise ValueError)
             " Beta " "https://beta.example " "desc" "cat" "K1; k2" 4 sample_stores
    = (Ok (Added tool), w')
    /\ catalog w' = catalog sample_stores ++ [JDict tool]
    /\ field (JDict tool) "name" = JStr "Beta".
Proof.
  eexists _, _.
  assert (H : add_tool (fun _ => "") "2024-03-01T00:00:00Z" false false (Raise ValueError)
                " Beta " "https://beta.example " "desc" "cat" "K1; k2" 4 sample_stores
              = (Ok (Added _), _)) by (vm_compute; reflexivity).
  split; [exact H|].
  destruct (@add_tool_appends_entry _ _ _ _ _ _ _ _ _ _ _ _ _ _ H) as (Hc & _ & _ & Hn & _).
  split; [exact Hc | exact Hn].
Defined.

(** X13.  A tool is added once: after the form reported a new entry, a
    second submission whose name and link are the same up to case and
    surrounding blanks (their [strip().lower()] are equal, accents and
    blanks outside ASCII included) reports that the tool exists and leaves
    the stores as they are, whatever its other fields, its clock reading
    and the outcome of its enrichment. *)
Theorem add_tool_twice (str_of_exn : exn -> string) (now : string)
  (use_ai client : bool) (reply : exc json)
  (name link description category keywords : string) (price : Z) (w w' : World)
  (tool : list (string * json))
  (now2 : string) (use_ai2 client2 : bool) (reply2 : exc json)
  (name2 link2 description2 category2 keywords2 : string) (price2 : Z) :
  add_tool str_of_exn now use_ai client reply name link description category keywords
           price w = (Ok (Added tool), w') ->
  name2 <> "" -> link2 <> "" ->
  PyStr.lower (PyStr.strip name2) = PyStr.lower (PyStr.strip name) ->
  PyStr.lower (PyStr.strip link2) = PyStr.lower (PyStr.strip link) ->
  add_tool str_of_exn now2 use_ai2 client2 reply2 name2 link2 description2 category2
           keywords2 price2 w' = (Ok AlreadyThere, w').
Proof.
  intros H Hn2 Hl2 En El.
  destruct (@add_tool_added _ _ _ _ _ _ _ _ _ _ _ _ _ _ H)
    as (kv & l & Hdb & Ht & Hin & Hfile & _ & _ & _ & _ & _ & _ & Hi).
  unfold add_tool.
  apply String.eqb_neq in Hn2, Hl2. rewrite Hn2, Hl2. cbn [orb].
  destruct (form_tool_id str_of_exn use_ai2 client2 reply2 now2 name2 link2 description2
                         category2 keywords2 price2) as (_ & _ & _ & _ & Hi2).
  cbv zeta in Hi2. unfold load_db. rewrite Hfile, Hi2, En, El.
  unfold Py.get_or. rewrite assoc_assign_same. cbn [Py.iter bind].
  rewrite (@id_in_list_app _ l tool false Hin).
  unfold Py.lookup in Hi. rewrite Hi. cbn [Py.is_str orb].
  rewrite String.eqb_refl. reflexivity.
Qed.

Lemma add_tool_twice_witness :
  exists tool w',
    add_tool (fun _ => "") "2024-03-01T00:00:00Z" false false (Raise ValueError)
             " Bêta " "https://beta.example " "desc" "cat" "K1; k2" 4 sample_stores
    = (Ok (Added tool), w')
    /\ add_tool (fun _ => "") "2024-03-02T00:00:00Z" true true (Ok (JDict []))
                "BÊTA" "HTTPS://beta.example　" "other" "" "" 1 w'
       = (Ok AlreadyThere, w').
Proof.
  eexists _, _.
  assert (H : add_tool (fun _ => "") "2024-03-01T00:00:00Z" false false (Raise ValueError)
                " Bêta " "https://beta.example " "desc" "cat" "K1; k2" 4 sample_stores
              = (Ok (Added _), _)) by (vm_compute; reflexivity).
  split; [exact H|].
  apply (@add_tool_twice (fun _ => "") _ _ _ _ _ _ _ _ _ _ _ _ _
           "2024-03-02T00:00:00Z" true true (Ok (JDict []))
           "BÊTA" "HTTPS://beta.example　" "other" "" "" 1 H).
  - discriminate.
  - discriminate.
  - vm_compute. reflexivity.
  - vm_compute. reflexivity.
Defined.

(** X14.  The form keeps the ids of the catalog different: when the
    ids of the catalog can be put in a set and no two entries have the
    same id before a submission, this still holds after it, whatever was
    submitted and whatever the form reported. *)
Theorem add_tool_keeps_ids_distinct (str_of_exn : exn -> string) (now : string)
  (use_ai client : bool) (reply : exc json)
  (name link description category keywords : string) (price : Z) (w : World) :
  distinct_ids (catalog w) ->
  distinct_ids (catalog (snd (add_tool str_of_exn now use_ai client reply name link
                                        description category keywords price w))).
Proof.
  intros Hd.
  destruct (add_tool_otherwise str_of_exn now use_ai client reply name link description
                               category keywords price w) as [[tool Ha] | Hsame].
  - destruct (add_tool str_of_exn now use_ai client reply name link description
                       category keywords price w) as [o w'] eqn:H.
    cbn [fst snd] in *. subst o.
    destruct (@add_tool_added _ _ _ _ _ _ _ _ _ _ _ _ _ _ H)
      as (kv & l & Hdb & Ht & Hin & Hfile & _ & _ & _ & _ & _ & _ & Hi).
    assert (Hcat : catalog w = l).
    { unfold catalog. rewrite Hdb. simpl. rewrite Ht. reflexivity. }
    rewrite Hcat in Hd. destruct Hd as (ids & Hids & Hnd).
    unfold catalog, load_db. rewrite Hfile. cbn [fst]. rewrite tools_of_assign.
    eexists. split.
    + apply id_set_app; [exact Hids|].
      unfold Py.lookup in Hi. rewrite Hi. reflexivity.
    + apply NoDup_app; [exact Hnd | repeat constructor; simpl; tauto|].
      intros y Hy [<-|[]].
      pose proof (@id_in_list_mem _ _ _ Hin Hids) as Hm.
      apply mem_not_in in Hm. contradiction.
  - unfold catalog. rewrite Hsame. exact Hd.
Qed.

Lemma add_tool_keeps_ids_distinct_witness :
  distinct_ids (catalog sample_stores)
  /\ distinct_ids
       (catalog (snd (add_tool (fun _ => "") "2024-03-01T00:00:00Z" false false
                               (Raise ValueError) " Beta " "https://beta.example "
                               "desc" "cat" "K1; k2" 4 sample_stores))).
Proof.
  assert (H : distinct_ids (catalog sample_stores)).
  { exists [Py.KStr "e4fef98d862ee147"]. split; [vm_compute; reflexivity|].
    constructor; [simpl; tauto | constructor]. }
  split; [exact H|].
  apply (@add_tool_keeps_ids_distinct (fun _ => "") "2024-03-01T00:00:00Z" false false
           (Raise ValueError) " Beta " "https://beta.example " "desc" "cat" "K1; k2" 4
           sample_stores H).
Defined.

(* ===================================================================== *)
(** * The writers keep the stores well formed *)
(* ===================================================================== *)

Section WritersKeepStoresOk.

Lemma store_add_ok (s s' : json) (key : string) (c : list (string * json)) (i : Py.key) :
  Py.hash (Py.lookup c "id") = Ok i ->
  (x <- ensure_key s key ;; append_item x key (JDict c)) = Ok s' ->
  grows s s'.
Proof.
  intros Hi H.
  destruct (ensure_key s key) as [s0|] eqn:Hk; [|discriminate]. cbn [bind] in H.
  destruct (@ensure_key_present key s s0 Hk) as [_ Hg].
  eapply grows_trans; [exact Hg|].
  destruct s0 as [| | | | |kv]; try discriminate.
  simpl in H. unfold Py.append_at in H.
  destruct (Py.assoc key kv) as [[| | | |l|]|] eqn:E; try discriminate.
  simpl in H. inversion H; subst.
  eapply grows_append; eassumption.
Qed.

Lemma without_id_forallb (p : json -> bool) (i : string) (l kept : list json) :
  without_id i l = Ok kept -> forallb p l = true -> forallb p kept = true.
Proof.
  revert kept. induction l as [|c l IH]; intros kept H Hp.
  - simpl in H. inversion H. reflexivity.
  - cbn [without_id] in H. cbn [forallb] in Hp.
    apply andb_true_iff in Hp. destruct Hp as [Hc Hl].
    destruct (Py.get c "id" JNull) as [v|]; [|discriminate]. cbn [bind] in H.
    destruct (without_id i l) as [rest|]; [|discriminate]. cbn [bind] in H.
    specialize (IH rest eq_refl Hl).
    destruct (Py.is_str i v); inversion H; subst; [exact IH|].
    cbn [forallb]. rewrite Hc, IH. reflexivity.
Qed.

Lemma store_delete_ok (s s' : json) (key i : string) :
  annotations_ok s = true ->
  delete_from s key i = Ok (Some s') ->
  annotations_ok s' = true.
Proof.
  destruct s as [| | | | |kv]; try discriminate.
  unfold annotations_ok. intros H. apply andb_true_iff in H. destruct H as [Hd Hv].
  simpl. destruct (Py.assoc key kv) as [v|] eqn:E; [|discriminate].
  pose proof (assoc_forallb
                (fun v => match v with JList items => forallb record_ok items | _ => false end)
                _ _ E Hv) as Hitems.
  destruct v as [| | | |l|]; try discriminate. cbn [Py.iter bind].
  destruct (without_id i l) as [kept|] eqn:Hw; [|discriminate]. cbn [bind].
  intros H. inversion H; subst.
  rewrite (distinct_assign _ _ _ Hd). simpl.
  apply (forallb_assign
           (fun v => match v with JList items => forallb record_ok items | _ => false end));
    [|exact Hv].
  eapply without_id_forallb; eassumption.
Qed.

Lemma same_but_comments_views (w w' : World) :
  same_but_comments w w' ->
  fst (load_db w') = fst (load_db w) /\ fst (load_links w') = fst (load_links w).
Proof.
  intros (Hd & Hl & Ht).
  split; [apply load_db_depends | apply load_links_depends]; assumption.
Qed.

Lemma same_but_links_views (w w' : World) :
  same_but_links w w' ->
  fst (load_db w') = fst (load_db w) /\ fst (load_comments w') = fst (load_comments w).
Proof.
  intros (Hd & Hc & Ht).
  split; [apply load_db_depends | apply load_comments_depends]; assumption.
Qed.

Lemma add_comment_ok (now_id now_ts key author content : string) (rating : Z)
      (w : World) :
  stores_ok w = true ->
  stores_ok (snd (add_comment now_id now_ts key author content rating w)) = true.
Proof.
  rewrite !stores_ok_parts. intros (Hd & Hc & Hl).
  unfold add_comment.
  destruct (load_comments_view w) as [Hv Hs].
  destruct (load_comments w) as [comments w1]. cbn [fst snd] in *.
  destruct (bind _ _) as [s'|] eqn:Hb; cbn [snd].
  - destruct (load_saved_comments s' w1) as [Hs' Hsame].
    destruct (same_but_comments_views (same_but_comments_trans Hs Hsame)) as [-> ->].
    rewrite Hs'. split; [exact Hd|]. split; [|exact Hl].
    eapply grows_annotations_ok; [|exact Hc].
    eapply (@store_add_ok comments s' key); [|exact Hb]. reflexivity.
  - destruct (same_but_comments_views Hs) as [-> ->]. rewrite Hv. auto.
Qed.

Lemma add_link_ok (now_id now_added key title url link_type description : string)
      (w : World) :
  stores_ok w = true ->
  stores_ok (snd (add_external_link now_id now_added key title url link_type
                                    description w)) = true.
Proof.
  rewrite !stores_ok_parts. intros (Hd & Hc & Hl).
  unfold add_external_link.
  destruct (load_links_view w) as [Hv Hs].
  destruct (load_links w) as [links w1]. cbn [fst snd] in *.
  destruct (bind _ _) as [s'|] eqn:Hb; cbn [snd].
  - destruct (load_saved_links s' w1) as [Hs' Hsame].
    destruct (same_but_links_views (same_but_links_trans Hs Hsame)) as [-> ->].
    rewrite Hs'. split; [exact Hd|]. split; [exact Hc|].
    eapply grows_annotations_ok; [|exact Hl].
    eapply (@store_add_ok links s' key); [|exact Hb]. reflexivity.
  - destruct (same_but_links_views Hs) as [-> ->]. rewrite Hv. auto.
Qed.

Lemma delete_comment_ok (key i : string) (w : World) :
  stores_ok w = true -> stores_ok (snd (delete_comment key i w)) = true.
Proof.
  rewrite !stores_ok_parts. intros (Hd & Hc & Hl).
  unfold delete_comment.
  destruct (load_comments_view w) as [Hv Hs].
  destruct (load_comments w) as [comments w1]. cbn [fst snd] in *.
  destruct (delete_from comments key i) as [[s'|]|] eqn:Hb; cbn [snd].
  - destruct (load_saved_comments s' w1) as [Hs' Hsame].
    destruct (same_but_comments_views (same_but_comments_trans Hs Hsame)) as [-> ->].
    rewrite Hs'. split; [exact Hd|]. split; [|exact Hl].
    apply (@store_delete_ok comments s' key i Hc Hb).
  - destruct (same_but_comments_views Hs) as [-> ->]. rewrite Hv. auto.
  - destruct (same_but_comments_views Hs) as [-> ->]. rewrite Hv. auto.
Qed.

Lemma delete_link_ok (key i : string) (w : World) :
  stores_ok w = true -> stores_ok (snd (delete_external_link key i w)) = true.
Proof.
  rewrite !stores_ok_parts. intros (Hd & Hc & Hl).
  unfold delete_external_link.
  destruct (load_links_view w) as [Hv Hs].
  destruct (load_links w) as [links w1]. cbn [fst snd] in *.
  destruct (delete_from links key i) as [[s'|]|] eqn:Hb; cbn [snd].
  - destruct (load_saved_links s' w1) as [Hs' Hsame].
    destruct (same_but_links_views (same_but_links_trans Hs Hsame)) as [-> ->].
    rewrite Hs'. split; [exact Hd|]. split; [exact Hc|].
    apply (@store_delete_ok links s' key i Hl Hb).
  - destruct (same_but_links_views Hs) as [-> ->]. rewrite Hv. auto.
  - destruct (same_but_links_views Hs) as [-> ->]. rewrite Hv. auto.
Qed.

End WritersKeepStoresOk.

Section FormEntries.

Variable str_of_exn : exn -> string.

(** The entry the form stores when no enrichment is asked for is
    canonical. *)
Lemma form_tool_canonical (now name link description category : string)
      (ks : list json) (price : Z) :
  canonical_tool
    (JDict [("name", JStr (PyStr.strip name));
            ("link", JStr (PyStr.strip link));
            ("description", JStr (PyStr.strip description));
            ("category", JStr (PyStr.strip category));
            ("keywords", JList ks);
            ("price_euros_1_to_5", JInt price);
            ("added_at", JStr now);
            ("id", JStr (PyStr.take 16
                           (SHA1.hexdigest
                              (PyStr.lower (PyStr.strip name) ++ "|"
                               ++ PyStr.lower (PyStr.strip link))%string)))]) = true.
Proof.
  unfold canonical_tool. rewrite normalize_normalized.
  destruct (has_name_or_link _); [|reflexivity].
  unfold tool_id. rewrite payload_normalized. cbn [bind].
  rewrite !strip_strip, lstrip_strip, rstrip_strip.
  change (Py.lookup _ "id")
    with (JStr (PyStr.take 16
                  (SHA1.hexdigest
                     (PyStr.lower (PyStr.strip name) ++ "|"
                      ++ PyStr.lower (PyStr.strip link))%string))).
  cbn [Py.is_str]. apply String.eqb_refl.
Qed.

Lemma add_tool_frame (now : string) (use_ai client : bool) (reply : exc json)
      (name link description category keywords : string) (price : Z) (w : World) :
  comments_file (snd (add_tool str_of_exn now use_ai client reply name link description
                               category keywords price w)) = comments_file w
  /\ links_file (snd (add_tool str_of_exn now use_ai client reply name link description
                               category keywords price w)) = links_file w.
Proof.
  unfold add_tool.
  destruct (String.eqb name "" || String.eqb link ""); [split; reflexivity|].
  assert (Hfiles : comments_file (snd (load_db w)) = comments_file w
                   /\ links_file (snd (load_db w)) = links_file w).
  { unfold load_db. destruct (db_file w); split; reflexivity. }
  destruct (load_db w) as [db w1]. cbn [fst snd] in *.
  destruct (tool_id _) as [i|]; [|exact Hfiles].
  destruct db as [| | | | |kv]; try exact Hfiles.
  destruct (bind _ _) as [[|]|]; try exact Hfiles.
  destruct (Py.append_at _ _ _) as [db'|]; [|exact Hfiles].
  cbn [snd]. destruct (load_db_shares_default w); simpl; [|exact Hfiles].
  destruct (publish_default_frame db' w1) as [-> ->]. exact Hfiles.
Qed.

Lemma add_tool_plain_ok (now : string) (client : bool) (reply : exc json)
      (name link description category keywords : string) (price : Z) (w : World) :
  stores_ok w = true ->
  stores_ok (snd (add_tool str_of_exn now false client reply name link description
                           category keywords price w)) = true.
Proof.
  rewrite !stores_ok_parts. intros (Hd & Hc & Hl).
  destruct (add_tool_frame now false client reply name link description category
                           keywords price w) as [Fc Fl].
  rewrite (load_comments_depends _ _ Fc), (load_links_depends _ _ Fl).
  split; [|split; assumption].
  destruct (add_tool_otherwise str_of_exn now false client reply name link description
                               category keywords price w) as [[tool Ha] | ->];
    [|exact Hd].
  destruct (add_tool str_of_exn now false client reply name link description
                     category keywords price w) as [o w'] eqn:H.
  cbn [fst snd] in *. subst o.
  destruct (@add_tool_added _ _ _ _ _ _ _ _ _ _ _ _ _ _ H)
    as (kv & l & Hdb & Ht & _ & Hfile & _).
  assert (Htool : canonical_tool (JDict tool) = true).
  { revert H. unfold add_tool.
    destruct (String.eqb name "" || String.eqb link ""); [discriminate|].
    destruct (form_tool_id str_of_exn false client reply now name link description
                           category keywords price) as (_ & _ & _ & _ & Hi).
    cbv zeta in Hi. cbv iota in Hi. cbv iota. rewrite Hi.
    destruct (load_db w) as [db w1].
    destruct db as [| | | | |kv0]; try discriminate.
    destruct (bind _ _) as [[|]|]; try discriminate.
    destruct (Py.append_at _ _ _); [|discriminate].
    intros H. inversion H; subst. apply form_tool_canonical. }
  unfold load_db. rewrite Hfile. cbn [fst].
  rewrite Hdb in Hd. unfold catalog_ok, Py.get_or in *.
  rewrite assoc_assign_same. rewrite Ht in Hd.
  rewrite forallb_app, Hd. cbn [forallb]. rewrite Htool. reflexivity.
Qed.

End FormEntries.

(** X24.  The four writers of comments and links keep the stores well
    formed: when the catalog holds canonical entries and the comments and
    links stores hold records with scalar ids, one list per key, they still
    do after [add_comment], [delete_comment], [add_external_link] and
    [delete_external_link], whatever their arguments. *)
Theorem annotation_writers_keep_stores_ok (w : World) :
  stores_ok w = true ->
  (forall now_id now_ts key author content rating,
      stores_ok (snd (add_comment now_id now_ts key author content rating w)) = true)
  /\ (forall key comment_id,
         stores_ok (snd (delete_comment key comment_id w)) = true)
  /\ (forall now_id now_added key title url link_type description,
         stores_ok (snd (add_external_link now_id now_added key title url link_type
                                           description w)) = true)
  /\ (forall key link_id,
         stores_ok (snd (delete_external_link key link_id w)) = true).
Proof.
  intros Hok. split; [|split; [|split]]; intros.
  - apply add_comment_ok. exact Hok.
  - apply delete_comment_ok. exact Hok.
  - apply add_link_ok. exact Hok.
  - apply delete_link_ok. exact Hok.
Qed.

Lemma annotation_writers_keep_stores_ok_witness :
  stores_ok sample_stores = true
  /\ stores_ok (snd (add_comment "2024-02-01T10:00:00" "2024-02-01T10:00:01"
                                 "e4fef98d862ee147" "cy" "nice" 9 sample_stores)) = true
  /\ stores_ok (snd (delete_comment "e4fef98d862ee147" "c1" sample_stores)) = true.
Proof.
  assert (H : stores_ok sample_stores = true) by (vm_compute; reflexivity).
  split; [exact H|].
  destruct (annotation_writers_keep_stores_ok sample_stores H) as (Ha & Hd & _).
  split; [apply Ha | apply Hd].
Defined.

(** X15.  The form keeps the stores well formed when no enrichment is
    asked for: the entry it stores is canonical, so stores that were well
    formed still are after a submission, whatever was typed and whatever
    the form reported. *)
Theorem add_tool_keeps_stores_ok (str_of_exn : exn -> string) (now : string)
  (client : bool) (reply : exc json)
  (name link description category keywords : string) (price : Z) (w : World) :
  stores_ok w = true ->
  stores_ok (snd (add_tool str_of_exn now false client reply name link description
                           category keywords price w)) = true.
Proof. apply add_tool_plain_ok. Qed.

Lemma add_tool_keeps_stores_ok_witness :
  stores_ok sample_stores = true
  /\ List.length
       (catalog (snd (add_tool (fun _ => "") "2024-03-01T00:00:00Z" false false
                               (Raise ValueError) " Beta " "https://beta.example "
                               "desc" "cat" "K1; k2" 4 sample_stores))) = 2%nat
  /\ stores_ok (snd (add_tool (fun _ => "") "2024-03-01T00:00:00Z" false false
                              (Raise ValueError) " Beta " "https://beta.example "
                              "desc" "cat" "K1; k2" 4 sample_stores)) = true.
Proof.
  assert (H : stores_ok sample_stores = true) by (vm_compute; reflexivity).
  split; [exact H|]. split; [vm_compute; reflexivity|].
  apply (@add_tool_keeps_stores_ok (fun _ => "") "2024-03-01T00:00:00Z" false
           (Raise ValueError) " Beta " "https://beta.example " "desc" "cat" "K1; k2" 4
           sample_stores H).
Defined.

(** X16.  The form and the import give a tool the same id: after the
    form reported a new entry, importing a document whose one tool has the
    same name and link up to case and surrounding blanks, and fields the
    import can normalize, counts nothing, reports no error and leaves the
    stores as they are, provided the ids of the catalog could be put in a
    set. *)
Theorem form_then_import (str_of_exn : exn -> string) (now : string)
  (use_ai client : bool) (reply : exc json)
  (name link description category keywords : string) (price : Z) (w w' : World)
  (tool : list (string * json))
  (clock : nat -> string) (t2 n2 : list (string * json)) (name2 link2 : string) :
  add_tool str_of_exn now use_ai client reply name link description category keywords
           price w = (Ok (Added tool), w') ->
  (exists ids, Py.id_set (JList (catalog w)) = Ok ids) ->
  Py.get_or t2 "name" (JStr "") = JStr name2 ->
  Py.get_or t2 "link" (JStr "") = JStr link2 ->
  PyStr.lower (PyStr.strip name2) = PyStr.lower (PyStr.strip name) ->
  PyStr.lower (PyStr.strip link2) = PyStr.lower (PyStr.strip link) ->
  normalize_tool (clock 0%nat) t2 = Ok n2 ->
  import_all_data clock (JDict [("tools", JList [JDict t2])]) w'
  = (mkResults 0 0 0 [], w').
Proof.
  intros H (ids & Hids) Hn2 Hl2 En El Hnorm.
  destruct (@add_tool_added _ _ _ _ _ _ _ _ _ _ _ _ _ _ H)
    as (kv & l & Hdb & Ht & _ & Hfile & _ & _ & _ & _ & _ & _ & Hi).
  assert (Hcat : catalog w = l).
  { unfold catalog. rewrite Hdb. simpl. rewrite Ht. reflexivity. }
  rewrite Hcat in Hids.
  unfold import_all_data, tools_section, comments_section, links_section.
  cbn [Py.assoc String.eqb Ascii.eqb Bool.eqb].
  change (version_errors _) with (@nil import_error).
  unfold import_tools, load_db, load_db_shares_default. rewrite Hfile.
  unfold Py.get_or at 1. rewrite assoc_assign_same.
  rewrite (@id_set_app l ids tool (Py.KStr (PyStr.take 16
             (SHA1.hexdigest (PyStr.lower (PyStr.strip name) ++ "|"
                              ++ PyStr.lower (PyStr.strip link))%string))) Hids)
    by (unfold Py.lookup in Hi; rewrite Hi; reflexivity).
  cbn [import_tools_loop import_tool].
  destruct (has_name_or_link t2).
  - rewrite Hnorm, (normalized_tool_id _ _ Hnorm Hn2 Hl2), En, El.
    cbn [ts_existing]. rewrite mem_app. cbn [Py.mem existsb Py.key_eqb]. rewrite String.eqb_refl.
    rewrite orb_true_r. cbn [ts_db ts_imported].
    rewrite (save_db_same _ Hfile). reflexivity.
  - cbn [ts_db ts_imported]. rewrite (save_db_same _ Hfile). reflexivity.
Qed.

Lemma form_then_import_witness :
  exists tool w',
    add_tool (fun _ => "") "2024-03-01T00:00:00Z" false false (Raise ValueError)
             " Bêta " "https://beta.example " "desc" "cat" "K1; k2" 4 sample_stores
    = (Ok (Added tool), w')
    /\ import_all_data fixed_clock
         (JDict [("tools", JList [JDict [("name", JStr "BÊTA");
                                         ("link", JStr " https://Beta.example")]])]) w'
       = (mkResults 0 0 0 [], w').
Proof.
  eexists _, _.
  assert (H : add_tool (fun _ => "") "2024-03-01T00:00:00Z" false false (Raise ValueError)
                " Bêta " "https://beta.example " "desc" "cat" "K1; k2" 4 sample_stores
              = (Ok (Added _), _)) by (vm_compute; reflexivity).
  split; [exact H|].
  eapply (@form_then_import (fun _ => "") _ _ _ _ _ _ _ _ _ _ _ _ _ fixed_clock
            [("name", JStr "BÊTA"); ("link", JStr " https://Beta.example")]
            _ "BÊTA" " https://Beta.example" H).
  - eexists. vm_compute. reflexivity.
  - reflexivity.
  - reflexivity.
  - vm_compute. reflexivity.
  - vm_compute. reflexivity.
  - vm_compute. reflexivity.
Defined.

(* ===================================================================== *)
(** * Keywords *)
(* ===================================================================== *)

Section KeywordFacts.

(** A trimmed, lowered piece that is not empty is a normalized keyword. *)
Lemma lower_strip_normalized (p : string) :
  PyStr.lower (PyStr.strip p) <> "" ->
  normalized_keyword (PyStr.lower (PyStr.strip p)).
Proof.
  intros H. split; [exact H|]. split.
  - rewrite strip_lower, strip_strip. reflexivity.
  - apply lower_lower.
Qed.

Lemma clean_keywords_length (l : list json) :
  (List.length (clean_keywords l) <= List.length l)%nat.
Proof.
  induction l as [|v l IH]; simpl; [lia|].
  destruct v; simpl; try lia.
  destruct (String.eqb (PyStr.strip s) ""); simpl; lia.
Qed.

Lemma clean_keywords_strings (l : list json) :
  exists ks,
    clean_keywords l = map JStr ks
    /\ Forall (fun k => normalized_keyword k
                        /\ exists s, In (JStr s) l /\ k = PyStr.lower (PyStr.strip s)) ks.
Proof.
  induction l as [|v l (ks & Hks & Hall)]; [exists []; split; constructor|].
  assert (Hweak : Forall (fun k => normalized_keyword k
                                   /\ exists s, In (JStr s) (v :: l)
                                                /\ k = PyStr.lower (PyStr.strip s)) ks).
  { eapply Forall_impl; [|exact Hall]. intros k [Hn (s & Hin & Hk)].
    split; [exact Hn|]. exists s. split; [right; exact Hin | exact Hk]. }
  destruct v; try (exists ks; split; [exact Hks | exact Hweak]).
  simpl. destruct (String.eqb (PyStr.strip s) "") eqn:E.
  - exists ks. split; [exact Hks | exact Hweak].
  - exists (PyStr.lower (PyStr.strip s) :: ks). split; [simpl; congruence|].
    constructor; [|exact Hweak]. split.
    + apply lower_strip_normalized. intros H. apply lower_empty in H.
      rewrite H in E. discriminate.
    + exists s. split; [left; reflexivity | reflexivity].
Qed.

End KeywordFacts.

(** X26.  Every keyword [normalize_kw] returns is normalized: it is not
    empty, and [strip] and [lower] leave it as it is (no blank at either
    end, no letter that has a lowercase form), whatever the text typed,
    accents and letters outside ASCII included. *)
Theorem normalize_kw_normalized (s : string) :
  Forall normalized_keyword (normalize_kw s).
Proof.
  unfold normalize_kw. destruct (String.eqb s ""); [constructor|].
  apply Forall_forall. intros k Hk.
  apply filter_In in Hk. destruct Hk as [Hin Hne].
  apply in_map_iff in Hin. destruct Hin as (p & <- & _).
  apply lower_strip_normalized. intros H. rewrite H in Hne. discriminate.
Qed.

(** X27.  The keywords of an enriched entry: for an entry whose name
    and link are strings and a reply that is an object whose ["keywords"]
    is a list (the empty list when the reply has none), [ai_enrich] with a
    client returns an entry flagged as enriched whose keywords are at most
    20 strings, each normalized and each the trimmed, lowered form of a
    string among the first 20 values of the reply; what the entry had for
    keywords is replaced. *)
Theorem enriched_keywords (str_of_exn : exn -> string)
  (tool data : list (string * json)) (name link : string) (l : list json) :
  Py.get_or tool "name" (JStr "") = JStr name ->
  Py.get_or tool "link" (JStr "") = JStr link ->
  Py.get_or data "keywords" (JList []) = JList l ->
  let tool' := ai_enrich str_of_exn true (Ok (JDict data)) tool in
  Py.lookup tool' "ai_enriched" = JBool true
  /\ exists ks,
       Py.lookup tool' "keywords" = JList (map JStr ks)
       /\ (List.length ks <= 20)%nat
       /\ Forall (fun k => normalized_keyword k
                           /\ exists s, In (JStr s) (firstn 20 l)
                                        /\ k = PyStr.lower (PyStr.strip s)) ks.
Proof.
  intros Hn Hk Hl tool'. unfold tool', ai_enrich, enrich_body.
  cbn [negb Py.get bind]. rewrite Hn, Hk, Hl. cbn [Py.add_str bind]. cbv zeta.
  unfold with_flags, Py.lookup, Py.get_or.
  split.
  - rewrite assoc_assign_other by discriminate. rewrite assoc_assign_same. reflexivity.
  - destruct (clean_keywords_strings (firstn 20 l)) as (ks & Hks & Hall).
    exists ks. split; [|split; [|exact Hall]].
    + rewrite !assoc_assign_other by discriminate.
      rewrite assoc_assign_same, Hks. reflexivity.
    + pose proof (clean_keywords_length (firstn 20 l)) as H1.
      pose proof (firstn_le_length 20 l) as H2.
      rewrite Hks, length_map in H1. lia.
Qed.

Lemma enriched_keywords_witness :
  exists ks,
    Py.lookup
      (ai_enrich (fun _ => "") true
         (Ok (JDict [("keywords", JList [JStr " AI "; JInt 3; JStr "  "; JStr "　ÉCOLE"])]))
         [("name", JStr "A"); ("link", JStr "x"); ("keywords", JList [JStr "old"])])
      "keywords" = JList (map JStr ks)
    /\ (List.length ks <= 20)%nat.
Proof.
  destruct (@enriched_keywords (fun _ => "")
              [("name", JStr "A"); ("link", JStr "x"); ("keywords", JList [JStr "old"])]
              [("keywords", JList [JStr " AI "; JInt 3; JStr "  "; JStr "　ÉCOLE"])]
              "A" "x" [JStr " AI "; JInt 3; JStr "  "; JStr "　ÉCOLE"]
              eq_refl eq_refl eq_refl) as (_ & ks & Hk & Hlen & _).
  exists ks. split; [exact Hk | exact Hlen].
Defined.

(* ===================================================================== *)
(** * The exact step of the search *)
(* ===================================================================== *)

Section ExactSearch.

Variable token_set_ratio : string -> string -> Q.
Variable py_str : json -> string.

(** [exact_phase] keeps the entries that match, in their order. *)
Lemma exact_phase_filter (q : string) (tools : list json) (hits : list bool) :
  mapM (exact_match q) tools = Ok hits ->
  exact_phase q tools = Ok (map fst (filter snd (combine tools hits))).
Proof.
  revert hits. induction tools as [|t tools IH]; intros hits H.
  - simpl in H. inversion H. reflexivity.
  - cbn [mapM exact_phase] in *.
    destruct (exact_match q t) as [b|]; [|discriminate]. cbn [bind] in *.
    destruct (mapM (exact_match q) tools) as [bs|]; [|discriminate]. cbn [bind] in *.
    inversion H; subst. rewrite (IH bs eq_refl). cbn [bind combine filter snd].
    destruct b; reflexivity.
Qed.

Lemma filter_hits_nonempty (tools : list json) (hits : list bool) :
  List.length hits = List.length tools ->
  existsb (fun b => b) hits = true ->
  map fst (filter snd (combine tools hits)) <> [].
Proof.
  revert hits. induction tools as [|t tools IH]; intros [|b hits] Hlen Hex;
    try discriminate.
  simpl in *. destruct b; [discriminate|].
  apply IH; [congruence | exact Hex].
Qed.

(** X28.  Exact matches come first and alone: when the query is not empty,
    every entry can be tested and at least one entry matches on its name,
    a keyword or its category, the search shows exactly the matching
    entries, in the order of the catalog, whether or not the GPT search is
    asked for and whatever it would answer. *)
Theorem exact_matches_are_shown (use_gpt have_openai : bool) (gpt : exc (list json))
  (query : string) (tools : list json) (hits : list bool) :
  query <> "" ->
  mapM (exact_match (PyStr.lower query)) tools = Ok hits ->
  existsb (fun b => b) hits = true ->
  search token_set_ratio py_str use_gpt have_openai gpt query tools
  = Ok (ExactResults (map fst (filter snd (combine tools hits)))).
Proof.
  intros Hq Hm Hex. unfold search.
  apply String.eqb_neq in Hq. rewrite Hq.
  pose proof (mapM_length _ _ Hm) as Hlen.
  pose proof (filter_hits_nonempty tools hits Hlen Hex) as Hne.
  destruct tools as [|t tools]; [simpl in Hm; inversion Hm; subst; discriminate|].
  rewrite (exact_phase_filter _ _ Hm). cbn [bind].
  destruct (map fst (filter snd (combine (t :: tools) hits))); [congruence|reflexivity].
Qed.

End ExactSearch.

Lemma exact_matches_are_shown_witness :
  mapM (exact_match (PyStr.lower "CHAT")) sample_catalog = Ok [true; false]
  /\ search sample_ratio sample_str true true (Ok [midjourney]) "CHAT" sample_catalog
     = Ok (ExactResults [chatgpt]).
Proof.
  assert (H : mapM (exact_match (PyStr.lower "CHAT")) sample_catalog = Ok [true; false])
    by (vm_compute; reflexivity).
  split; [exact H|].
  apply (@exact_matches_are_shown sample_ratio sample_str true true (Ok [midjourney])
           "CHAT" sample_catalog [true; false]).
  - discriminate.
  - exact H.
  - reflexivity.
Defined.

(* ===================================================================== *)
(** * Export *)
(* ===================================================================== *)

(** X29.  [export_all_data] takes a snapshot and changes nothing that can
    be read: after it the three loaders give what they gave before, and the
    document it returns holds the list of tools, the comments and the links
    exactly as the loaders give them, under version ["1.0"] and the date
    of the export. *)
Theorem export_is_a_snapshot (export_date : string) (w : World) :
  let res := export_all_data export_date w in
  (fst (load_db (snd res)) = fst (load_db w)
   /\ fst (load_comments (snd res)) = fst (load_comments w)
   /\ fst (load_links (snd res)) = fst (load_links w)
   /\ DEFAULT_DB_tools (snd res) = DEFAULT_DB_tools w)
  /\ forall doc,
       fst res = Ok doc ->
       Py.get (fst (load_db w)) "tools" (JList []) = Ok (field doc "tools")
       /\ field doc "comments" = fst (load_comments w)
       /\ field doc "external_links" = fst (load_links w)
       /\ field doc "version" = JStr "1.0"
       /\ field doc "export_date" = JStr export_date.
Proof.
  intros res. unfold res, export_all_data.
  pose proof (loads_stable w) as St. cbv zeta in St.
  assert (HD : DEFAULT_DB_tools (snd (load_links (snd (load_comments (snd (load_db w))))))
               = DEFAULT_DB_tools w).
  { destruct w as [df cf lf D]. destruct df, cf, lf; reflexivity. }
  revert St HD.
  destruct (load_db w) as [db w1]. cbn [fst snd].
  destruct (load_comments w1) as [cs w2]. cbn [fst snd].
  destruct (load_links w2) as [ls w3]. cbn [fst snd].
  intros (S1 & S2 & S3 & S4 & S5) HD.
  split; [repeat split; assumption|].
  intros doc.
  destruct (Py.get db "tools" (JList [])) as [tools|]; [|discriminate]. cbn [bind].
  destruct (Py.len tools); [|discriminate]. cbn [bind].
  destruct (values cs); [|discriminate]. cbn [bind].
  destruct (sum_len _); [|discriminate]. cbn [bind].
  destruct (values ls); [|discriminate]. cbn [bind].
  destruct (sum_len _); [|discriminate]. cbn [bind].
  intros H. inversion H; subst doc. cbn.
  repeat split; congruence.
Qed.

Section ExportCounts.

Lemma sum_len_total (kv : list (string * json)) :
  forallb (fun p => match snd p with
                    | JList items => forallb record_ok items
                    | _ => false
                    end) kv = true ->
  sum_len (map snd kv) = Ok (total_records (JDict kv)).
Proof.
  unfold total_records.
  induction kv as [|[k v] kv IH]; intros H; [reflexivity|].
  cbn [forallb snd] in H. apply andb_true_iff in H. destruct H as [Hv Hkv].
  cbn [map snd sum_len list_sum]. rewrite (IH Hkv).
  destruct v; try discriminate. reflexivity.
Qed.

End ExportCounts.

(** X30.  The counts of an export: on well-formed stores
    [export_all_data] returns a document whose metadata give the length of
    the catalog, the number of comments and the number of links, all
    entries together, as the loaders show them. *)
Theorem export_metadata_counts (export_date : string) (w : World) :
  stores_ok w = true ->
  exists doc,
    fst (export_all_data export_date w) = Ok doc
    /\ field (field doc "metadata") "total_tools"
       = JInt (Z.of_nat (List.length (catalog w)))
    /\ field (field doc "metadata") "total_comments"
       = JInt (Z.of_nat (total_records (fst (load_comments w))))
    /\ field (field doc "metadata") "total_links"
       = JInt (Z.of_nat (total_records (fst (load_links w)))).
Proof.
  intros Hok. apply stores_ok_parts in Hok. destruct Hok as (Hd & Hc & Hl).
  pose proof (loads_stable w) as St. cbv zeta in St.
  unfold export_all_data, catalog.
  revert Hd Hc Hl St.
  destruct (load_db w) as [db w1]. cbn [fst snd].
  destruct (load_comments w1) as [cs w2]. cbn [fst snd].
  destruct (load_links w2) as [ls w3]. cbn [fst snd].
  intros Hd Hc Hl (_ & _ & _ & S4 & S5).
  rewrite <- S4 in Hc. rewrite <- S4. rewrite <- S5 in Hl. rewrite <- S5.
  destruct db as [| | | | |kv]; try discriminate.
  cbn [catalog_ok] in Hd. cbn [tools_of]. unfold Py.get_or in Hd.
  cbn [Py.get bind]. unfold Py.get_or.
  destruct (Py.assoc "tools" kv) as [[| | | |tools|]|] eqn:Ht; try discriminate.
  - destruct cs as [| | | | |ckv]; try discriminate.
    destruct ls as [| | | | |lkv]; try discriminate.
    cbn [annotations_ok] in Hc, Hl. apply andb_true_iff in Hc, Hl.
    cbn [Py.len values bind].
    rewrite (sum_len_total _ (proj2 Hc)), (sum_len_total _ (proj2 Hl)). cbn [bind].
    eexists. split; [reflexivity|]. cbn. auto.
  - destruct cs as [| | | | |ckv]; try discriminate.
    destruct ls as [| | | | |lkv]; try discriminate.
    cbn [annotations_ok] in Hc, Hl. apply andb_true_iff in Hc, Hl.
    cbn [Py.len values bind].
    rewrite (sum_len_total _ (proj2 Hc)), (sum_len_total _ (proj2 Hl)). cbn [bind].
    eexists. split; [reflexivity|]. cbn. auto.
Qed.

Lemma export_metadata_counts_witness :
  stores_ok sample_stores = true
  /\ exists doc,
       fst (export_all_data "2024-01-03T00:00:00" sample_stores) = Ok doc
       /\ field (field doc "metadata") "total_tools" = JInt 1
       /\ field (field doc "metadata") "total_comments" = JInt 1.
Proof.
  assert (H : stores_ok sample_stores = true) by (vm_compute; reflexivity).
  split; [exact H|].
  destruct (export_metadata_counts "2024-01-03T00:00:00" sample_stores H)
    as (doc & Hd & Ht & Hc & _).
  exists doc. split; [exact Hd|]. split; [rewrite Ht | rewrite Hc]; reflexivity.
Defined.
